(** * Resume fraud detector: [backend/fraud_detector.py]

    A shallow embedding of [FraudDetector] and of the part of Python it
    relies on, followed by the properties of the risk report.

    Conventions of the embedding.
    - A Python [str] is a list of code points ([pystr]).
    - Python numbers ([int], [float]) are exact integers and rationals ([Z],
      [Q]): float rounding, infinities, NaN and the interpreter's limit on
      the number of digits [int] converts are not modelled.
    - A caught exception is a value of [result]; a [try ... except] block that
      mutates the [analysis] dictionary is a computation in the monad [M],
      which keeps the mutations made before the exception.
    - What the third-party libraries return ([pdfplumber], [PyPDF2],
      [textstat]) and the Unicode character database are inputs of the
      model.  [re.findall] is modelled by a backtracking matcher for the
      constructs that occur in the patterns of the source. *)

From Stdlib Require Import String Ascii.
From Stdlib Require Import ZArith QArith Qminmax Qabs Bool Lia Lqa List.
From Stdlib Require Import Permutation.
Import ListNotations.
Local Close Scope Q_scope.
Local Open Scope list_scope.

Set Implicit Arguments.

(* ===================================================================== *)
(** * Python values *)
(* ===================================================================== *)

Definition pystr := list Z.

(** The code points of a string literal of the source. *)
Definition cp (s : string) : pystr :=
  map (fun a => Z.of_N (N_of_ascii a)) (list_ascii_of_string s).

Definition pystr_eqb (a b : pystr) : bool :=
  if list_eq_dec Z.eq_dec a b then true else false.

Inductive exn :=
| KeyError
| TypeError
| AttributeError
| ValueError
| LibraryError.   (* raised inside pdfplumber, PyPDF2 or textstat *)

Inductive result (A : Type) :=
| Ok (a : A)
| Raise (e : exn).
Arguments Ok {A} a.
Arguments Raise {A} e.

Definition rbind {A B} (r : result A) (k : A -> result B) : result B :=
  match r with
  | Ok a => k a
  | Raise e => Raise e
  end.

(** The dynamically typed values that reach the detector through
    [parsed_data] and through the colour entries of a glyph. *)
#[local] Unset Elimination Schemes.
Inductive pyval :=
| PNone
| PBool (b : bool)
| PNum (q : Q)
| PStr (s : pystr)
| PList (l : list pyval)
| PDict (d : list (pystr * pyval)).
#[local] Set Elimination Schemes.

Definition Qltb (a b : Q) : bool := negb (Qle_bool b a).

(** [bool(v)] *)
Definition py_truthy (v : pyval) : bool :=
  match v with
  | PNone => false
  | PBool b => b
  | PNum q => negb (Qeq_bool q 0)
  | PStr s => negb (Nat.eqb (length s) 0)
  | PList l => negb (Nat.eqb (length l) 0)
  | PDict d => negb (Nat.eqb (length d) 0)
  end.

Fixpoint dict_find (d : list (pystr * pyval)) (k : pystr) : option pyval :=
  match d with
  | [] => None
  | (k', v) :: d' => if pystr_eqb k' k then Some v else dict_find d' k
  end.

(** [v[k]] for a string key *)
Definition py_getitem (v : pyval) (k : pystr) : result pyval :=
  match v with
  | PDict d => match dict_find d k with Some x => Ok x | None => Raise KeyError end
  | _ => Raise TypeError
  end.

(** [v.get(k, default)] *)
Definition py_get (v : pyval) (k : pystr) (default : pyval) : result pyval :=
  match v with
  | PDict d => match dict_find d k with Some x => Ok x | None => Ok default end
  | _ => Raise AttributeError
  end.

(** [len(v)] *)
Definition py_len (v : pyval) : result nat :=
  match v with
  | PStr s => Ok (length s)
  | PList l => Ok (length l)
  | PDict d => Ok (length d)
  | _ => Raise TypeError
  end.

(** The number behind a value in an ordering comparison with a number. *)
Definition py_number (v : pyval) : result Q :=
  match v with
  | PNum q => Ok q
  | PBool b => Ok (if b then 1 else 0)%Q
  | _ => Raise TypeError
  end.

(** [v < c] and [v > c] for a numeric literal [c] *)
Definition py_lt (v : pyval) (c : Q) : result bool :=
  rbind (py_number v) (fun q => Ok (Qltb q c)).
Definition py_gt (v : pyval) (c : Q) : result bool :=
  rbind (py_number v) (fun q => Ok (Qltb c q)).

Definition Qnat (n : nat) : Q := inject_Z (Z.of_nat n).

(* ===================================================================== *)
(** * Characters *)
(* ===================================================================== *)

Definition between (lo hi c : Z) : bool := (lo <=? c)%Z && (c <=? hi)%Z.

Definition ascii_isspace (c : Z) : bool := between 9 13 c || between 28 32 c.
Definition ascii_isdigit (c : Z) : bool := between 48 57 c.
Definition ascii_isupper (c : Z) : bool := between 65 90 c.
Definition ascii_islower (c : Z) : bool := between 97 122 c.
Definition ascii_isalnum (c : Z) : bool :=
  ascii_isdigit c || ascii_isupper c || ascii_islower c.
Definition ascii_lower (c : Z) : Z := if ascii_isupper c then (c + 32)%Z else c.
Definition is_ascii (c : Z) : bool := (c <? 128)%Z.

(** The Unicode character database, consulted for code points from 128 up
    (and by [str.lower] for strings that contain one).  A decimal digit has
    a value from 0 to 9 and is not white space. *)
Record Unicode := {
  u_isspace : Z -> bool;            (* str.isspace *)
  u_isalnum : Z -> bool;            (* the class behind \w *)
  u_decimal : Z -> option Z;        (* value of a decimal digit *)
  u_lower1 : Z -> Z;                (* simple lower-case mapping *)
  u_lower : pystr -> pystr;         (* str.lower *)
  u_equiv : Z -> Z -> bool;         (* extra case equivalents of re.IGNORECASE *)
  u_decimal_range :
    forall c d, u_decimal c = Some d -> (0 <= d < 10)%Z;
  u_decimal_not_space :
    forall c d, u_decimal c = Some d -> u_isspace c = false
}.

(* ===================================================================== *)
(** * Regular expressions ([re.findall]) *)
(* ===================================================================== *)

(** The constructs the detector's patterns are written with.  [RRep a lo hi]
    is the greedy [a{lo,hi}]; [RBackref i norm] compares with group [i]
    after applying [norm] to both characters (the identity, or lower-casing
    under [re.IGNORECASE]); [RWordB] is [\b]. *)
Inductive regex :=
| RChar (p : Z -> bool)
| REps
| RSeq (a b : regex)
| RAlt (a b : regex)
| RRep (a : regex) (lo : nat) (hi : option nat)
| RGroup (i : nat) (a : regex)
| RBackref (i : nat) (norm : Z -> Z)
| RWordB (word : Z -> bool).

(** A position of the matcher: the character before it, the text after it
    and the groups captured so far. *)
Record mstate := {
  m_prev : option Z;
  m_rest : pystr;
  m_groups : list (nat * pystr)
}.

Fixpoint group_find (gs : list (nat * pystr)) (i : nat) : option pystr :=
  match gs with
  | [] => None
  | (j, g) :: gs' => if Nat.eqb j i then Some g else group_find gs' i
  end.

(** Consume a copy of [g] from [rest], comparing modulo [norm]. *)
Fixpoint eat (norm : Z -> Z) (g rest : pystr) (prev : option Z)
  : option (option Z * pystr) :=
  match g with
  | [] => Some (prev, rest)
  | c :: g' =>
      match rest with
      | d :: rest' =>
          if (norm c =? norm d)%Z then eat norm g' rest' (Some d) else None
      | [] => None
      end
  end.

Definition at_word (word : Z -> bool) (c : option Z) : bool :=
  match c with Some x => word x | None => false end.

(** Greedy repetition: the ends of [count] iterations already made, then of
    more of them, longest first.  [fuel] bounds the further iterations by
    the length of the text left, which is exact when every iteration
    consumes a character - the case of every repetition in the detector's
    patterns. *)
Fixpoint rep (step : mstate -> list mstate) (lo : nat) (hi : option nat)
    (count fuel : nat) (s : mstate) : list mstate :=
  let stop := if (lo <=? count)%nat then [s] else [] in
  match fuel with
  | O => stop
  | S f =>
      let again :=
        match hi with Some h => (count <? h)%nat | None => true end in
      (if again then flat_map (rep step lo hi (S count) f) (step s) else [])
      ++ stop
  end.

(** All the ways [r] matches at position [s], in the order in which a
    backtracking matcher finds them; the first is the match [re] reports. *)
Fixpoint rmatch (r : regex) (s : mstate) : list mstate :=
  match r with
  | RChar p =>
      match m_rest s with
      | c :: t =>
          if p c
          then [ {| m_prev := Some c; m_rest := t; m_groups := m_groups s |} ]
          else []
      | [] => []
      end
  | REps => [s]
  | RSeq a b => flat_map (rmatch b) (rmatch a s)
  | RAlt a b => rmatch a s ++ rmatch b s
  | RRep a lo hi => rep (rmatch a) lo hi 0 (length (m_rest s)) s
  | RGroup i a =>
      map (fun s' =>
             let g := firstn (length (m_rest s) - length (m_rest s')) (m_rest s) in
             {| m_prev := m_prev s'; m_rest := m_rest s';
                m_groups := (i, g) :: m_groups s' |})
          (rmatch a s)
  | RBackref i norm =>
      match group_find (m_groups s) i with
      | Some g =>
          match eat norm g (m_rest s) (m_prev s) with
          | Some (prev', rest') =>
              [ {| m_prev := prev'; m_rest := rest'; m_groups := m_groups s |} ]
          | None => []
          end
      | None => []
      end
  | RWordB word =>
      if xorb (at_word word (m_prev s)) (at_word word (hd_error (m_rest s)))
      then [s] else []
  end.

(** One match: the text matched and its groups. *)
Record rematch := {
  mt_text : pystr;
  mt_groups : list (nat * pystr)
}.

Definition mt_group (m : rematch) (i : nat) : pystr :=
  match group_find (mt_groups m) i with Some g => g | None => [] end.

(** The match starting exactly at the current position, with its length. *)
Definition match_at (r : regex) (prev : option Z) (s : pystr)
  : option (nat * rematch) :=
  match rmatch r {| m_prev := prev; m_rest := s; m_groups := [] |} with
  | s' :: _ =>
      let n := (length s - length (m_rest s'))%nat in
      Some (n, {| mt_text := firstn n s; mt_groups := m_groups s' |})
  | [] => None
  end.

(** Left-to-right search for non-overlapping matches; [skip] counts the
    characters still covered by the last match.  None of the detector's
    patterns matches the empty string. *)
Fixpoint scan (r : regex) (skip : nat) (prev : option Z) (s : pystr)
    {struct s} : list rematch :=
  match skip with
  | S k =>
      match s with
      | c :: t => scan r k (Some c) t
      | [] => []
      end
  | O =>
      match match_at r prev s with
      | Some (n, m) =>
          m :: match s with
               | c :: t => scan r (pred n) (Some c) t
               | [] => []
               end
      | None =>
          match s with
          | c :: t => scan r 0 (Some c) t
          | [] => []
          end
      end
  end.

(** [re.findall(pattern, text)], each match with its groups *)
Definition findall (r : regex) (text : pystr) : list rematch :=
  scan r 0 None text.

(** Pattern combinators. *)
Definition rlit (c : Z) : regex := RChar (Z.eqb c).
Definition rseq (l : list regex) : regex := fold_right RSeq REps l.
Definition ralt (a : regex) (l : list regex) : regex := fold_left RAlt l a.
Definition rstar (a : regex) : regex := RRep a 0 None.
Definition rplus (a : regex) : regex := RRep a 1 None.
Definition rstr (s : string) : regex := rseq (map rlit (cp s)).
Definition not_newline (c : Z) : bool := negb (c =? 10)%Z.

(** [s in text] *)
Fixpoint starts_with (p s : pystr) : bool :=
  match p with
  | [] => true
  | c :: p' =>
      match s with
      | d :: s' => (c =? d)%Z && starts_with p' s'
      | [] => false
      end
  end.

Fixpoint contains (p s : pystr) : bool :=
  starts_with p s ||
  match s with
  | _ :: s' => contains p s'
  | [] => false
  end.

Section Detector.

Variable U : Unicode.

(** [textstat.flesch_reading_ease] *)
Variable flesch_reading_ease : pyval -> result Q.

Definition is_space (c : Z) : bool :=
  if is_ascii c then ascii_isspace c else u_isspace U c.

Definition is_word (c : Z) : bool :=
  if is_ascii c then ascii_isalnum c || (c =? 95)%Z else u_isalnum U c.

Definition decimal_value (c : Z) : option Z :=
  if is_ascii c then (if ascii_isdigit c then Some (c - 48)%Z else None)
  else u_decimal U c.

Definition is_digit (c : Z) : bool :=
  match decimal_value c with Some _ => true | None => false end.

Definition lower1 (c : Z) : Z :=
  if is_ascii c then ascii_lower c else u_lower1 U c.

(** [s.lower()] *)
Definition py_lower (s : pystr) : pystr :=
  if forallb is_ascii s then map ascii_lower s else u_lower U s.

(** [s.endswith(suffix)] *)
Definition endswith (s suffix : pystr) : bool :=
  pystr_eqb (skipn (length s - length suffix) s) suffix
  && (length suffix <=? length s)%nat.

(** [s.lstrip('#')] *)
Fixpoint lstrip_hash (s : pystr) : pystr :=
  match s with
  | c :: t => if (c =? 35)%Z then lstrip_hash t else s
  | [] => []
  end.

(** White space as [int] and [float] skip it around a number: of the ASCII
    characters only tab to carriage return and the space. *)
Definition is_space_number (c : Z) : bool :=
  if is_ascii c then between 9 13 c || (c =? 32)%Z else u_isspace U c.

(** That white space removed on the left, and on both sides. *)
Fixpoint lstrip_space (s : pystr) : pystr :=
  match s with
  | c :: t => if is_space_number c then lstrip_space t else s
  | [] => []
  end.

Definition strip_space (s : pystr) : pystr :=
  rev (lstrip_space (rev (lstrip_space s))).

(* ===================================================================== *)
(** * [int(s, 16)], [int(s)] and [float(s)] *)
(* ===================================================================== *)

(** Value of a digit in the given base: ASCII letters, or a decimal digit of
    any script. *)
Definition digit_value (base : Z) (c : Z) : option Z :=
  let v :=
    if is_ascii c then
      if ascii_isdigit c then Some (c - 48)%Z
      else if ascii_islower c then Some (c - 87)%Z
      else if ascii_isupper c then Some (c - 55)%Z
      else None
    else u_decimal U c in
  match v with
  | Some d => if (d <? base)%Z then Some d else None
  | None => None
  end.

(** Digits with single underscores between them; [acc] is the value read so
    far and [prev_digit] tells whether the previous character was a digit. *)
Fixpoint parse_digits (base : Z) (s : pystr) (acc : Z) (prev_digit : bool)
  : option Z :=
  match s with
  | [] => if prev_digit then Some acc else None
  | c :: t =>
      if (c =? 95)%Z then
        if prev_digit then parse_digits base t acc false else None
      else
        match digit_value base c with
        | Some d => parse_digits base t (acc * base + d)%Z true
        | None => None
        end
  end.

(** An optional sign in front of a number. *)
Definition split_sign (s : pystr) : Z * pystr :=
  match s with
  | c :: r =>
      if (c =? 43)%Z then (1%Z, r)
      else if (c =? 45)%Z then ((-1)%Z, r)
      else (1%Z, s)
  | [] => (1%Z, s)
  end.

(** [int(s, base)] for base 10 or 16: surrounding white space, a sign, for
    base 16 an optional [0x] prefix (after which one underscore may come). *)
Definition py_int (base : Z) (s : pystr) : result Z :=
  let '(sign, s2) := split_sign (strip_space s) in
  let body :=
    match s2 with
    | z :: x :: r =>
        if ((z =? 48) && (base =? 16) && ((x =? 120) || (x =? 88)))%Z
        then match r with
             | u :: r' =>
                 if (u =? 95)%Z then parse_digits base r' 0 false
                 else parse_digits base r 0 false
             | [] => parse_digits base r 0 false
             end
        else parse_digits base s2 0 false
    | _ => parse_digits base s2 0 false
    end in
  match body with
  | Some n => Ok (sign * n)%Z
  | None => Raise ValueError
  end.

(** [s[i:j]] *)
Definition slice (s : pystr) (i j : nat) : pystr := firstn (j - i) (skipn i s).

(** The text before the first point, and the text after it if there is
    one. *)
Fixpoint split_dot (s : pystr) : pystr * option pystr :=
  match s with
  | [] => ([], None)
  | c :: t =>
      if (c =? 46)%Z then ([], Some t)
      else let '(a, b) := split_dot t in (c :: a, b)
  end.

(** [float(s)] on the strings the [Td] pattern captures: a sign, decimal
    digits and an optional fraction.  The value is the exact decimal. *)
Definition py_float (s : pystr) : result Q :=
  let '(sign, s2) := split_sign (strip_space s) in
  let '(int_part, frac_part) := split_dot s2 in
  match parse_digits 10 int_part 0 false, frac_part with
  | Some i, None => Ok (inject_Z (sign * i))
  | Some i, Some f =>
      match parse_digits 10 f 0 false with
      | Some j =>
          let k := List.length (filter (fun c => negb (c =? 95)%Z) f) in
          Ok (inject_Z sign * (inject_Z i + inject_Z j / inject_Z (10 ^ Z.of_nat k)))%Q
      | None => Raise ValueError
      end
  | None, _ => Raise ValueError
  end.

(* ===================================================================== *)
(** * Colour helpers *)
(* ===================================================================== *)

(** [color.lstrip('#')]: only a [str] has the method. *)
Definition py_lstrip_hash (color : pyval) : result pystr :=
  match color with
  | PStr s => Ok (lstrip_hash s)
  | _ => Raise AttributeError
  end.

(** The three channels [int(color[0:2], 16), int(color[2:4], 16),
    int(color[4:6], 16)] of a stripped colour of length 6. *)
Definition rgb (color : pystr) : result (Z * Z * Z) :=
  rbind (py_int 16 (slice color 0 2)) (fun r =>
  rbind (py_int 16 (slice color 2 4)) (fun g =>
  rbind (py_int 16 (slice color 4 6)) (fun b =>
  Ok (r, g, b)))).

(** The body of [_is_light_color]: [Ok (Some b)] when it returns [b],
    [Ok None] when it falls out of the [if]. *)
Definition is_light_color_body (color : pyval) : result (option bool) :=
  rbind (py_lstrip_hash color) (fun color =>
  if (List.length color =? 6)%nat then
    rbind (rgb color) (fun '(r, g, b) =>
    let luminance :=
      ((0.299 * inject_Z r + 0.587 * inject_Z g + 0.114 * inject_Z b) / 255)%Q in
    Ok (Some (Qltb 0.9 luminance)))
  else Ok None).

(** [_is_light_color]: the bare [except] and the fall-through return
    [False]. *)
Definition _is_light_color (color : pyval) : bool :=
  match is_light_color_body color with
  | Ok (Some b) => b
  | _ => false
  end.

(** The body of [_colors_too_similar].  The distance
    [((r1-r2)**2 + (g1-g2)**2 + (b1-b2)**2)**0.5] is below 30 exactly when
    the sum of squares is below 900. *)
Definition colors_too_similar_body (color1 color2 : pyval)
  : result (option bool) :=
  rbind (py_lstrip_hash color1) (fun color1 =>
  rbind (py_lstrip_hash color2) (fun color2 =>
  if ((List.length color1 =? 6) && (List.length color2 =? 6))%nat then
    rbind (rgb color1) (fun '(r1, g1, b1) =>
    rbind (rgb color2) (fun '(r2, g2, b2) =>
    let color_diff_squared :=
      ((r1 - r2) ^ 2 + (g1 - g2) ^ 2 + (b1 - b2) ^ 2)%Z in
    Ok (Some (color_diff_squared <? 30 * 30)%Z)))
  else Ok None)).

Definition _colors_too_similar (color1 color2 : pyval) : bool :=
  match colors_too_similar_body color1 color2 with
  | Ok (Some b) => b
  | _ => false
  end.

(* ===================================================================== *)
(** * The document as the libraries present it *)
(* ===================================================================== *)

(** One entry of [page.chars]: a dictionary whose keys may be missing.
    The position and the size are numbers, the text a string; a colour can
    be any value. *)
Record Glyph := {
  g_text : option pystr;
  g_x0 : option Q;
  g_y0 : option Q;
  g_size : option Q;
  g_color : option pyval;
  g_bgcolor : option pyval
}.

(** A [pdfplumber] page: its characters and [page.bbox]. *)
Record Page := {
  chars : list Glyph;
  bbox : Q * Q * Q * Q
}.

Definition bbox2 (p : Page) : Q := let '(_, _, c, _) := bbox p in c.
Definition bbox3 (p : Page) : Q := let '(_, _, _, d) := bbox p in d.

(** The file at [file_path]: what [pdfplumber.open] gives (its pages, or
    an exception while the pages are read), and what [PyPDF2.PdfReader]
    gives: for each page the decoded content stream, or [None] when the
    page has no contents. *)
Record File := {
  file_path : pystr;
  plumber_pages : result (list Page);
  pypdf_pages : result (list (option pystr))
}.

(** [file_path.lower().endswith('.pdf')] *)
Definition is_pdf (file : File) : bool :=
  endswith (py_lower (file_path file)) (cp ".pdf").

(* ===================================================================== *)
(** * Signals and the error-keeping state monad *)
(* ===================================================================== *)

(** The formatted messages put in [issues], with the values they print. *)
Inductive Issue :=
| HiddenText (white_text_ratio : Q)
| ExcessiveTinyText (tiny_text_ratio : Q)
| StuffedSkills (n : nat)
| RepetitionPatterns (n : nat)
| InvisibleCharacters (n : nat)
| ExcessiveWhitespace (n : nat)
| SmallText (tiny_text_ratio : Q)
| VariableFontSizes
| ExcessiveSkills
| PoorReadability
| MissingContact
| UnrealisticExperience
| StreamManipulation (n : nat)
| AnalysisFailed.

(** The [analysis] dictionary of one detector.  Of [details] only the
    [error] entry is kept: the other entries are diagnostics that nothing
    reads back. *)
Record Signal := {
  detected : bool;
  risk_score : Q;
  issues : list Issue;
  details_error : option exn
}.

Definition new_analysis : Signal :=
  {| detected := false; risk_score := 0; issues := []; details_error := None |}.

Definition set_detected (a : Signal) : Signal :=
  {| detected := true; risk_score := risk_score a; issues := issues a;
     details_error := details_error a |}.
Definition set_risk_score (q : Q) (a : Signal) : Signal :=
  {| detected := detected a; risk_score := q; issues := issues a;
     details_error := details_error a |}.
Definition add_risk_score (q : Q) (a : Signal) : Signal :=
  set_risk_score (risk_score a + q) a.
Definition set_issues (l : list Issue) (a : Signal) : Signal :=
  {| detected := detected a; risk_score := risk_score a; issues := l;
     details_error := details_error a |}.
Definition append_issue (i : Issue) (a : Signal) : Signal :=
  set_issues (issues a ++ [i]) a.
Definition set_error (e : exn) (a : Signal) : Signal :=
  {| detected := detected a; risk_score := risk_score a; issues := issues a;
     details_error := Some e |}.

(** A block of statements working on [analysis]: it ends normally or by an
    exception, and either way leaves the dictionary as mutated so far. *)
Definition M (A : Type) : Type := Signal -> result A * Signal.

Definition ret {A} (a : A) : M A := fun s => (Ok a, s).
Definition bind {A B} (m : M A) (k : A -> M B) : M B :=
  fun s =>
    match m s with
    | (Ok a, s') => k a s'
    | (Raise e, s') => (Raise e, s')
    end.
Definition lift {A} (r : result A) : M A := fun s => (r, s).
Definition update (f : Signal -> Signal) : M unit := fun s => (Ok tt, f s).
Definition when (b : bool) (m : M unit) : M unit := if b then m else ret tt.

Notation "x <- m ;; k" := (bind m (fun x => k))
  (at level 61, m at next level, right associativity).
Notation "m ;; k" := (bind m (fun _ => k))
  (at level 61, right associativity).

(** [try: body except Exception as e: handler; return analysis] *)
Definition try_except (body : M unit) (handler : exn -> Signal -> Signal)
  : Signal :=
  match body new_analysis with
  | (Ok _, a) => a
  | (Raise e, a) => handler e a
  end.

(** The handler that only logs. *)
Definition log_error (e : exn) (a : Signal) : Signal := a.

Definition count {A} (f : A -> bool) (l : list A) : nat :=
  List.length (filter f l).

Definition Qsum (l : list Q) : Q := fold_left Qplus l 0%Q.

(* ===================================================================== *)
(** * [_detect_white_text] *)
(* ===================================================================== *)

(** [char.get('size', default)], [char.get('x0', 0)], [char.get('y0', 0)]
    and [char.get('text', '')] *)
Definition size_or (default : Q) (g : Glyph) : Q :=
  match g_size g with Some q => q | None => default end.
Definition x0_of (g : Glyph) : Q :=
  match g_x0 g with Some q => q | None => 0 end.
Definition y0_of (g : Glyph) : Q :=
  match g_y0 g with Some q => q | None => 0 end.
Definition text_of (g : Glyph) : pystr :=
  match g_text g with Some t => t | None => [] end.

(** [char.get('color', '#000000')] *)
Definition color_of (g : Glyph) : pyval :=
  match g_color g with Some c => c | None => PStr (cp "#000000") end.

(** ['color' in char and self._is_light_color(color)] *)
Definition light_color_hit (g : Glyph) : bool :=
  match g_color g with
  | Some _ => _is_light_color (color_of g)
  | None => false
  end.

(** [char.get('size', 12) < 2] *)
Definition tiny_font_hit (g : Glyph) : bool := Qltb (size_or 12 g) 2.

(** [x0 < 0 or y0 < 0 or x0 > page_bbox[2] + 50 or y0 > page_bbox[3] + 50] *)
Definition outside_page (p : Page) (g : Glyph) : bool :=
  let x0 := x0_of g in
  let y0 := y0_of g in
  Qltb x0 0 || Qltb y0 0 || Qltb (bbox2 p + 50) x0 || Qltb (bbox3 p + 50) y0.

(** [abs(x1 - x2) < 1 and abs(y1 - y2) < 1 and text1 != text2] *)
Definition overlap (a b : Q * Q * pystr) : bool :=
  let '(x1, y1, text1) := a in
  let '(x2, y2, text2) := b in
  Qltb (Qabs (x1 - x2)) 1 && Qltb (Qabs (y1 - y2)) 1
  && negb (pystr_eqb text1 text2).

(** The double loop over [i] and [j > i]. *)
Fixpoint overlapping (char_positions : list (Q * Q * pystr)) : nat :=
  match char_positions with
  | [] => 0
  | a :: rest => count (overlap a) rest + overlapping rest
  end.

(** ['bgcolor' in char], [bgcolor and self._colors_too_similar(bgcolor,
    textcolor)] *)
Definition collision_hit (g : Glyph) : bool :=
  match g_bgcolor g with
  | Some bgcolor =>
      py_truthy bgcolor && _colors_too_similar bgcolor (color_of g)
  | None => false
  end.

(** What one page adds to [suspicious_elements]. *)
Definition page_suspicious (p : Page) : nat :=
  let cs := chars p in
  let char_positions := map (fun g => (x0_of g, y0_of g, text_of g)) cs in
  let overlapping_count := overlapping char_positions in
  (count light_color_hit cs + count tiny_font_hit cs
   + count (outside_page p) cs
   + (if (5 <? overlapping_count)%nat then overlapping_count else 0)
   + count collision_hit cs)%nat.

Definition suspicious_elements (pages : list Page) : nat :=
  list_sum (map page_suspicious pages).
Definition total_elements (pages : list Page) : nat :=
  list_sum (map (fun p => List.length (chars p)) pages).

(** The variable [chars] after the loop over the pages: the characters of
    the last page. *)
Definition chars_after_loop (pages : list Page) : list Glyph :=
  last (map chars pages) [].

Definition white_text_body (file : File) : M unit :=
  when (is_pdf file) (
    pages <- lift (plumber_pages file) ;;
    let suspicious_elements := suspicious_elements pages in
    let total_elements := total_elements pages in
    let chars := chars_after_loop pages in
    when (0 <? total_elements)%nat (
      let white_text_ratio := (Qnat suspicious_elements / Qnat total_elements)%Q in
      when (Qltb 0.05 white_text_ratio) (
        update (fun a =>
          append_issue (HiddenText white_text_ratio)
            (set_risk_score (Qmin (white_text_ratio * 3) 1.0)
               (set_detected a)))) ;;
      let tiny_text_count := count (fun g => Qltb (size_or 12 g) 3) chars in
      let tiny_text_ratio := (Qnat tiny_text_count / Qnat total_elements)%Q in
      when (Qltb 0.1 tiny_text_ratio) (
        update (fun a =>
          append_issue (ExcessiveTinyText tiny_text_ratio)
            (set_risk_score (Qmax (risk_score a) (Qmin (tiny_text_ratio * 2) 1.0))
               (set_detected a)))))).

Definition _detect_white_text (file : File) : Signal :=
  try_except (white_text_body file) log_error.

(* ===================================================================== *)
(** * The patterns of [__init__] and of the detectors *)
(* ===================================================================== *)

Definition chr (a : ascii) : Z := Z.of_N (N_of_ascii a).

(** A pattern character under [re.IGNORECASE]: a letter matches the
    characters with the same lower case, and beyond ASCII the extra
    equivalents of the database; any other character matches itself. *)
Definition char_ci (p c : Z) : bool :=
  if ascii_isupper p || ascii_islower p then
    (lower1 c =? lower1 p)%Z || (negb (is_ascii c) && u_equiv U p c)
  else (c =? p)%Z.

Definition rstr_ci (s : string) : regex := rseq (map (fun p => RChar (char_ci p)) (cp s)).
Definition ropt (a : regex) : regex := RRep a 0 (Some 1).
Definition rspace : regex := RChar is_space.
Definition rdigit : regex := RChar is_digit.
Definition rword : regex := RChar is_word.

(** A pattern with its source text, which [_detect_invisible_characters]
    inspects. *)
Record pattern := {
  p_source : pystr;
  p_regex : regex
}.

(** [r'(.{1,20})\1{3,}'], used with [re.IGNORECASE] *)
Definition kw_repeated : regex :=
  RSeq (RGroup 1 (RRep (RChar not_newline) 1 (Some 20)))
       (RRep (RBackref 1 lower1) 3 None).

(** [r'\b(\w+)\s+\1\s+\1\b'], used with [re.IGNORECASE] *)
Definition kw_triple : regex :=
  rseq [RWordB is_word; RGroup 1 (rplus rword); rplus rspace;
        RBackref 1 lower1; rplus rspace; RBackref 1 lower1; RWordB is_word].

Definition keyword_stuffing_patterns : list regex := [kw_repeated; kw_triple].

(** [r'[\u200B-\u200D\u2060\uFEFF]'] and [r'[\u0020]{5,}'] *)
Definition invisible_chars_patterns : list pattern :=
  [ {| p_source := cp "[\u200B-\u200D\u2060\uFEFF]";
       p_regex := RChar (fun c => between 8203 8205 c || (c =? 8288)%Z
                                  || (c =? 65279)%Z) |};
    {| p_source := cp "[\u0020]{5,}";
       p_regex := RRep (RChar (Z.eqb 32)) 5 None |} ].

Definition commonly_stuffed_skills : list pystr :=
  map cp ["python"; "java"; "javascript"; "react"; "angular"; "node.js";
          "aws"; "docker"; "kubernetes"; "machine learning"; "ai"; "sql"]%string.

Definition white_or_fff : regex :=
  ralt (rstr_ci "white") [rstr_ci "#fff"; rstr_ci "#ffffff"].

Definition colon_or_equals : regex :=
  RChar (fun c => (c =? chr ":") || (c =? chr "="))%Z.

(** [self.white_font_patterns], each under its [(?i)] flag *)
Definition white_font_patterns : list regex :=
  [ (* (?:color|fill)[:=]\s*(?:white|#fff|#ffffff|rgb\(255,255,255\)) *)
    rseq [RAlt (rstr_ci "color") (rstr_ci "fill"); colon_or_equals;
          rstar rspace;
          ralt (rstr_ci "white")
               [rstr_ci "#fff"; rstr_ci "#ffffff"; rstr_ci "rgb(255,255,255)"]];
    (* font-color[:=]\s*(?:white|#fff|#ffffff) *)
    rseq [rstr_ci "font-color"; colon_or_equals; rstar rspace; white_or_fff];
    (* text-color[:=]\s*(?:white|#fff|#ffffff) *)
    rseq [rstr_ci "text-color"; colon_or_equals; rstar rspace; white_or_fff];
    (* style.*color:\s*(?:white|#fff|#ffffff) *)
    rseq [rstr_ci "style"; rstar (RChar not_newline); rstr_ci "color:";
          rstar rspace; white_or_fff] ].

(** [r'\b\w+\b'] *)
Definition word_pattern : regex :=
  rseq [RWordB is_word; rplus rword; RWordB is_word].

(** [r'(\d+)\s+Tr'] *)
Definition rendering_mode_pattern : regex :=
  rseq [RGroup 1 (rplus rdigit); rplus rspace; rstr "Tr"].

(** [r'(?:1\s+1\s+1\s+(?:rg|RG))|(?:1\s+g)|(?:1\s+G)'] *)
Definition white_color_pattern : regex :=
  RAlt (RAlt (rseq [rlit (chr "1"); rplus rspace; rlit (chr "1"); rplus rspace;
                    rlit (chr "1"); rplus rspace; RAlt (rstr "rg") (rstr "RG")])
             (rseq [rlit (chr "1"); rplus rspace; rlit (chr "g")]))
       (rseq [rlit (chr "1"); rplus rspace; rlit (chr "G")]).

(** [-?\d+(?:\.\d+)?] *)
Definition number_pattern : regex :=
  rseq [ropt (rlit (chr "-")); rplus rdigit;
        ropt (rseq [rlit (chr "."); rplus rdigit])].

(** [r'(-?\d+(?:\.\d+)?)\s+(-?\d+(?:\.\d+)?)\s+Td'] *)
Definition text_positioning_pattern : regex :=
  rseq [RGroup 1 number_pattern; rplus rspace; RGroup 2 number_pattern;
        rplus rspace; rstr "Td"].

(** [re.findall(pattern, text)] on a value: only a [str] can be searched. *)
Definition re_findall (r : regex) (text : pyval) : result (list rematch) :=
  match text with
  | PStr s => Ok (findall r s)
  | _ => Raise TypeError
  end.

(* ===================================================================== *)
(** * [_detect_keyword_stuffing] *)
(* ===================================================================== *)

Definition count_word (words : list pystr) (w : pystr) : nat :=
  count (pystr_eqb w) words.

(** The skills for which the loop appends an entry to [stuffed_skills]. *)
Definition stuffed_skills (words : list pystr) : list pystr :=
  let total_words := List.length words in
  filter (fun skill =>
            let skill_count := count_word words skill in
            let skill_frequency :=
              if (0 <? total_words)%nat
              then (Qnat skill_count / Qnat total_words)%Q else 0%Q in
            Qltb 0.02 skill_frequency && (5 <? skill_count)%nat)
         commonly_stuffed_skills.

(** The loop that extends [repeated_patterns] with the matches of each
    pattern. *)
Fixpoint repeated_patterns (patterns : list regex) (text : pyval)
  : result (list rematch) :=
  match patterns with
  | [] => Ok []
  | r :: rest =>
      rbind (re_findall r text) (fun matches =>
      rbind (repeated_patterns rest text) (fun more =>
      Ok (matches ++ more)))
  end.

Definition keyword_stuffing_body (text : pyval) : M unit :=
  lowered <- lift (match text with
                   | PStr s => Ok (PStr (py_lower s))
                   | _ => Raise AttributeError
                   end) ;;
  found <- lift (re_findall word_pattern lowered) ;;
  let words := map mt_text found in
  let stuffed_skills := stuffed_skills words in
  repeated_patterns <- lift (repeated_patterns keyword_stuffing_patterns text) ;;
  let stuffing_indicators :=
    (List.length stuffed_skills + List.length repeated_patterns)%nat in
  update (set_risk_score (Qmin (Qnat stuffing_indicators * 0.2) 1.0)) ;;
  let any_skill := negb (List.length stuffed_skills =? 0)%nat in
  let any_pattern := negb (List.length repeated_patterns =? 0)%nat in
  when (any_skill || any_pattern) (
    update set_detected ;;
    when any_skill
      (update (append_issue (StuffedSkills (List.length stuffed_skills)))) ;;
    when any_pattern
      (update (append_issue (RepetitionPatterns (List.length repeated_patterns))))).

Definition _detect_keyword_stuffing (text : pyval) : Signal :=
  try_except (keyword_stuffing_body text) log_error.

(* ===================================================================== *)
(** * [_detect_invisible_characters] *)
(* ===================================================================== *)

(** The loop over the two patterns, with the counters [(invisible_chars,
    excessive_spaces)]. *)
Fixpoint invisible_counts (patterns : list pattern) (text : pyval)
    (acc : nat * nat) : result (nat * nat) :=
  match patterns with
  | [] => Ok acc
  | p :: rest =>
      rbind (re_findall (p_regex p) text) (fun matches =>
      let '(invisible_chars, excessive_spaces) := acc in
      if contains (cp "zero-width") (p_source p) || contains (cp "200") (p_source p)
      then invisible_counts rest text
             ((invisible_chars + List.length matches)%nat, excessive_spaces)
      else invisible_counts rest text
             (invisible_chars, (excessive_spaces + List.length matches)%nat))
  end.

(** [r'[^\x00-\x7F\s]'] *)
Definition unusual_pattern : regex :=
  RChar (fun c => negb (between 0 127 c || is_space c)).

Definition invisible_characters_body (text : pyval) : M unit :=
  counts <- lift (invisible_counts invisible_chars_patterns text (0, 0)%nat) ;;
  let '(invisible_chars, excessive_spaces) := counts in
  unusual <- lift (re_findall unusual_pattern text) ;;
  let total_indicators := (invisible_chars + excessive_spaces)%nat in
  when (0 <? total_indicators)%nat (
    update (fun a => set_risk_score (Qmin (Qnat total_indicators * 0.1) 1.0)
                       (set_detected a)) ;;
    when (0 <? invisible_chars)%nat
      (update (append_issue (InvisibleCharacters invisible_chars))) ;;
    when (10 <? excessive_spaces)%nat
      (update (append_issue (ExcessiveWhitespace excessive_spaces)))).

Definition _detect_invisible_characters (text : pyval) : Signal :=
  try_except (invisible_characters_body text) log_error.

(* ===================================================================== *)
(** * [_analyze_suspicious_formatting] *)
(* ===================================================================== *)

(** The sizes appended to [font_sizes]: [char.get('size')] must be truthy. *)
Definition font_sizes (pages : list Page) : list Q :=
  flat_map (fun p =>
    flat_map (fun g =>
                match g_size g with
                | Some q => if Qeq_bool q 0 then [] else [q]
                | None => []
                end) (chars p)) pages.

Definition mean (l : list Q) : Q := (Qsum l / Qnat (List.length l))%Q.

(** [np.var]: the mean of the squared deviations from the mean. *)
Definition variance (l : list Q) : Q :=
  let m := mean l in
  mean (map (fun x => (x - m) * (x - m))%Q l).

Definition suspicious_formatting_body (file : File) : M unit :=
  when (is_pdf file) (
    pages <- lift (plumber_pages file) ;;
    let font_sizes := font_sizes pages in
    when (negb (List.length font_sizes =? 0)%nat) (
      let size_variance :=
        if (1 <? List.length font_sizes)%nat then variance font_sizes else 0%Q in
      let tiny_text_ratio :=
        (Qnat (count (fun size => Qltb size 3) font_sizes)
         / Qnat (List.length font_sizes))%Q in
      when (Qltb 0.05 tiny_text_ratio) (
        update (fun a => append_issue (SmallText tiny_text_ratio)
                           (add_risk_score 0.3 (set_detected a)))) ;;
      when (Qltb 50 size_variance) (
        update (fun a => append_issue VariableFontSizes
                           (add_risk_score 0.2 (set_detected a)))))).

Definition _analyze_suspicious_formatting (file : File) : Signal :=
  try_except (suspicious_formatting_body file) log_error.

(* ===================================================================== *)
(** * [_analyze_content_authenticity] *)
(* ===================================================================== *)

Definition content_authenticity_body (parsed_data : pyval) : M unit :=
  text <- lift (py_getitem parsed_data (cp "raw_text")) ;;
  readability_score <- lift (flesch_reading_ease text) ;;
  skills_entry <- lift (py_get parsed_data (cp "skills") (PDict [])) ;;
  skills <- lift (py_get skills_entry (cp "all_skills") (PList [])) ;;
  skill_count <- lift (py_len skills) ;;
  experience <- lift (py_get parsed_data (cp "experience") (PDict [])) ;;
  experience_years <- lift (py_get experience (cp "years_experience") (PNum 0)) ;;
  (* Too many skills for experience level *)
  low_experience <- lift (py_lt experience_years 2) ;;
  let flag1 := low_experience && (20 <? skill_count)%nat in
  when flag1 (update (add_risk_score 0.3)) ;;
  (* Extremely low readability *)
  let flag2 := Qltb readability_score 30 in
  when flag2 (update (add_risk_score 0.2)) ;;
  (* Missing contact information *)
  contact_info <- lift (py_get parsed_data (cp "contact_info") (PDict [])) ;;
  email <- lift (py_get contact_info (cp "email") PNone) ;;
  phone <- lift (if py_truthy email then Ok PNone
                 else py_get contact_info (cp "phone") PNone) ;;
  let flag3 := negb (py_truthy email) && negb (py_truthy phone) in
  when flag3 (update (add_risk_score 0.1)) ;;
  (* Unrealistic experience claims *)
  flag4 <- lift (py_gt experience_years 50) ;;
  when flag4 (update (add_risk_score 0.4)) ;;
  let red_flags :=
    (if flag1 then [ExcessiveSkills] else [])
    ++ (if flag2 then [PoorReadability] else [])
    ++ (if flag3 then [MissingContact] else [])
    ++ (if flag4 then [UnrealisticExperience] else []) in
  when (negb (List.length red_flags =? 0)%nat)
    (update (fun a => set_issues red_flags (set_detected a))).

Definition _analyze_content_authenticity (parsed_data : pyval) : Signal :=
  try_except (content_authenticity_body parsed_data) log_error.

(* ===================================================================== *)
(** * [_analyze_pdf_content_streams] *)
(* ===================================================================== *)

(** [[mode for mode in rendering_mode_changes if int(mode) == 3]] *)
Fixpoint invisible_rendering_modes (modes : list pystr) : result (list pystr) :=
  match modes with
  | [] => Ok []
  | mode :: rest =>
      rbind (py_int 10 mode) (fun n =>
      rbind (invisible_rendering_modes rest) (fun l =>
      Ok (if (n =? 3)%Z then mode :: l else l)))
  end.

(** [float(x) < 0 or float(y) < 0 or float(x) > 1000 or float(y) > 1000] *)
Definition is_off_page (x y : pystr) : result bool :=
  rbind (py_float x) (fun fx =>
  if Qltb fx 0 then Ok true else
  rbind (py_float y) (fun fy =>
  Ok (Qltb fy 0 || Qltb 1000 fx || Qltb 1000 fy))).

Fixpoint off_page_text (positions : list (pystr * pystr))
  : result (list (pystr * pystr)) :=
  match positions with
  | [] => Ok []
  | (x, y) :: rest =>
      rbind (is_off_page x y) (fun b =>
      rbind (off_page_text rest) (fun l =>
      Ok (if b then (x, y) :: l else l)))
  end.

(** The matches of each of [white_font_patterns], added up. *)
Definition white_font_matches (content_data : pystr) : nat :=
  list_sum (map (fun r => List.length (findall r content_data)) white_font_patterns).

(** What the content stream of one page adds to [suspicious_patterns]. *)
Definition stream_suspicious (content_data : pystr) : result nat :=
  let rendering_mode_changes :=
    map (fun m => mt_group m 1) (findall rendering_mode_pattern content_data) in
  rbind (invisible_rendering_modes rendering_mode_changes) (fun invisible =>
  let white_color_commands := findall white_color_pattern content_data in
  let text_positioning :=
    map (fun m => (mt_group m 1, mt_group m 2))
        (findall text_positioning_pattern content_data) in
  rbind (off_page_text text_positioning) (fun off_page =>
  Ok (white_font_matches content_data
      + List.length invisible
      + (if (5 <? List.length white_color_commands)%nat then 1 else 0)
      + List.length off_page)%nat)).

(** The loop over [pdf_reader.pages]. *)
Fixpoint suspicious_patterns (pages : list (option pystr)) : result nat :=
  match pages with
  | [] => Ok 0%nat
  | None :: rest => suspicious_patterns rest
  | Some content_data :: rest =>
      rbind (stream_suspicious content_data) (fun n =>
      rbind (suspicious_patterns rest) (fun m => Ok (n + m)%nat))
  end.

Definition pdf_content_streams_body (file : File) : M unit :=
  when (is_pdf file) (
    pages <- lift (pypdf_pages file) ;;
    suspicious_patterns <- lift (suspicious_patterns pages) ;;
    when (0 <? suspicious_patterns)%nat (
      update (fun a =>
        append_issue (StreamManipulation suspicious_patterns)
          (set_risk_score (Qmin (Qnat suspicious_patterns * 0.2) 1.0)
             (set_detected a))))).

(** The handler stores [str(e)] under [details["error"]]. *)
Definition _analyze_pdf_content_streams (file : File) : Signal :=
  try_except (pdf_content_streams_body file) set_error.

(* ===================================================================== *)
(** * [analyze] *)
(* ===================================================================== *)

Inductive RiskLevel := low | medium | high | unknown.

Record FraudReport := {
  overall_risk_score : Q;
  risk_level : RiskLevel;
  detected_issues : list Issue;
  detailed_analysis : list (string * Signal)
}.

(** The [if]/[elif]/[else] on [overall_risk_score]. *)
Definition risk_level_of (score : Q) : RiskLevel :=
  if Qle_bool 0.7 score then high
  else if Qle_bool 0.4 score then medium
  else low.

(** The loop over [detailed_analysis.items()] extending [detected_issues]. *)
Fixpoint compile_issues (items : list (string * Signal)) : list Issue :=
  match items with
  | [] => []
  | (_, details) :: rest =>
      (if detected details then issues details else []) ++ compile_issues rest
  end.

(** The body of the [try] block. *)
Definition analyze_body (file : File) (parsed_data : pyval) : result FraudReport :=
  let white_text_analysis := _detect_white_text file in
  rbind (py_getitem parsed_data (cp "raw_text")) (fun raw_text =>
  let keyword_stuffing_analysis := _detect_keyword_stuffing raw_text in
  rbind (py_getitem parsed_data (cp "raw_text")) (fun raw_text' =>
  let invisible_chars_analysis := _detect_invisible_characters raw_text' in
  let formatting_analysis := _analyze_suspicious_formatting file in
  let content_analysis := _analyze_content_authenticity parsed_data in
  let pdf_stream_analysis := _analyze_pdf_content_streams file in
  let detailed_analysis :=
    [ ("white_text", white_text_analysis);
      ("keyword_stuffing", keyword_stuffing_analysis);
      ("invisible_characters", invisible_chars_analysis);
      ("suspicious_formatting", formatting_analysis);
      ("content_authenticity", content_analysis);
      ("pdf_stream_analysis", pdf_stream_analysis) ]%string in
  let risk_scores :=
    [ risk_score white_text_analysis;
      risk_score keyword_stuffing_analysis;
      risk_score invisible_chars_analysis;
      risk_score formatting_analysis;
      risk_score content_analysis;
      risk_score pdf_stream_analysis ] in
  let overall := (Qsum risk_scores / Qnat (List.length risk_scores))%Q in
  Ok {| overall_risk_score := overall;
        risk_level := risk_level_of overall;
        detected_issues := compile_issues detailed_analysis;
        detailed_analysis := detailed_analysis |})).

(** The report of the [except] branch. *)
Definition analysis_failed : FraudReport :=
  {| overall_risk_score := 0.0;
     risk_level := unknown;
     detected_issues := [AnalysisFailed];
     detailed_analysis := [] |}.

Definition analyze (file : File) (parsed_data : pyval) : FraudReport :=
  match analyze_body file parsed_data with
  | Ok analysis => analysis
  | Raise _ => analysis_failed
  end.

End Detector.

(* ===================================================================== *)
(** * Concrete inputs for the examples *)
(* ===================================================================== *)

(** A character database in which no code point from 128 up belongs to any
    class; the examples below use ASCII text only. *)
Definition ascii_unicode : Unicode :=
  {| u_isspace := fun _ => false;
     u_isalnum := fun _ => false;
     u_decimal := fun _ => None;
     u_lower1 := fun c => c;
     u_lower := fun s => s;
     u_equiv := fun _ _ => false;
     u_decimal_range := fun c d (H : None = Some d) =>
       match H in _ = o return match o with Some _ => _ | None => True end
       with eq_refl => I end;
     u_decimal_not_space := fun _ _ _ => eq_refl |}.

(** A [textstat] that gives every text the reading ease [q]. *)
Definition flesch_const (q : Q) : pyval -> result Q := fun _ => Ok q.

(** A Word document: neither PDF library is called on it. *)
Definition docx_file : File :=
  {| file_path := cp "resume.docx";
     plumber_pages := Raise LibraryError;
     pypdf_pages := Raise LibraryError |}.

Definition glyph (text : string) (x0 y0 size : Q) : Glyph :=
  {| g_text := Some (cp text); g_x0 := Some x0; g_y0 := Some y0;
     g_size := Some size; g_color := None; g_bgcolor := None |}.

Definition letter_page (cs : list Glyph) : Page :=
  {| chars := cs; bbox := (0, 0, 612, 792)%Q |}.

(** A PDF that [pdfplumber] reads as [pages] and [PyPDF2] as [streams]. *)
Definition pdf_file (pages : list Page) (streams : list (option pystr)) : File :=
  {| file_path := cp "resume.pdf";
     plumber_pages := Ok pages;
     pypdf_pages := Ok streams |}.

Definition dict (l : list (string * pyval)) : pyval :=
  PDict (map (fun kv => (cp (fst kv), snd kv)) l).

(** What [ResumeParser.parse] returns for a text in which it finds no
    skill, no years of experience and the given contact entries. *)
Definition parsed_resume (text : string) (contact : list (string * pyval)) : pyval :=
  dict [ ("raw_text", PStr (cp text));
         ("contact_info", dict contact);
         ("skills", dict [("all_skills", PList []); ("skills_count", PNum 0)]);
         ("experience", dict [("years_experience", PNum 0); ("job_titles", PList [])]) ]%string.

(** A glyph whose colour is the 3-digit form [#fff]. *)
Definition glyph_short_color : Glyph :=
  {| g_text := Some (cp "a"); g_x0 := Some 10%Q; g_y0 := Some 10%Q;
     g_size := Some 12%Q; g_color := Some (PStr (cp "#fff"));
     g_bgcolor := Some (PStr (cp "#ffffff")) |}.

(** A glyph without a colour entry on a black background. *)
Definition glyph_on_black : Glyph :=
  {| g_text := Some (cp "a"); g_x0 := Some 10%Q; g_y0 := Some 10%Q;
     g_size := Some 12%Q; g_color := None;
     g_bgcolor := Some (PStr (cp "#000000")) |}.

(** The analysis of a Word document whose [parsed_data] lacks [raw_text],
    and of one whose parser found a text and an e-mail address. *)
Definition report_without_text : FraudReport :=
  analyze ascii_unicode (flesch_const 100) docx_file (dict []).

Definition report_plain_resume : FraudReport :=
  analyze ascii_unicode (flesch_const 100) docx_file
    (parsed_resume "x" [("email"%string, PStr (cp "a@b.c"))]).

(** A one-page PDF of 25 glyphs, one of them of size 1, with six white
    fills in its content stream, for a resume that repeats a word. *)
Definition page_one_tiny : Page :=
  letter_page (glyph "a" 10 10 1 :: repeat (glyph "b" 100 100 12) 24).

Definition six_fills : pystr :=
  cp "1 1 1 rg 1 1 1 rg 1 1 1 rg 1 1 1 rg 1 1 1 rg 1 1 1 rg".

Definition pdf_one_tiny : File := pdf_file [page_one_tiny] [Some six_fills].

(** A one-page PDF of ten glyphs, two of them of size 1. *)
Definition page_two_tiny : Page :=
  letter_page (glyph "a" 10 10 1 :: glyph "c" 20 20 1
               :: repeat (glyph "b" 100 100 12) 8).


(** A resume whose [contact_info] is not a dictionary, with 21 skills and
    no experience. *)
Definition parsed_bad_contact : pyval :=
  dict [ ("raw_text", PStr (cp "x"));
         ("skills", dict [("all_skills", PList (repeat (PStr (cp "sql")) 21))]);
         ("experience", dict [("years_experience", PNum 0)]);
         ("contact_info", PNone) ]%string.

(* ===================================================================== *)
(** * Vocabulary of the properties *)
(* ===================================================================== *)

Section Vocabulary.

Variable U : Unicode.
Variable flesch : pyval -> result Q.

Definition groups := list (nat * pystr).

(** [n] consecutive matches of a pattern of meaning [R]. *)
Inductive iter (R : pystr -> groups -> groups -> Prop)
  : nat -> pystr -> groups -> groups -> Prop :=
| iter_O : forall g, iter R 0 [] g g
| iter_S : forall n u v g gm g',
    R u g gm -> iter R n v gm g' -> iter R (S n) (u ++ v) g g'.

(** The number of iterations [n] respects the upper bound of a repetition. *)
Definition within (hi : option nat) (n : nat) : Prop :=
  match hi with Some h => (n <= h)%nat | None => True end.

(** [sem r w g g']: the text [w] is matched by [r], which turns the groups
    [g] into [g'].  What a back-reference matches is not constrained. *)
Fixpoint sem (r : regex) (w : pystr) (g g' : groups) : Prop :=
  match r with
  | RChar p => exists c, w = [c] /\ p c = true /\ g' = g
  | REps => w = [] /\ g' = g
  | RSeq a b =>
      exists u v gm, w = u ++ v /\ sem a u g gm /\ sem b v gm g'
  | RAlt a b => sem a w g g' \/ sem b w g g'
  | RRep a lo hi =>
      exists n, (lo <= n)%nat /\ within hi n /\ iter (sem a) n w g g'
  | RGroup i a => exists gm, sem a w g gm /\ g' = (i, w) :: gm
  | RBackref _ _ => g' = g
  | RWordB _ => w = [] /\ g' = g
  end.


(** The six signals in the order in which [analyze] stores them. *)
Definition six_signals (file : File) (parsed_data text : pyval)
  : list (string * Signal) :=
  [ ("white_text", _detect_white_text U file);
    ("keyword_stuffing", _detect_keyword_stuffing U text);
    ("invisible_characters", _detect_invisible_characters U text);
    ("suspicious_formatting", _analyze_suspicious_formatting U file);
    ("content_authenticity", _analyze_content_authenticity flesch parsed_data);
    ("pdf_stream_analysis", _analyze_pdf_content_streams U file) ]%string.

Definition signal_names : list string :=
  [ "white_text"; "keyword_stuffing"; "invisible_characters";
    "suspicious_formatting"; "content_authenticity"; "pdf_stream_analysis" ]%string.

(** The issues a signal hands to [detected_issues]. *)
Definition reported (s : Signal) : list Issue :=
  if detected s then issues s else [].

Definition in_unit (q : Q) : Prop := (0 <= q)%Q /\ (q <= 1)%Q.

(** Symbolic execution of a block: [wp m Q E s] says that [m], run from the
    dictionary [s], ends normally in a state satisfying [Q] or by an
    exception in a state satisfying [E]. *)
Definition wp {A} (m : M A) (Q : A -> Signal -> Prop)
    (E : exn -> Signal -> Prop) (s : Signal) : Prop :=
  match m s with
  | (Ok a, s') => Q a s'
  | (Raise e, s') => E e s'
  end.

(** The helpers read three channels from [color]: it is a string that,
    without its leading [#], has six characters, and [int(., 16)] accepts
    each pair of them. *)
Definition parsable_color (color : pyval) : bool :=
  match py_lstrip_hash color with
  | Ok s =>
      (List.length s =? 6)%nat
      && match rgb U s with Ok _ => true | Raise _ => false end
  | Raise _ => false
  end.

(** The block of a detector ends by the exception [e]. *)
Definition raises {A} (m : M A) (e : exn) : Prop :=
  fst (m new_analysis) = Raise e.


(** [char.get('size', 12) < 3] *)
Definition tiny_text (g : Glyph) : bool := Qltb (size_or 12 g) 3.

Definition all_glyphs (pages : list Page) : list Glyph := flat_map chars pages.

(** [suspicious_count / total_count] over the glyphs of the document *)
Definition white_text_ratio (pages : list Page) : Q :=
  (Qnat (suspicious_elements U pages) / Qnat (total_elements pages))%Q.

(** The fraction of the glyphs of the document with a size under 3 *)
Definition tiny_text_ratio (pages : list Page) : Q :=
  (Qnat (count tiny_text (all_glyphs pages)) / Qnat (total_elements pages))%Q.

(** No page of the document has a glyph. *)
Definition no_glyphs (file : File) : Prop :=
  match plumber_pages file with
  | Ok pages => Forall (fun p => chars p = []) pages
  | Raise _ => True
  end.

(** No page of the document has an operator in its content stream. *)
Definition no_operators (file : File) : Prop :=
  match pypdf_pages file with
  | Ok streams => Forall (fun c => c = None \/ c = Some []) streams
  | Raise _ => True
  end.

(** A signal that reports nothing. *)
Definition quiet (s : Signal) : Prop :=
  detected s = false /\ (risk_score s == 0)%Q /\ issues s = [].

(** The content signal of the resume the parser builds from an empty
    text. *)
Definition empty_resume_content (readability : result Q) (content : Signal)
  : Prop :=
  match readability with
  | Ok q =>
      detected content = true /\
      issues content
      = (if Qltb q 30 then [PoorReadability] else []) ++ [MissingContact] /\
      (risk_score content == (if Qltb q 30 then 0.2 else 0) + 0.1)%Q
  | Raise _ => quiet content
  end.



(** A non-empty run of digits. *)
Definition digits (l : pystr) : Prop :=
  Forall (fun c => is_digit U c = true) l /\ l <> [].

(** A number as the [Td] pattern writes it. *)
Definition number_shape (w : pystr) : Prop :=
  exists sign d f,
    w = sign ++ d ++ f /\ (sign = [] \/ sign = [45%Z]) /\ digits d /\
    (f = [] \/ exists d2, f = 46%Z :: d2 /\ digits d2).

End Vocabulary.

(* ===================================================================== *)
(** * Further vocabulary of the detector *)
(* ===================================================================== *)

Section Indicators.

Variable U : Unicode.

(** A zero-width character: the class of the first invisible-character
    pattern. *)
Definition zero_width (c : Z) : bool :=
  between 8203 8205 c || (c =? 8288)%Z || (c =? 65279)%Z.

(** Five spaces, and the second invisible-character pattern. *)
Definition five_spaces : pystr := repeat 32%Z 5.

Definition space_run : regex := RRep (RChar (Z.eqb 32)) 5 None.

(** The list [words] of [_detect_keyword_stuffing]. *)
Definition words (text : pystr) : list pystr :=
  map mt_text (findall (word_pattern U) (py_lower U text)).

(** The number of signals of a report with a positive score. *)
Definition positive_signals (r : FraudReport) : nat :=
  count (fun entry => Qltb 0 (risk_score (snd entry))) (detailed_analysis r).

(** The flag of a signal agrees with its score: a flagged signal carries
    at least the smallest increment, an unflagged one nothing. *)
Definition flag_agrees (s : Signal) : Prop :=
  (detected s = true -> (0.1 <= risk_score s)%Q) /\
  (detected s = false -> (risk_score s == 0)%Q).

(** The four entries of [parsed_data] that the detectors read. *)
Definition entries_read : list pystr :=
  map cp ["raw_text"; "skills"; "experience"; "contact_info"]%string.

End Indicators.

(** A pattern without a group. *)
Fixpoint groupless (r : regex) : bool :=
  match r with
  | RGroup _ _ => false
  | RSeq a b | RAlt a b => groupless a && groupless b
  | RRep a _ _ => groupless a
  | RChar _ | REps | RBackref _ _ | RWordB _ => true
  end.

(** The two characters between which an empty line lies. *)
Definition blank_line : pystr := [10; 10]%Z.

(* ===================================================================== *)
(** * The candidate ranker: [backend/candidate_ranker.py] *)
(* ===================================================================== *)

Section Ranker.

Variable U : Unicode.

(** [v == s] for a string literal [s] *)
Definition py_eq_str (v : pyval) (s : pystr) : bool :=
  match v with
  | PStr t => pystr_eqb t s
  | _ => false
  end.

(** [for x in v]: the items a loop over [v] visits. *)
Definition py_iter (v : pyval) : result (list pyval) :=
  match v with
  | PList l => Ok l
  | PStr s => Ok (map (fun c => PStr [c]) s)
  | PDict d => Ok (map (fun kv => PStr (fst kv)) d)
  | _ => Raise TypeError
  end.

(** [self.skill_importance] *)
Definition skill_importance : list (pystr * Q) :=
  [ (cp "programming_languages", 0.3%Q);
    (cp "frameworks_libraries", 0.25%Q);
    (cp "databases", 0.2%Q);
    (cp "cloud_platforms", 0.15%Q);
    (cp "tools_technologies", 0.1%Q) ].

(** The loop of [_score_skills] over the categories, with the variables
    [score] and [total_skills_count]. *)
Fixpoint score_categories (categories : list (pystr * Q)) (skills : pyval)
    (score : Q) (total_skills_count : nat) : result (Q * nat) :=
  match categories with
  | [] => Ok (score, total_skills_count)
  | (category, importance) :: rest =>
      rbind (py_get skills category (PList [])) (fun category_skills =>
      match category_skills with
      | PList l =>
          let skill_count := List.length l in
          let category_score := Qmin (Qnat skill_count / 5) 1.0 in
          score_categories rest skills (score + category_score * importance)%Q
            (total_skills_count + skill_count)
      | _ => score_categories rest skills score total_skills_count
      end)
  end.

Definition _score_skills (skills : pyval) : result Q :=
  if negb (py_truthy skills) then Ok 0.0%Q else
  rbind (score_categories skill_importance skills 0.0 0) (fun st =>
  let '(score, total_skills_count) := st in
  rbind (py_get skills (cp "soft_skills") (PList [])) (fun soft_skills =>
  let score :=
    match soft_skills with
    | PList l =>
        if (0 <? List.length l)%nat
        then (score + Qmin (Qnat (List.length l) / 10) 0.1)%Q
        else score
    | _ => score
    end in
  let diversity_bonus := Qmin (Qnat total_skills_count / 20) 0.2 in
  Ok (Qmin ((score + diversity_bonus) * 100) 100))).

(** The dictionary [education_levels] of [_score_education], in the order
    in which the loop visits it. *)
Definition education_levels : list (pystr * Q) :=
  map (fun lp => (cp (fst lp), inject_Z (snd lp)))
    [ ("phd", 40); ("doctorate", 40); ("doctoral", 40);
      ("master", 30); ("masters", 30); ("mba", 35); ("ms", 30); ("ma", 30);
      ("bachelor", 20); ("bachelors", 20); ("bs", 20); ("ba", 20); ("bsc", 20);
      ("associate", 10); ("associates", 10);
      ("certificate", 5); ("certification", 5); ("diploma", 8) ]%string%Z.

(** The inner loop: the points of the first level that occurs in
    [degree_name], if one does. *)
Definition level_points (degree_name : pystr) : option Q :=
  match find (fun lp => contains (fst lp) degree_name) education_levels with
  | Some lp => Some (snd lp)
  | None => None
  end.

(** What the GPA adds: [gpa] must be a number other than zero. *)
Definition gpa_bonus (gpa : pyval) : Q :=
  match py_number gpa with
  | Ok g =>
      if py_truthy gpa then
        if Qltb 0 g && Qle_bool g 4.0 then ((g - 2.0) / 2.0 * 10)%Q
        else if Qltb 4.0 g && Qle_bool g 10.0 then ((g - 5.0) / 5.0 * 10)%Q
        else 0%Q
      else 0%Q
  | Raise _ => 0%Q
  end.

(** One degree: its name in lower case and its GPA, or nothing when the
    loop skips it. *)
Definition degree_entry (degree_info : pyval)
  : result (option (pystr * pyval)) :=
  match degree_info with
  | PDict _ =>
      rbind (py_get degree_info (cp "degree") (PStr [])) (fun degree =>
      match degree with
      | PStr s =>
          rbind (py_get degree_info (cp "gpa") PNone) (fun gpa =>
          Ok (Some (py_lower U s, gpa)))
      | _ => Raise AttributeError
      end)
  | PStr s => Ok (Some (py_lower U s, PNone))
  | _ => Ok None
  end.

(** The loop over [degrees], with the variable [degree_score]. *)
Fixpoint education_loop (degrees : list pyval) (degree_score : Q) : result Q :=
  match degrees with
  | [] => Ok degree_score
  | degree_info :: rest =>
      rbind (degree_entry degree_info) (fun found =>
      match found with
      | Some (degree_name, gpa) =>
          let degree_score :=
            match level_points degree_name with
            | Some points => Qmax degree_score points
            | None => degree_score
            end in
          education_loop rest (degree_score + gpa_bonus gpa)%Q
      | None => education_loop rest degree_score
      end)
  end.

Definition _score_education (education : pyval) : result Q :=
  if negb (py_truthy education) then Ok 20%Q else
  rbind (py_get education (cp "degrees") (PList [])) (fun degrees =>
  rbind (py_iter degrees) (fun items =>
  rbind (education_loop items 0) (fun degree_score =>
  let degree_score :=
    if Qeq_bool degree_score 0 && py_truthy degrees then 15%Q
    else degree_score in
  Ok (Qmin degree_score 100)))).

(** [_score_authenticity]; the product [risk_score * 100 * 0.2] exists for
    a number only. *)
Definition _score_authenticity (fraud_analysis : pyval) : result Q :=
  if negb (py_truthy fraud_analysis) then Ok 75%Q else
  rbind (py_get fraud_analysis (cp "overall_risk_score") (PNum 0)) (fun risk_score =>
  rbind (py_get fraud_analysis (cp "risk_level") (PStr (cp "low"))) (fun risk_level =>
  if py_eq_str risk_level (cp "low") then
    rbind (py_number risk_score) (fun r =>
    Ok (Qmax (100 - r * 100 * 0.2) 60))
  else if py_eq_str risk_level (cp "medium") then
    rbind (py_number risk_score) (fun r =>
    Ok (Qmax (60 - r * 100 * 0.3) 30))
  else
    rbind (py_number risk_score) (fun r =>
    Ok (Qmax (20 - r * 100 * 0.2) 0)))).

Definition _calculate_percentile (score : Q) : Z :=
  if Qle_bool 80 score then 95
  else if Qle_bool 70 score then 80
  else if Qle_bool 60 score then 65
  else if Qle_bool 50 score then 50
  else if Qle_bool 40 score then 35
  else 20.

(** The names [analyze] gives the levels. *)
Definition level_name (l : RiskLevel) : pystr :=
  match l with
  | low => cp "low"
  | medium => cp "medium"
  | high => cp "high"
  | unknown => cp "unknown"
  end.

(** The two entries of a report that the ranker reads: the score [r] and
    the level [l]. *)
Definition carries (d : list (pystr * pyval)) (r : Q) (l : RiskLevel) : Prop :=
  dict_find d (cp "overall_risk_score") = Some (PNum r) /\
  dict_find d (cp "risk_level") = Some (PStr (level_name l)).

End Ranker.

(* ===================================================================== *)
(** * The resume parser: [backend/resume_parser.py] *)
(* ===================================================================== *)

Section Parser.

Variable U : Unicode.

(** [list(set(l))]: the distinct elements of [l], in an order the source
    does not determine. *)
Variable set_order : list pystr -> list pystr.

Definition one_of (s : string) (c : Z) : bool :=
  existsb (Z.eqb c) (cp s).

(** [r'\b[A-Za-z0-9._%+-]+@[A-Za-z0-9.-]+\.[A-Z|a-z]{2,}\b'] *)
Definition email_pattern : regex :=
  rseq [ RWordB (is_word U);
         rplus (RChar (fun c => ascii_isalnum c || one_of "._%+-" c));
         rlit (chr "@");
         rplus (RChar (fun c => ascii_isalnum c || one_of ".-" c));
         rlit (chr ".");
         RRep (RChar (fun c => ascii_isupper c || one_of "|" c || ascii_islower c))
              2 None;
         RWordB (is_word U) ].

(** [[-.\s]] *)
Definition separator : regex :=
  RChar (fun c => one_of "-." c || is_space U c).

(** [r'(\+\d{1,3}[-.\s]?)?\(?\d{3}\)?[-.\s]?\d{3}[-.\s]?\d{4}'] *)
Definition phone_pattern : regex :=
  rseq [ ropt (RGroup 1 (rseq [rlit (chr "+"); RRep (rdigit U) 1 (Some 3);
                               ropt separator]));
         ropt (rlit (chr "(")); RRep (rdigit U) 3 (Some 3);
         ropt (rlit (chr ")")); ropt separator;
         RRep (rdigit U) 3 (Some 3); ropt separator;
         RRep (rdigit U) 4 (Some 4) ].

(** [r'(\d+)[\s+]?(years?|yrs?|year)'] with [re.IGNORECASE] *)
Definition experience_pattern : regex :=
  rseq [ RGroup 1 (rplus (rdigit U));
         ropt (RChar (fun c => is_space U c || one_of "+" c));
         RGroup 2 (ralt (RSeq (rstr_ci U "year") (ropt (RChar (char_ci U (chr "s")))))
                        [ RSeq (rstr_ci U "yr") (ropt (RChar (char_ci U (chr "s"))));
                          rstr_ci U "year" ]) ].

(** [r'linkedin\.com/in/[\w-]+'] with [re.IGNORECASE] *)
Definition linkedin_pattern : regex :=
  RSeq (rstr_ci U "linkedin.com/in/")
       (rplus (RChar (fun c => is_word U c || one_of "-" c))).

(** The GPA pattern, used with [re.IGNORECASE]: [gpa:?\s*] followed by the
    group [\d+\.?\d*]. *)
Definition gpa_pattern : regex :=
  rseq [ rstr_ci U "gpa"; ropt (rlit (chr ":")); rstar (rspace U);
         RGroup 1 (rseq [rplus (rdigit U); ropt (rlit (chr "."));
                         rstar (rdigit U)]) ].

(** [self.skills_database] *)
Definition skills_database : list (string * list string) :=
  [ ("programming_languages",
     ["python"; "java"; "javascript"; "c++"; "c#"; "php"; "ruby"; "go"; "rust";
      "swift"; "kotlin"; "typescript"; "scala"; "r"; "matlab"; "perl"; "shell"]);
    ("web_technologies",
     ["html"; "css"; "react"; "angular"; "vue"; "node.js"; "express"; "django";
      "flask"; "spring"; "bootstrap"; "jquery"; "sass"; "less"; "webpack"]);
    ("databases",
     ["mysql"; "postgresql"; "mongodb"; "redis"; "sqlite"; "oracle"; "sql server";
      "dynamodb"; "cassandra"; "elasticsearch"; "neo4j"]);
    ("cloud_platforms",
     ["aws"; "azure"; "gcp"; "google cloud"; "docker"; "kubernetes"; "terraform";
      "ansible"; "jenkins"; "github actions"; "gitlab ci"]);
    ("data_science",
     ["machine learning"; "deep learning"; "tensorflow"; "pytorch"; "scikit-learn";
      "pandas"; "numpy"; "matplotlib"; "seaborn"; "jupyter"; "spark"; "hadoop"]);
    ("soft_skills",
     ["leadership"; "communication"; "teamwork"; "problem solving"; "analytical";
      "project management"; "agile"; "scrum"; "time management"; "adaptability"])
  ]%string.

(** [self.education_levels] *)
Definition parser_education_levels : list string :=
  [ "phd"; "ph.d"; "doctorate"; "doctoral";
    "master"; "masters"; "mba"; "ms"; "ma"; "m.s"; "m.a";
    "bachelor"; "bachelors"; "bs"; "ba"; "b.s"; "b.a";
    "associate"; "diploma"; "certificate" ]%string.

Definition job_keywords : list string :=
  [ "software engineer"; "developer"; "programmer"; "analyst"; "manager";
    "director"; "consultant"; "specialist"; "coordinator"; "assistant";
    "senior"; "junior"; "lead"; "principal"; "architect" ]%string.

Definition cert_keywords : list string :=
  [ "certification"; "certified"; "certificate"; "license"; "credential" ]%string.

Definition summary_keywords : list string :=
  [ "summary"; "objective"; "profile"; "about" ]%string.

(** A dictionary is built by assignments to new keys: one assignment, and
    the assignment made when something was found. *)
Definition item (k : string) (v : pyval) : list (pystr * pyval) := [(cp k, v)].

Definition first_found (k : string) (found : list pystr) (f : pystr -> pystr)
  : list (pystr * pyval) :=
  match found with
  | x :: _ => item k (PStr (f x))
  | [] => []
  end.

Definition _extract_contact_info (text : pystr) : pyval :=
  let emails := map mt_text (findall email_pattern text) in
  let phones := map (fun m => mt_group m 1) (findall phone_pattern text) in
  let linkedin_matches := map mt_text (findall linkedin_pattern text) in
  PDict (first_found "email" emails (fun x => x)
         ++ first_found "phone" phones (fun x => x)
         ++ first_found "linkedin" linkedin_matches
              (fun x => cp "https://" ++ x)).

(** The skills of [skills_list] found in the text. *)
Definition category_skills (text_lower : pystr) (skills_list : list string)
  : list pystr :=
  filter (fun skill => contains (py_lower U skill) text_lower)
         (map cp skills_list).

(** The entries of [found_skills] after the loop over the database: the
    categories in which a skill was found. *)
Definition found_categories (text_lower : pystr) : list (pystr * list pystr) :=
  flat_map (fun cat =>
              match category_skills text_lower (snd cat) with
              | [] => []
              | l => [(cp (fst cat), l)]
              end) skills_database.

Definition _extract_skills (text : pystr) : pyval :=
  let text_lower := py_lower U text in
  let found_skills := found_categories text_lower in
  let all_skills := flat_map snd found_skills in
  PDict (map (fun cat => (fst cat, PList (map PStr (snd cat)))) found_skills
         ++ item "all_skills" (PList (map PStr (set_order all_skills)))
         ++ item "skills_count" (PNum (Qnat (List.length all_skills)))).

(** [[int(match[0]) for match in exp_matches]] *)
Fixpoint years_of (exp_matches : list rematch) : result (list Z) :=
  match exp_matches with
  | [] => Ok []
  | m :: rest =>
      rbind (py_int U 10 (mt_group m 1)) (fun n =>
      rbind (years_of rest) (fun l => Ok (n :: l)))
  end.

(** [max(years) if years else 0] *)
Definition max_years (years : list Z) : Z :=
  match years with
  | [] => 0%Z
  | y :: rest => fold_left Z.max rest y
  end.

Definition _extract_experience (text : pystr) : result pyval :=
  rbind (years_of (findall experience_pattern text)) (fun years =>
  let text_lower := py_lower U text in
  let found_titles :=
    filter (fun title => contains title text_lower) (map cp job_keywords) in
  Ok (PDict (item "years_experience" (PNum (inject_Z (max_years years)))
             ++ item "job_titles" (PList (map PStr found_titles))))).

(** [float(s)] on what the GPA pattern captures: digits, then possibly a
    point and more digits.  The value is the exact decimal. *)
Definition py_float_gpa (s : pystr) : result Q :=
  let '(int_part, frac_part) := split_dot s in
  match parse_digits U 10 int_part 0 false, frac_part with
  | Some i, None => Ok (inject_Z i)
  | Some i, Some [] => Ok (inject_Z i)
  | Some i, Some f =>
      match parse_digits U 10 f 0 false with
      | Some j =>
          Ok (inject_Z i + inject_Z j / inject_Z (10 ^ Z.of_nat (List.length f)))%Q
      | None => Raise ValueError
      end
  | None, _ => Raise ValueError
  end.

Definition _extract_education (text : pystr) : pyval :=
  let text_lower := py_lower U text in
  let found_levels :=
    filter (fun level => contains level text_lower)
           (map cp parser_education_levels) in
  let gpa_matches := map (fun m => mt_group m 1) (findall gpa_pattern text) in
  PDict (item "degrees" (PList (map PStr found_levels))
         ++ match gpa_matches with
            | g :: _ =>
                match py_float_gpa g with
                | Ok q => item "gpa" (PNum q)
                | Raise _ => []
                end
            | [] => []
            end).

(** [s.split('\n')] *)
Fixpoint split_lines (s : pystr) : list pystr :=
  match s with
  | [] => [[]]
  | c :: t =>
      if (c =? 10)%Z then [] :: split_lines t
      else match split_lines t with
           | line :: rest => (c :: line) :: rest
           | [] => [[c]]
           end
  end.

(** [s.split('\n\n')[0]]: the text before the first empty line. *)
Fixpoint first_paragraph (s : pystr) : pystr :=
  match s with
  | [] => []
  | c :: t =>
      if starts_with [10; 10]%Z s then [] else c :: first_paragraph t
  end.

(** [s.strip()] *)
Fixpoint lstrip (s : pystr) : pystr :=
  match s with
  | c :: t => if is_space U c then lstrip t else s
  | [] => []
  end.

Definition py_strip (s : pystr) : pystr := rev (lstrip (rev (lstrip s))).

(** [' '.join(l)] *)
Fixpoint join_spaces (l : list pystr) : pystr :=
  match l with
  | [] => []
  | [x] => x
  | x :: rest => x ++ 32%Z :: join_spaces rest
  end.

(** [any(keyword in line_lower for keyword in keywords)] *)
Definition any_keyword (keywords : list string) (line_lower : pystr) : bool :=
  existsb (fun keyword => contains (cp keyword) line_lower) keywords.

Definition _extract_certifications (text : pystr) : list pystr :=
  let lines := split_lines text in
  let certifications :=
    map py_strip
        (filter (fun line => any_keyword cert_keywords (py_lower U line)) lines) in
  firstn 10 certifications.

(** The loop of [_extract_summary] over the lines, each with the lines
    that follow it. *)
Fixpoint summary_section (lines : list pystr) : option pystr :=
  match lines with
  | [] => None
  | line :: rest =>
      let line_lower := py_strip (py_lower U line) in
      let summary := py_strip (join_spaces (firstn 5 lines)) in
      if any_keyword summary_keywords line_lower
         && (50 <? List.length summary)%nat
      then Some (firstn 500 summary)
      else summary_section rest
  end.

Definition _extract_summary (text : pystr) : pystr :=
  match summary_section (split_lines text) with
  | Some summary => summary
  | None => firstn 300 (first_paragraph text)
  end.

(** The dictionary [parsed_data] that [parse] builds from the extracted
    text.  What spaCy finds in the text ([personal_info]), the language
    that langdetect gives and the time stamp are inputs. *)
Definition parsed_data (text : pystr) (personal_info : pyval)
    (language timestamp : pystr) : result pyval :=
  rbind (_extract_experience text) (fun experience =>
  Ok (PDict (item "raw_text" (PStr text)
             ++ item "personal_info" personal_info
             ++ item "contact_info" (_extract_contact_info text)
             ++ item "skills" (_extract_skills text)
             ++ item "experience" experience
             ++ item "education" (_extract_education text)
             ++ item "certifications"
                  (PList (map PStr (_extract_certifications text)))
             ++ item "summary" (PStr (_extract_summary text))
             ++ item "metadata"
                  (PDict (item "text_length" (PNum (Qnat (List.length text)))
                          ++ item "language" (PStr language)
                          ++ item "parsing_timestamp" (PStr timestamp)))))).

End Parser.

(* ===================================================================== *)
(** * More concrete inputs *)
(* ===================================================================== *)

(** A PDF made to trip every detector: half of its glyphs have size 1 and
    half size 40, its content stream sets the invisible rendering mode five
    times, and its text repeats letters and has ten runs of five spaces. *)
Definition page_forged : Page :=
  letter_page (repeat (glyph "a" 10 10 1) 5 ++ repeat (glyph "b" 100 100 40) 5).

Definition pdf_forged : File :=
  pdf_file [page_forged] [Some (cp "3 Tr 3 Tr 3 Tr 3 Tr 3 Tr")].

Definition text_forged : pystr :=
  cp "aaaa     bbbb     cccc     dddd     eeee     f     g     h     i     j     k".

Definition parsed_forged : pyval :=
  dict [ ("raw_text", PStr text_forged);
         ("contact_info", dict []);
         ("skills", dict [("all_skills", PList [])]);
         ("experience", dict [("years_experience", PNum 60)]);
         ("education", dict [("degrees", PList [])]) ]%string.

(** The same resume with another [education] entry. *)
Definition parsed_forged_phd : pyval :=
  dict [ ("raw_text", PStr text_forged);
         ("contact_info", dict []);
         ("skills", dict [("all_skills", PList [])]);
         ("experience", dict [("years_experience", PNum 60)]);
         ("education", dict [("degrees", PList [PStr (cp "phd")])]) ]%string.

(** A two-page PDF and the same pages in the other order. *)
Definition pdf_two_pages : File :=
  pdf_file [page_one_tiny; page_forged] [Some six_fills; Some (cp "3 Tr")].

Definition pdf_two_pages_swapped : File :=
  pdf_file [page_forged; page_one_tiny] [Some (cp "3 Tr"); Some six_fills].

(** Five skills in each category of the ranker. *)
Definition skills_full : list (pystr * pyval) :=
  map (fun category => (fst category, PList (repeat (PStr (cp "x")) 5)))
      skill_importance.

(** The two entries of the dictionary [analyze] returns that the ranker
    reads. *)
Definition report_entries (r : FraudReport) : list (pystr * pyval) :=
  [ (cp "overall_risk_score", PNum (overall_risk_score r));
    (cp "risk_level", PStr (level_name (risk_level r))) ].

(* ===================================================================== *)
(** * Properties of the aggregation *)
(* ===================================================================== *)

Lemma Qltb_lt (a b : Q) : Qltb a b = true <-> (a < b)%Q.
Proof.
  unfold Qltb. rewrite negb_true_iff. split; intros H.
  - apply Qnot_le_lt. intros Hle. apply Qle_bool_iff in Hle. congruence.
  - destruct (Qle_bool b a) eqn:E; [|reflexivity].
    apply Qle_bool_iff in E. exfalso. apply (Qlt_not_le _ _ H E).
Qed.

Lemma Qltb_ge (a b : Q) : Qltb a b = false <-> (b <= a)%Q.
Proof.
  unfold Qltb. rewrite negb_false_iff. apply Qle_bool_iff.
Qed.

Lemma Qle_bool_lt (a b : Q) : Qle_bool a b = false <-> (b < a)%Q.
Proof.
  split; intros H.
  - apply Qnot_le_lt. intros Hle. apply Qle_bool_iff in Hle. congruence.
  - destruct (Qle_bool a b) eqn:E; [|reflexivity].
    apply Qle_bool_iff in E. exfalso. apply (Qlt_not_le _ _ H E).
Qed.

Lemma Qnat_nonneg (n : nat) : (0 <= Qnat n)%Q.
Proof.
  unfold Qnat, Qle. simpl. lia.
Qed.

Lemma Qnat_pos (n : nat) : (0 < n)%nat -> (0 < Qnat n)%Q.
Proof.
  intros H. unfold Qnat, Qlt. simpl. lia.
Qed.

Lemma ratio_nonneg (a b : nat) : (0 <= Qnat a / Qnat b)%Q.
Proof.
  destruct b as [|b].
  - unfold Qdiv, Qinv, Qnat. simpl. rewrite Qmult_0_r. apply Qle_refl.
  - apply Qle_shift_div_l.
    + apply Qnat_pos. lia.
    + rewrite Qmult_0_l. apply Qnat_nonneg.
Qed.

(* ===================================================================== *)
(** * The matcher is sound for the meaning of the patterns *)
(* ===================================================================== *)

Lemma eat_suffix (norm : Z -> Z) (g : pystr) :
  forall rest prev prev' rest',
    eat norm g rest prev = Some (prev', rest') ->
    exists w, rest = w ++ rest'.
Proof.
  induction g as [|c g IH]; intros rest prev prev' rest' H; cbn [eat] in H.
  - injection H as _ <-. exists []. reflexivity.
  - destruct rest as [|d rest]; [discriminate|].
    destruct (norm c =? norm d)%Z; [|discriminate].
    destruct (IH _ _ _ _ H) as [w ->]. exists (d :: w). reflexivity.
Qed.

Lemma rep_sound (step : mstate -> list mstate)
    (R : pystr -> groups -> groups -> Prop) (lo : nat) (hi : option nat) :
  (forall s s', In s' (step s) ->
     exists w, m_rest s = w ++ m_rest s' /\ R w (m_groups s) (m_groups s')) ->
  forall fuel count s s',
    within hi count ->
    In s' (rep step lo hi count fuel s) ->
    exists n w, m_rest s = w ++ m_rest s' /\ (lo <= count + n)%nat
                /\ within hi (count + n)
                /\ iter R n w (m_groups s) (m_groups s').
Proof.
  intros Hstep.
  assert (Hstop : forall count s s',
             within hi count ->
             In s' (if (lo <=? count)%nat then [s] else []) ->
             exists n w, m_rest s = w ++ m_rest s' /\ (lo <= count + n)%nat
                         /\ within hi (count + n)
                         /\ iter R n w (m_groups s) (m_groups s')).
  { intros count s s' Hc H. destruct (lo <=? count)%nat eqn:E; [|contradiction].
    destruct H as [<-|[]]. apply Nat.leb_le in E.
    exists 0%nat, []. rewrite Nat.add_0_r.
    repeat split; [lia | exact Hc | constructor]. }
  induction fuel as [|fuel IH]; intros count s s' Hc H; cbn [rep] in H.
  - apply Hstop; assumption.
  - apply in_app_or in H. destruct H as [H|H]; [|apply Hstop; assumption].
    assert (Hnext : within hi (S count) /\
                    In s' (flat_map (rep step lo hi (S count) fuel) (step s))).
    { destruct hi as [h|]; cbn [within] in *.
      - destruct (count <? h)%nat eqn:E; [|contradiction].
        apply Nat.ltb_lt in E. split; [lia|exact H].
      - split; [exact I|exact H]. }
    destruct Hnext as [Hc' H'].
    apply in_flat_map in H'. destruct H' as [s1 [H1 H2]].
    destruct (Hstep _ _ H1) as [w1 [E1 R1]].
    destruct (IH _ _ _ Hc' H2) as [n [w2 [E2 [Hn [Hw I2]]]]].
    exists (S n), (w1 ++ w2). split; [|split; [|split]].
    + rewrite E1, E2. apply app_assoc.
    + lia.
    + rewrite Nat.add_succ_r. exact Hw.
    + econstructor; eassumption.
Qed.

Lemma rmatch_sound (r : regex) :
  forall s s', In s' (rmatch r s) ->
    exists w, m_rest s = w ++ m_rest s' /\ sem r w (m_groups s) (m_groups s').
Proof.
  induction r as [p| |a IHa b IHb|a IHa b IHb|a IHa lo hi|i a IHa|i norm|word];
    intros s s' H; cbn [rmatch] in H; cbn [sem].
  - destruct (m_rest s) as [|c t] eqn:E; [contradiction|].
    destruct (p c) eqn:Hp; [|contradiction].
    destruct H as [<-|[]]. exists [c]. cbn. eauto.
  - destruct H as [<-|[]]. exists []. auto.
  - apply in_flat_map in H. destruct H as [s1 [H1 H2]].
    destruct (IHa _ _ H1) as [u [Eu Su]].
    destruct (IHb _ _ H2) as [v [Ev Sv]].
    exists (u ++ v). split.
    + rewrite Eu, Ev. apply app_assoc.
    + exists u, v, (m_groups s1). auto.
  - apply in_app_or in H. destruct H as [H|H].
    + destruct (IHa _ _ H) as [w [E S]]. exists w. auto.
    + destruct (IHb _ _ H) as [w [E S]]. exists w. auto.
  - assert (H0 : within hi 0) by (destruct hi; cbn; [lia|exact I]).
    destruct (@rep_sound _ _ lo hi IHa _ _ _ _ H0 H) as [n [w [E [Hn [Hw It]]]]].
    exists w. split; [exact E|]. exists n. auto.
  - apply in_map_iff in H. destruct H as [s1 [<- H1]].
    destruct (IHa _ _ H1) as [w [E S]]. cbn [m_rest m_groups].
    exists w. split; [exact E|]. exists (m_groups s1). split; [exact S|].
    rewrite E, length_app, Nat.add_sub.
    rewrite firstn_app, firstn_all, Nat.sub_diag. cbn [firstn].
    rewrite app_nil_r. reflexivity.
  - destruct (group_find (m_groups s) i) as [g|]; [|contradiction].
    destruct (eat norm g (m_rest s) (m_prev s)) as [[prev' rest']|] eqn:E;
      [|contradiction].
    destruct H as [<-|[]]. cbn [m_rest m_groups].
    destruct (@eat_suffix _ _ _ _ _ _ E) as [w Hw]. exists w. auto.
  - destruct (xorb _ _); [|contradiction].
    destruct H as [<-|[]]. exists []. auto.
Qed.

Lemma match_at_sound (r : regex) (prev : option Z) (s : pystr)
    (n : nat) (m : rematch) :
  match_at r prev s = Some (n, m) ->
  exists w rest, s = w ++ rest /\ n = List.length w /\ mt_text m = w
                 /\ sem r w [] (mt_groups m).
Proof.
  unfold match_at.
  destruct (rmatch r _) as [|s' l] eqn:E; [discriminate|].
  intros [= <- <-].
  destruct (@rmatch_sound r _ s' (eq_ind_r (fun x => In s' x) (in_eq s' l) E))
    as [w [Hw S]].
  cbn [m_rest m_groups] in Hw, S. exists w, (m_rest s').
  cbn [mt_text mt_groups]. rewrite Hw, length_app, Nat.add_sub.
  rewrite firstn_app, firstn_all, Nat.sub_diag. cbn [firstn].
  rewrite app_nil_r. auto.
Qed.

Lemma scan_sound (r : regex) :
  forall s skip prev m,
    In m (scan r skip prev s) -> sem r (mt_text m) [] (mt_groups m).
Proof.
  induction s as [|c t IH]; intros skip prev m H; cbn [scan] in H.
  - destruct skip; [|contradiction].
    destruct (match_at r prev []) as [[n m']|] eqn:E; [|contradiction].
    destruct H as [<-|[]].
    destruct (@match_at_sound _ _ _ _ _ E) as [w [rest [_ [_ [<- S]]]]]. exact S.
  - destruct skip as [|k]; [|exact (IH _ _ _ H)].
    destruct (match_at r prev (c :: t)) as [[n m']|] eqn:E.
    + destruct H as [<-|H]; [|exact (IH _ _ _ H)].
      destruct (@match_at_sound _ _ _ _ _ E) as [w [rest [_ [_ [<- S]]]]]. exact S.
    + exact (IH _ _ _ H).
Qed.

Lemma findall_sound (r : regex) (text : pystr) (m : rematch) :
  In m (findall r text) -> sem r (mt_text m) [] (mt_groups m).
Proof. apply scan_sound. Qed.

(* --------------------------------------------------------------------- *)
(** ** Counting occurrences of a literal among the matches *)
(* --------------------------------------------------------------------- *)





Section Counting.

Variable r : regex.
Variable lit0 : pystr.
Variable last : Z.

(** The pattern matches where the literal starts. *)
Hypothesis matches_literal :
  forall prev rest, match_at r prev ((lit0 ++ [last]) ++ rest) <> None.

(** A match has [last] as its final character at most. *)
Hypothesis match_shape :
  forall w g g', sem r w g g' -> exists u c, w = u ++ [c] /\ ~ In last u.



End Counting.

Section Properties.

Variable U : Unicode.
Variable flesch : pyval -> result Q.

Lemma analyze_completes (file : File) (parsed_data text : pyval) :
  py_getitem parsed_data (cp "raw_text") = Ok text ->
  let sigs := six_signals U flesch file parsed_data text in
  let overall := (Qsum (map (fun p => risk_score (snd p)) sigs) / Qnat 6)%Q in
  analyze U flesch file parsed_data
  = {| overall_risk_score := overall;
       risk_level := risk_level_of overall;
       detected_issues := compile_issues sigs;
       detailed_analysis := sigs |}.
Proof.
  intros H. unfold analyze, analyze_body. rewrite H. reflexivity.
Qed.

Lemma analyze_falls_back (file : File) (parsed_data : pyval) (e : exn) :
  py_getitem parsed_data (cp "raw_text") = Raise e ->
  analyze U flesch file parsed_data = analysis_failed.
Proof.
  intros H. unfold analyze, analyze_body. rewrite H. reflexivity.
Qed.

Lemma risk_level_of_high (score : Q) :
  (0.7 <= score)%Q -> risk_level_of score = high.
Proof.
  intros H. unfold risk_level_of.
  apply Qle_bool_iff in H. rewrite H. reflexivity.
Qed.

Lemma risk_level_of_medium (score : Q) :
  (0.4 <= score)%Q -> (score < 0.7)%Q -> risk_level_of score = medium.
Proof.
  intros H1 H2. unfold risk_level_of.
  apply Qle_bool_lt in H2. rewrite H2.
  apply Qle_bool_iff in H1. rewrite H1. reflexivity.
Qed.

Lemma risk_level_of_low (score : Q) :
  (score < 0.4)%Q -> risk_level_of score = low.
Proof.
  intros H. unfold risk_level_of.
  assert (H' : (score < 0.7)%Q) by lra.
  apply Qle_bool_lt in H'. rewrite H'.
  apply Qle_bool_lt in H. rewrite H. reflexivity.
Qed.

Lemma risk_level_of_compat (a b : Q) :
  (a == b)%Q -> risk_level_of a = risk_level_of b.
Proof.
  intros H. unfold risk_level_of.
  rewrite (Qleb_comp 0.7%Q 0.7%Q (Qeq_refl _) a b H).
  rewrite (Qleb_comp 0.4%Q 0.4%Q (Qeq_refl _) a b H).
  reflexivity.
Qed.

Lemma risk_level_of_known (score : Q) :
  risk_level_of score = low \/ risk_level_of score = medium
  \/ risk_level_of score = high.
Proof.
  unfold risk_level_of.
  destruct (Qle_bool 0.7 score); [auto|].
  destruct (Qle_bool 0.4 score); auto.
Qed.

(** C3 (amended): in every analysis that reaches the fusion step, that is
    whenever [parsed_data] has a [raw_text] entry, the level is the threshold
    function of the overall score - high from 0.70, medium from 0.40 up to
    0.70, low under 0.40 - so two such analyses with the same score have the
    same level. *)
Theorem risk_level_thresholds
    (file file' : File) (parsed_data parsed_data' text text' : pyval) :
  py_getitem parsed_data (cp "raw_text") = Ok text ->
  py_getitem parsed_data' (cp "raw_text") = Ok text' ->
  let r := analyze U flesch file parsed_data in
  let r' := analyze U flesch file' parsed_data' in
  ((0.7 <= overall_risk_score r)%Q -> risk_level r = high) /\
  ((0.4 <= overall_risk_score r)%Q -> (overall_risk_score r < 0.7)%Q ->
   risk_level r = medium) /\
  ((overall_risk_score r < 0.4)%Q -> risk_level r = low) /\
  ((overall_risk_score r == overall_risk_score r')%Q ->
   risk_level r = risk_level r').
Proof.
  intros H H' r r'. subst r r'.
  rewrite (analyze_completes file parsed_data H).
  rewrite (analyze_completes file' parsed_data' H').
  cbn [overall_risk_score risk_level].
  repeat split.
  - apply risk_level_of_high.
  - apply risk_level_of_medium.
  - apply risk_level_of_low.
  - apply risk_level_of_compat.
Qed.

(** C6 (amended): [analyze] returns a report for every input.  When
    [parsed_data] has a [raw_text] entry the report holds the six signals
    under their names and its level is low, medium or high; the fusion itself
    cannot fail.  Otherwise the report is the fallback one: level unknown,
    score 0, the single issue "Analysis failed" and no signal. *)
Theorem analyze_report_shape (file : File) (parsed_data : pyval) :
  let r := analyze U flesch file parsed_data in
  (exists text,
      py_getitem parsed_data (cp "raw_text") = Ok text /\
      map fst (detailed_analysis r) = signal_names /\
      (risk_level r = low \/ risk_level r = medium \/ risk_level r = high))
  \/
  (exists e,
      py_getitem parsed_data (cp "raw_text") = Raise e /\
      risk_level r = unknown /\
      (overall_risk_score r == 0)%Q /\
      detected_issues r = [AnalysisFailed] /\
      detailed_analysis r = []).
Proof.
  intros r. subst r.
  destruct (py_getitem parsed_data (cp "raw_text")) as [text|e] eqn:H.
  - left. exists text. rewrite (analyze_completes file parsed_data H).
    cbn [detailed_analysis risk_level]. repeat split.
    apply risk_level_of_known.
  - right. exists e. rewrite (analyze_falls_back file parsed_data H).
    split; [reflexivity|]. split; [reflexivity|].
    split; [reflexivity|]. split; reflexivity.
Qed.

Lemma compile_issues_reported (items : list (string * Signal)) :
  compile_issues items = concat (map (fun p => reported (snd p)) items).
Proof.
  induction items as [|[name s] rest IH]; simpl.
  - reflexivity.
  - rewrite IH. reflexivity.
Qed.

(** C8 (amended): in every report other than the fallback one, that is
    whenever [parsed_data] has a [raw_text] entry, [detected_issues] is the
    concatenation of the issues of the detected signals in the order
    white-text, keyword-stuffing, invisible-characters, formatting-anomaly,
    content-authenticity, content-stream, and its length is the sum of their
    lengths. *)
Theorem detected_issues_concat (file : File) (parsed_data text : pyval) :
  py_getitem parsed_data (cp "raw_text") = Ok text ->
  let r := analyze U flesch file parsed_data in
  let white_text := _detect_white_text U file in
  let keyword_stuffing := _detect_keyword_stuffing U text in
  let invisible_characters := _detect_invisible_characters U text in
  let formatting := _analyze_suspicious_formatting U file in
  let content := _analyze_content_authenticity flesch parsed_data in
  let stream := _analyze_pdf_content_streams U file in
  map snd (detailed_analysis r)
  = [white_text; keyword_stuffing; invisible_characters; formatting;
     content; stream] /\
  detected_issues r
  = reported white_text ++ reported keyword_stuffing
    ++ reported invisible_characters ++ reported formatting
    ++ reported content ++ reported stream /\
  List.length (detected_issues r)
  = (List.length (reported white_text) + List.length (reported keyword_stuffing)
     + List.length (reported invisible_characters)
     + List.length (reported formatting)
     + List.length (reported content) + List.length (reported stream))%nat.
Proof.
  intros H r. subst r. cbv zeta.
  rewrite (analyze_completes file parsed_data H).
  cbn [detected_issues detailed_analysis].
  assert (E : compile_issues (six_signals U flesch file parsed_data text)
              = reported (_detect_white_text U file)
                ++ reported (_detect_keyword_stuffing U text)
                ++ reported (_detect_invisible_characters U text)
                ++ reported (_analyze_suspicious_formatting U file)
                ++ reported (_analyze_content_authenticity flesch parsed_data)
                ++ reported (_analyze_pdf_content_streams U file)).
  { rewrite compile_issues_reported. unfold six_signals.
    cbn [map concat snd]. rewrite app_nil_r. reflexivity. }
  split; [reflexivity|]. split; [exact E|].
  rewrite E. rewrite !length_app. lia.
Qed.

(* --------------------------------------------------------------------- *)
(** ** Scores lie in the unit interval *)
(* --------------------------------------------------------------------- *)

Lemma in_unit_0 : in_unit 0.
Proof. split; lra. Qed.

Lemma clamp_in_unit (x : Q) : (0 <= x)%Q -> in_unit (Qmin x 1.0).
Proof.
  intros H. split.
  - apply Q.min_glb; [exact H | lra].
  - eapply Qle_trans; [apply Q.le_min_r | lra].
Qed.

Lemma max_in_unit (a b : Q) : in_unit a -> in_unit b -> in_unit (Qmax a b).
Proof.
  intros [Ha1 Ha2] [Hb1 Hb2]. split.
  - eapply Qle_trans; [exact Ha1 | apply Q.le_max_l].
  - apply Q.max_lub; assumption.
Qed.

Lemma scaled_ratio_nonneg (a b : nat) (k : Q) :
  (0 <= k)%Q -> (0 <= Qnat a / Qnat b * k)%Q.
Proof.
  intros Hk. apply Qmult_le_0_compat; [apply ratio_nonneg | exact Hk].
Qed.

Lemma scaled_count_nonneg (n : nat) (k : Q) :
  (0 <= k)%Q -> (0 <= Qnat n * k)%Q.
Proof.
  intros Hk. apply Qmult_le_0_compat; [apply Qnat_nonneg | exact Hk].
Qed.

Lemma wp_ret {A} (a : A) Q E s : wp (ret a) Q E s = Q a s.
Proof. reflexivity. Qed.

Lemma wp_lift {A} (r : result A) Q E s :
  wp (lift r) Q E s = match r with Ok a => Q a s | Raise e => E e s end.
Proof. destruct r; reflexivity. Qed.

Lemma wp_update f Q E s : wp (update f) Q E s = Q tt (f s).
Proof. reflexivity. Qed.

Lemma wp_bind {A B} (m : M A) (k : A -> M B) Q E s :
  wp (bind m k) Q E s = wp m (fun a s' => wp (k a) Q E s') E s.
Proof.
  unfold wp, bind. destruct (m s) as [[a|e] s']; reflexivity.
Qed.

Lemma wp_when (b : bool) (m : M unit) Q E s :
  wp (when b m) Q E s = if b then wp m Q E s else Q tt s.
Proof. destruct b; reflexivity. Qed.

Lemma try_except_wp (P : Signal -> Prop) body handler :
  wp body (fun _ a => P a) (fun e a => P (handler e a)) new_analysis ->
  P (try_except body handler).
Proof.
  unfold wp, try_except. destruct (body new_analysis) as [[u|e] a]; trivial.
Qed.

Lemma wp_try_except (P : Signal -> Prop) body handler :
  P (try_except body handler) ->
  wp body (fun _ a => P a) (fun e a => P (handler e a)) new_analysis.
Proof.
  unfold wp, try_except. destruct (body new_analysis) as [[u|e] a]; trivial.
Qed.

Ltac fields :=
  cbn [risk_score detected issues details_error new_analysis log_error
       set_error set_detected set_risk_score add_risk_score set_issues
       append_issue].

(** One statement of a block. *)
Ltac step :=
  first [ rewrite wp_bind | rewrite wp_ret | rewrite wp_update
        | rewrite wp_lift | rewrite wp_when ];
  cbv beta.

(** Run a block to its ends, splitting on every test and on every call
    that may raise. *)
Ltac run :=
  repeat first
    [ step
    | match goal with
      | |- match ?r with Ok _ => _ | Raise _ => _ end => destruct r eqn:?
      | |- if ?b then _ else _ => destruct b eqn:?
      | |- wp (let '(_, _) := ?p in _) _ _ _ => destruct p
      end ];
  fields.

Lemma white_text_in_unit (file : File) :
  in_unit (risk_score (_detect_white_text U file)).
Proof.
  unfold _detect_white_text.
  apply (try_except_wp (fun a => in_unit (risk_score a))).
  unfold white_text_body. run;
    repeat first [ apply in_unit_0 | apply max_in_unit
                 | apply clamp_in_unit; apply scaled_ratio_nonneg; lra ].
Qed.

Lemma keyword_stuffing_in_unit (text : pyval) :
  in_unit (risk_score (_detect_keyword_stuffing U text)).
Proof.
  unfold _detect_keyword_stuffing.
  apply (try_except_wp (fun a => in_unit (risk_score a))).
  unfold keyword_stuffing_body. run;
    first [ apply in_unit_0
          | apply clamp_in_unit; apply scaled_count_nonneg; lra ].
Qed.

Lemma invisible_characters_in_unit (text : pyval) :
  in_unit (risk_score (_detect_invisible_characters U text)).
Proof.
  unfold _detect_invisible_characters.
  apply (try_except_wp (fun a => in_unit (risk_score a))).
  unfold invisible_characters_body. run;
    first [ apply in_unit_0
          | apply clamp_in_unit; apply scaled_count_nonneg; lra ].
Qed.

Lemma suspicious_formatting_in_unit (file : File) :
  in_unit (risk_score (_analyze_suspicious_formatting U file)).
Proof.
  unfold _analyze_suspicious_formatting.
  apply (try_except_wp (fun a => in_unit (risk_score a))).
  unfold suspicious_formatting_body. run; unfold in_unit; lra.
Qed.

Lemma pdf_content_streams_in_unit (file : File) :
  in_unit (risk_score (_analyze_pdf_content_streams U file)).
Proof.
  unfold _analyze_pdf_content_streams.
  apply (try_except_wp (fun a => in_unit (risk_score a))).
  unfold pdf_content_streams_body. run;
    first [ apply in_unit_0
          | apply clamp_in_unit; apply scaled_count_nonneg; lra ].
Qed.

Lemma content_authenticity_in_unit (parsed_data : pyval) :
  in_unit (risk_score (_analyze_content_authenticity flesch parsed_data)).
Proof.
  unfold _analyze_content_authenticity.
  apply (try_except_wp (fun a => in_unit (risk_score a))).
  unfold content_authenticity_body. run; unfold in_unit; lra.
Qed.

Lemma mean_of_six_in_unit (a b c d e f : Q) :
  in_unit a -> in_unit b -> in_unit c -> in_unit d -> in_unit e -> in_unit f ->
  in_unit (Qsum [a; b; c; d; e; f] / Qnat 6).
Proof.
  unfold in_unit. intros [? ?] [? ?] [? ?] [? ?] [? ?] [? ?].
  change (Qnat 6) with 6%Q. unfold Qsum. cbn [fold_left].
  split.
  - apply Qle_shift_div_l; lra.
  - apply Qle_shift_div_r; lra.
Qed.

(** C1: for every document and parsed data, the score of each of the six
    signals and the overall score of the report lie in [0,1]; the additive
    scores of the formatting and content signals need no clamp, their
    increments adding up to at most 0.5 and 1. *)
Theorem risk_scores_in_unit_interval (file : File) (parsed_data text : pyval) :
  let r := analyze U flesch file parsed_data in
  ((0 <= overall_risk_score r)%Q /\ (overall_risk_score r <= 1)%Q) /\
  Forall (fun entry => (0 <= risk_score (snd entry))%Q
                       /\ (risk_score (snd entry) <= 1)%Q)
         (detailed_analysis r) /\
  in_unit (risk_score (_detect_white_text U file)) /\
  in_unit (risk_score (_detect_keyword_stuffing U text)) /\
  in_unit (risk_score (_detect_invisible_characters U text)) /\
  in_unit (risk_score (_analyze_suspicious_formatting U file)) /\
  in_unit (risk_score (_analyze_content_authenticity flesch parsed_data)) /\
  in_unit (risk_score (_analyze_pdf_content_streams U file)).
Proof.
  intros r. subst r.
  pose proof (white_text_in_unit file) as Hw.
  pose proof (suspicious_formatting_in_unit file) as Hf.
  pose proof (content_authenticity_in_unit parsed_data) as Hc.
  pose proof (pdf_content_streams_in_unit file) as Hp.
  repeat split; try (first [apply Hw|apply Hf|apply Hc|apply Hp]);
    try apply keyword_stuffing_in_unit; try apply invisible_characters_in_unit.
  - destruct (py_getitem parsed_data (cp "raw_text")) as [t|e] eqn:H.
    + rewrite (analyze_completes file parsed_data H).
      cbn [overall_risk_score six_signals map snd].
      apply mean_of_six_in_unit; auto using keyword_stuffing_in_unit,
        invisible_characters_in_unit.
    + rewrite (analyze_falls_back file parsed_data H). cbn. lra.
  - destruct (py_getitem parsed_data (cp "raw_text")) as [t|e] eqn:H.
    + rewrite (analyze_completes file parsed_data H).
      cbn [overall_risk_score six_signals map snd].
      apply mean_of_six_in_unit; auto using keyword_stuffing_in_unit,
        invisible_characters_in_unit.
    + rewrite (analyze_falls_back file parsed_data H). cbn. lra.
  - destruct (py_getitem parsed_data (cp "raw_text")) as [t|e] eqn:H.
    + rewrite (analyze_completes file parsed_data H).
      cbn [detailed_analysis six_signals].
      repeat constructor; cbn [snd];
        first [apply Hw|apply Hf|apply Hc|apply Hp
              |apply keyword_stuffing_in_unit
              |apply invisible_characters_in_unit].
    + rewrite (analyze_falls_back file parsed_data H). constructor.
Qed.

(* --------------------------------------------------------------------- *)
(** ** Colours that cannot be read *)
(* --------------------------------------------------------------------- *)

Lemma is_light_color_unparsable (color : pyval) :
  parsable_color U color = false -> _is_light_color U color = false.
Proof.
  unfold parsable_color, _is_light_color, is_light_color_body.
  destruct (py_lstrip_hash color) as [s|e]; cbn [rbind]; [|reflexivity].
  destruct (List.length s =? 6)%nat; [|reflexivity].
  destruct (rgb U s) as [[[r g] b]|e]; cbn [rbind andb]; [discriminate|reflexivity].
Qed.

Lemma colors_too_similar_unparsable_r (color1 color2 : pyval) :
  parsable_color U color2 = false -> _colors_too_similar U color1 color2 = false.
Proof.
  unfold parsable_color, _colors_too_similar, colors_too_similar_body.
  destruct (py_lstrip_hash color1) as [s1|e1]; cbn [rbind]; [|reflexivity].
  destruct (py_lstrip_hash color2) as [s2|e2]; cbn [rbind]; [|reflexivity].
  destruct (List.length s2 =? 6)%nat; [|rewrite andb_false_r; reflexivity].
  destruct (List.length s1 =? 6)%nat; cbn [andb]; [|reflexivity].
  destruct (rgb U s1) as [[[r1 g1] b1]|e1]; cbn [rbind]; [|reflexivity].
  destruct (rgb U s2) as [[[r2 g2] b2]|e2]; cbn [rbind]; [discriminate|reflexivity].
Qed.

Lemma colors_too_similar_unparsable_l (color1 color2 : pyval) :
  parsable_color U color1 = false -> _colors_too_similar U color1 color2 = false.
Proof.
  unfold parsable_color, _colors_too_similar, colors_too_similar_body.
  destruct (py_lstrip_hash color1) as [s1|e1]; cbn [rbind]; [|reflexivity].
  destruct (py_lstrip_hash color2) as [s2|e2]; cbn [rbind]; [|reflexivity].
  destruct (List.length s1 =? 6)%nat; cbn [andb]; [|reflexivity].
  destruct (List.length s2 =? 6)%nat; [|reflexivity].
  destruct (rgb U s1) as [[[r1 g1] b1]|e1]; cbn [rbind]; [discriminate|reflexivity].
Qed.

(** C10 (amended): for a glyph whose colour entry is present but cannot be
    read as six hexadecimal digits (a 3-digit form, a value that is not a
    string, malformed hex), the light-colour check and the colour-collision
    check are both false.  For a glyph without a colour entry the
    light-colour check is not made, and the collision check compares the
    background with the default [#000000]: it is the outcome of that
    comparison when the glyph has a non-empty background colour, and false
    otherwise. *)
Theorem unparsable_color_checks (g : Glyph) :
  match g_color g with
  | Some color => parsable_color U color = false
  | None => True
  end ->
  light_color_hit U g = false /\
  collision_hit U g
  = match g_color g, g_bgcolor g with
    | None, Some bgcolor =>
        py_truthy bgcolor && _colors_too_similar U bgcolor (PStr (cp "#000000"))
    | _, _ => false
    end.
Proof.
  unfold light_color_hit, collision_hit, color_of.
  destruct (g_color g) as [color|]; intros H.
  - split; [apply is_light_color_unparsable; exact H|].
    destruct (g_bgcolor g) as [bgcolor|]; [|reflexivity].
    rewrite (colors_too_similar_unparsable_r bgcolor _ H).
    apply andb_false_r.
  - split; [reflexivity|].
    destruct (g_bgcolor g); reflexivity.
Qed.

(* --------------------------------------------------------------------- *)
(** ** A detector that raises *)
(* --------------------------------------------------------------------- *)











(* --------------------------------------------------------------------- *)
(** ** The white-text score *)
(* --------------------------------------------------------------------- *)

Lemma Qmax_0_l (x : Q) : (0 <= x)%Q -> (Qmax 0 x == x)%Q.
Proof. intros H. apply Q.max_r. exact H. Qed.

Lemma clamp_nonneg (x : Q) : (0 <= x)%Q -> (0 <= Qmin x 1.0)%Q.
Proof. intros H. apply (clamp_in_unit H). Qed.

(** C7 (amended): for every PDF document with at least one glyph whose
    glyphs of size under 3 all lie on the last page - every one-page
    document for one - the white-text score is the larger of the two gated
    terms, [min(white_text_ratio*3, 1)] counted only when
    [white_text_ratio > 0.05] and [min(tiny_text_ratio*2, 1)] only when
    [tiny_text_ratio > 0.10], and detected is the disjunction of the two
    gates. *)
Theorem white_text_gated_score (file : File) (pages : list Page) :
  is_pdf U file = true ->
  plumber_pages file = Ok pages ->
  (0 < total_elements pages)%nat ->
  count tiny_text (all_glyphs pages) = count tiny_text (chars_after_loop pages) ->
  let w := white_text_ratio U pages in
  let t := tiny_text_ratio pages in
  let a := _detect_white_text U file in
  (risk_score a
   == Qmax (if Qltb 0.05 w then Qmin (w * 3) 1 else 0)
           (if Qltb 0.1 t then Qmin (t * 2) 1 else 0))%Q /\
  detected a = Qltb 0.05 w || Qltb 0.1 t.
Proof.
  intros Hpdf Hpages Htotal Hlast w t a. subst w t a.
  unfold tiny_text_ratio. rewrite Hlast.
  unfold _detect_white_text.
  apply (try_except_wp (fun a => (risk_score a == _)%Q /\ detected a = _)).
  unfold white_text_body.
  rewrite wp_when, Hpdf, wp_bind, wp_lift, Hpages. cbv beta.
  apply Nat.ltb_lt in Htotal. rewrite wp_when, Htotal.
  fold (white_text_ratio U pages). fold tiny_text.
  set (w := white_text_ratio U pages).
  set (t := (Qnat (count tiny_text (chars_after_loop pages))
             / Qnat (total_elements pages))%Q).
  assert (Hw : (0 <= Qmin (w * 3) 1.0)%Q).
  { apply clamp_nonneg. apply scaled_ratio_nonneg. lra. }
  assert (Ht : (0 <= Qmin (t * 2) 1.0)%Q).
  { apply clamp_nonneg. apply scaled_ratio_nonneg. lra. }
  assert (E : forall x, (Qmin x 1.0 == Qmin x 1)%Q).
  { intros x. apply Q.min_compat; [reflexivity | lra]. }
  rewrite E in Hw, Ht.
  run; (split; [|reflexivity]); rewrite ?E.
  - reflexivity.
  - symmetry. apply Q.max_l. exact Hw.
  - reflexivity.
  - symmetry. apply Q.max_l. lra.
Qed.

(* --------------------------------------------------------------------- *)
(** ** The empty document *)
(* --------------------------------------------------------------------- *)

Lemma quiet_new_analysis : quiet new_analysis.
Proof. repeat split. Qed.

(** Evaluate the test or the call at the head of the goal when it is
    closed. *)
Ltac eval_head :=
  match goal with
  | |- match ?r with Ok _ => _ | Raise _ => _ end =>
      let v := eval vm_compute in r in
      lazymatch v with
      | Ok _ => change r with v; cbv beta iota
      | Raise _ => change r with v; cbv beta iota
      end
  | |- if ?b then _ else _ =>
      let v := eval vm_compute in b in
      lazymatch v with
      | true => change b with v; cbv beta iota
      | false => change b with v; cbv beta iota
      end
  end.

Ltac run_closed :=
  repeat first
    [ step
    | eval_head
    | match goal with
      | H : ?r = _ |- match ?r with Ok _ => _ | Raise _ => _ end => rewrite H
      | H : ?b = _ |- if ?b then _ else _ => rewrite H
      end ];
  fields.

Lemma total_elements_no_glyphs (pages : list Page) :
  Forall (fun p => chars p = []) pages -> total_elements pages = 0%nat.
Proof.
  unfold total_elements. induction 1 as [|p rest Hp _ IH]; simpl in *.
  - reflexivity.
  - rewrite Hp. exact IH.
Qed.

Lemma font_sizes_no_glyphs (pages : list Page) :
  Forall (fun p => chars p = []) pages -> font_sizes pages = [].
Proof.
  unfold font_sizes. induction 1 as [|p rest Hp _ IH]; cbn [flat_map].
  - reflexivity.
  - rewrite Hp, IH. reflexivity.
Qed.

Lemma suspicious_patterns_no_operators (streams : list (option pystr)) :
  Forall (fun c => c = None \/ c = Some []) streams ->
  suspicious_patterns U streams = Ok 0%nat.
Proof.
  induction 1 as [|c rest Hc _ IH]; cbn [suspicious_patterns].
  - reflexivity.
  - destruct Hc as [-> | ->]; [exact IH|].
    rewrite IH. reflexivity.
Qed.

Lemma white_text_no_glyphs (file : File) :
  no_glyphs file -> quiet (_detect_white_text U file).
Proof.
  unfold no_glyphs, _detect_white_text. intros H.
  apply (try_except_wp quiet). unfold white_text_body.
  destruct (plumber_pages file) as [pages|e].
  - pose proof (total_elements_no_glyphs H) as E.
    run; try apply quiet_new_analysis;
      rewrite E in *; discriminate.
  - run; apply quiet_new_analysis.
Qed.

Lemma suspicious_formatting_no_glyphs (file : File) :
  no_glyphs file -> quiet (_analyze_suspicious_formatting U file).
Proof.
  unfold no_glyphs, _analyze_suspicious_formatting. intros H.
  apply (try_except_wp quiet). unfold suspicious_formatting_body.
  destruct (plumber_pages file) as [pages|e].
  - pose proof (font_sizes_no_glyphs H) as E.
    run; try apply quiet_new_analysis;
      rewrite E in *; discriminate.
  - run; apply quiet_new_analysis.
Qed.

Lemma pdf_content_streams_no_operators (file : File) :
  no_operators file -> quiet (_analyze_pdf_content_streams U file).
Proof.
  unfold no_operators, _analyze_pdf_content_streams. intros H.
  apply (try_except_wp quiet). unfold pdf_content_streams_body.
  destruct (pypdf_pages file) as [streams|e].
  - pose proof (suspicious_patterns_no_operators H) as E.
    destruct (is_pdf U file); run_closed; apply quiet_new_analysis.
  - run; apply quiet_new_analysis.
Qed.

Lemma keyword_stuffing_empty_text : quiet (_detect_keyword_stuffing U (PStr [])).
Proof. vm_compute. repeat split. Qed.

Lemma invisible_characters_empty_text :
  quiet (_detect_invisible_characters U (PStr [])).
Proof. vm_compute. repeat split. Qed.

Lemma content_authenticity_empty_resume :
  empty_resume_content (flesch (PStr []))
    (_analyze_content_authenticity flesch (parsed_resume "" [])).
Proof.
  unfold _analyze_content_authenticity.
  apply (try_except_wp (empty_resume_content (flesch (PStr [])))).
  unfold content_authenticity_body, empty_resume_content.
  destruct (flesch (PStr [])) as [q|e] eqn:Hf.
  - destruct (Qltb q 30) eqn:Hq; run_closed;
      (split; [reflexivity|]); (split; [reflexivity|]); lra.
  - run_closed. apply quiet_new_analysis.
Qed.

Lemma quiet_risk (s : Signal) : quiet s -> (risk_score s == 0)%Q.
Proof. intros [_ [H _]]. exact H. Qed.

(** C4 (amended): for a document with no glyph and no content-stream
    operator, an empty text and the fields the parser derives from it, the
    five signals other than content-authenticity have detected=false and
    score 0, and the level is low.  The content-authenticity signal reports
    the missing contact information: detected=true with score 0.1, and 0.2
    more with "Poor text readability" when the reading ease of the empty text
    is under 30; it is silent only if [textstat] raises.  The overall score
    is that signal's score divided by 6. *)
Theorem empty_document_report (file : File) :
  no_glyphs file ->
  no_operators file ->
  let parsed_data := parsed_resume "" [] in
  let r := analyze U flesch file parsed_data in
  let content := _analyze_content_authenticity flesch parsed_data in
  quiet (_detect_white_text U file) /\
  quiet (_detect_keyword_stuffing U (PStr [])) /\
  quiet (_detect_invisible_characters U (PStr [])) /\
  quiet (_analyze_suspicious_formatting U file) /\
  quiet (_analyze_pdf_content_streams U file) /\
  empty_resume_content (flesch (PStr [])) content /\
  detailed_analysis r = six_signals U flesch file parsed_data (PStr []) /\
  (overall_risk_score r == risk_score content / 6)%Q /\
  risk_level r = low.
Proof.
  intros Hg Ho parsed_data r content. subst r content.
  pose proof (white_text_no_glyphs file Hg) as Hw.
  pose proof keyword_stuffing_empty_text as Hk.
  pose proof invisible_characters_empty_text as Hi.
  pose proof (suspicious_formatting_no_glyphs file Hg) as Hf.
  pose proof (pdf_content_streams_no_operators file Ho) as Hp.
  pose proof content_authenticity_empty_resume as Hc.
  fold parsed_data in Hc.
  assert (Hraw : py_getitem parsed_data (cp "raw_text") = Ok (PStr []))
    by reflexivity.
  rewrite (analyze_completes file parsed_data Hraw).
  cbn [detailed_analysis overall_risk_score risk_level].
  assert (Hsum :
    (Qsum (map (fun p => risk_score (snd p))
               (six_signals U flesch file parsed_data (PStr []))) / Qnat 6
     == risk_score (_analyze_content_authenticity flesch parsed_data) / 6)%Q).
  { unfold six_signals, Qsum. cbn [map snd fold_left].
    rewrite (quiet_risk Hw), (quiet_risk Hk), (quiet_risk Hi),
      (quiet_risk Hf), (quiet_risk Hp).
    change (Qnat 6) with 6%Q. field. }
  repeat (split; [assumption || reflexivity|]).
  apply risk_level_of_low. rewrite Hsum.
  assert (Hle : (risk_score (_analyze_content_authenticity flesch parsed_data)
                 <= 0.3)%Q).
  { unfold empty_resume_content in Hc.
    destruct (flesch (PStr [])) as [q|e].
    - destruct Hc as [_ [_ Hc]]. rewrite Hc. destruct (Qltb q 30); lra.
    - rewrite (quiet_risk Hc). lra. }
  apply Qlt_shift_div_r; lra.
Qed.

(* --------------------------------------------------------------------- *)
(** ** The content-stream patterns *)
(* --------------------------------------------------------------------- *)

Lemma iter_chars (p : Z -> bool) (n : nat) (w : pystr) (g g' : groups) :
  iter (sem (RChar p)) n w g g' ->
  Forall (fun c => p c = true) w /\ List.length w = n /\ g' = g.
Proof.
  induction 1 as [g|n u v g gm g' [c [-> [Hc ->]]] _ [IH1 [IH2 IH3]]].
  - repeat split. constructor.
  - repeat split.
    + constructor; assumption.
    + cbn. rewrite IH2. reflexivity.
    + exact IH3.
Qed.

Lemma sem_rplus_chars (p : Z -> bool) (w : pystr) (g g' : groups) :
  sem (rplus (RChar p)) w g g' ->
  Forall (fun c => p c = true) w /\ w <> [] /\ g' = g.
Proof.
  intros [n [Hn [_ H]]]. apply iter_chars in H. destruct H as [H1 [H2 H3]].
  repeat split; [exact H1 | | exact H3].
  intros ->. cbn in H2. lia.
Qed.

Lemma sem_rlit (c : Z) (w : pystr) (g g' : groups) :
  sem (rlit c) w g g' -> w = [c] /\ g' = g.
Proof.
  intros [x [-> [Hx ->]]]. apply Z.eqb_eq in Hx. subst x. auto.
Qed.

Lemma sem_literals (l : list Z) :
  forall w g g', sem (rseq (map rlit l)) w g g' -> w = l /\ g' = g.
Proof.
  induction l as [|c l IH]; intros w g g' H; cbn [map rseq fold_right sem] in H.
  - exact H.
  - destruct H as [u [v [gm [-> [Hu Hv]]]]].
    apply sem_rlit in Hu. destruct Hu as [-> ->].
    apply IH in Hv. destruct Hv as [-> ->]. auto.
Qed.

Lemma sem_rstr (str : string) (w : pystr) (g g' : groups) :
  sem (rstr str) w g g' -> w = cp str /\ g' = g.
Proof. apply sem_literals. Qed.









(* --------------------------------------------------------------------- *)
(** ** [int] and [float] accept what the patterns capture *)
(* --------------------------------------------------------------------- *)

Lemma is_digit_cases (c : Z) :
  is_digit U c = true ->
  ((48 <= c <= 57)%Z /\ decimal_value U c = Some (c - 48)%Z) \/
  ((128 <= c)%Z /\ exists d, u_decimal U c = Some d /\ (0 <= d < 10)%Z
                             /\ u_isspace U c = false).
Proof.
  unfold is_digit, decimal_value, is_ascii, ascii_isdigit, between.
  destruct (c <? 128)%Z eqn:E.
  - destruct ((48 <=? c)%Z && (c <=? 57)%Z) eqn:D; [|discriminate].
    intros _. left. apply andb_true_iff in D. destruct D as [D1 D2].
    apply Z.leb_le in D1. apply Z.leb_le in D2. auto.
  - destruct (u_decimal U c) as [d|] eqn:D; [|discriminate].
    intros _. right. apply Z.ltb_ge in E. split; [exact E|].
    exists d. split; [reflexivity|]. split.
    + exact (u_decimal_range U c D).
    + exact (u_decimal_not_space U c D).
Qed.

(** A digit is none of the characters with a role in a number. *)
Lemma is_digit_plain (c : Z) :
  is_digit U c = true ->
  is_space_number U c = false /\ (c =? 43)%Z = false /\ (c =? 45)%Z = false
  /\ (c =? 46)%Z = false /\ (c =? 95)%Z = false.
Proof.
  intros H. destruct (is_digit_cases c H) as [[Hc _]|[Hc [d [_ [_ Hs]]]]].
  - unfold is_space_number, is_ascii, between.
    replace (c <? 128)%Z with true by (symmetry; apply Z.ltb_lt; lia).
    replace (c <=? 13)%Z with false by (symmetry; apply Z.leb_gt; lia).
    rewrite andb_false_r. cbn [orb].
    repeat split; apply Z.eqb_neq; lia.
  - unfold is_space_number, is_ascii.
    replace (c <? 128)%Z with false by (symmetry; apply Z.ltb_ge; lia).
    repeat split; [exact Hs| | | |]; apply Z.eqb_neq; lia.
Qed.

Lemma digit_value_decimal (c : Z) :
  is_digit U c = true -> exists d, digit_value U 10 c = Some d.
Proof.
  intros H. unfold digit_value, is_ascii, ascii_isdigit, between.
  destruct (is_digit_cases c H) as [[Hc _]|[Hc [d [Hd [Hr _]]]]].
  - replace (c <? 128)%Z with true by (symmetry; apply Z.ltb_lt; lia).
    replace (48 <=? c)%Z with true by (symmetry; apply Z.leb_le; lia).
    replace (c <=? 57)%Z with true by (symmetry; apply Z.leb_le; lia).
    cbn [andb].
    replace (c - 48 <? 10)%Z with true by (symmetry; apply Z.ltb_lt; lia).
    eauto.
  - replace (c <? 128)%Z with false by (symmetry; apply Z.ltb_ge; lia).
    rewrite Hd.
    replace (d <? 10)%Z with true by (symmetry; apply Z.ltb_lt; lia).
    eauto.
Qed.

Lemma parse_digits_total (l : pystr) :
  Forall (fun c => is_digit U c = true) l ->
  forall acc prev_digit,
    l <> [] \/ prev_digit = true ->
    exists n, parse_digits U 10 l acc prev_digit = Some n.
Proof.
  induction 1 as [|c l Hc _ IH]; intros acc prev_digit Hne; cbn [parse_digits].
  - destruct Hne as [Hne| ->]; [contradiction|]. eauto.
  - destruct (is_digit_plain c Hc) as [_ [_ [_ [_ Hu]]]]. rewrite Hu.
    destruct (digit_value_decimal c Hc) as [d ->].
    apply IH. auto.
Qed.

Lemma lstrip_space_id (s : pystr) :
  Forall (fun c => is_space_number U c = false) s -> lstrip_space U s = s.
Proof.
  intros H. destruct H as [|c s Hc _]; cbn [lstrip_space]; [reflexivity|].
  rewrite Hc. reflexivity.
Qed.

Lemma strip_space_id (s : pystr) :
  Forall (fun c => is_space_number U c = false) s -> strip_space U s = s.
Proof.
  intros H. unfold strip_space.
  rewrite (lstrip_space_id H).
  rewrite (lstrip_space_id (Forall_rev H)).
  apply rev_involutive.
Qed.

Lemma digits_no_space (l : pystr) :
  Forall (fun c => is_digit U c = true) l ->
  Forall (fun c => is_space_number U c = false) l.
Proof.
  apply Forall_impl. intros c Hc. apply (is_digit_plain c Hc).
Qed.

Lemma split_sign_digits (l : pystr) :
  Forall (fun c => is_digit U c = true) l -> split_sign l = (1%Z, l).
Proof.
  intros H. destruct H as [|c l Hc _]; cbn [split_sign]; [reflexivity|].
  destruct (is_digit_plain c Hc) as [_ [-> [-> _]]]. reflexivity.
Qed.

(** [int(mode)] accepts a run of digits. *)
Lemma py_int_digits (l : pystr) :
  digits U l -> exists n, py_int U 10 l = Ok n.
Proof.
  intros [Hd Hne]. unfold py_int.
  rewrite (strip_space_id (digits_no_space Hd)), (split_sign_digits Hd).
  assert (E : exists n, parse_digits U 10 l 0 false = Some n)
    by (apply parse_digits_total; auto).
  destruct E as [n E].
  change (10 =? 16)%Z with false. 
  destruct l as [|z [|x r]]; rewrite ?andb_false_r; rewrite E;
    cbn [andb]; eauto.
Qed.

Lemma split_dot_digits (d f : pystr) :
  Forall (fun c => is_digit U c = true) d ->
  split_dot (d ++ f) = (d ++ fst (split_dot f), snd (split_dot f)).
Proof.
  induction 1 as [|c d Hc _ IH]; cbn [app].
  - destruct (split_dot f). reflexivity.
  - cbn [split_dot]. destruct (is_digit_plain c Hc) as [_ [_ [_ [-> _]]]].
    rewrite IH. reflexivity.
Qed.

(** [float(x)] accepts such a number. *)
Lemma py_float_number (w : pystr) :
  number_shape U w -> exists q, py_float U w = Ok q.
Proof.
  intros [sign [d [f [-> [Hsign [[Hd Hne] Hf]]]]]].
  assert (Hspace : Forall (fun c => is_space_number U c = false)
                          (sign ++ d ++ f)).
  { apply Forall_app. split; [|apply Forall_app; split].
    - destruct Hsign as [-> | ->]; repeat constructor.
    - apply digits_no_space. exact Hd.
    - destruct Hf as [-> | [d2 [-> [Hd2 _]]]]; [constructor|].
      constructor; [reflexivity | apply digits_no_space; exact Hd2]. }
  unfold py_float. rewrite (strip_space_id Hspace).
  assert (Hs : exists sg, split_sign (sign ++ d ++ f) = (sg, d ++ f)).
  { destruct Hsign as [-> | ->].
    - cbn [app]. destruct Hd as [|c d Hc Hd]; [contradiction|].
      cbn [app split_sign].
      destruct (is_digit_plain c Hc) as [_ [-> [-> _]]]. eauto.
    - cbn [app split_sign]. change (45 =? 43)%Z with false.
      change (45 =? 45)%Z with true. cbn iota. eauto. }
  destruct Hs as [sg ->]. rewrite (split_dot_digits f Hd).
  destruct (@parse_digits_total d Hd 0%Z false (or_introl Hne)) as [i Hi].
  destruct Hf as [-> | [d2 [-> [Hd2 Hne2]]]].
  - cbn [split_dot fst snd]. rewrite app_nil_r, Hi. eauto.
  - cbn [split_dot fst snd]. change (46 =? 46)%Z with true. cbn iota.
    cbn [fst snd]. rewrite app_nil_r, Hi.
    destruct (@parse_digits_total d2 Hd2 0%Z false (or_introl Hne2)) as [j ->].
    eauto.
Qed.

Lemma sem_ropt (a : regex) (w : pystr) (g g' : groups) :
  sem (ropt a) w g g' -> (w = [] /\ g' = g) \/ sem a w g g'.
Proof.
  intros [n [_ [Hn H]]]. cbn [within] in Hn.
  destruct n as [|[|n]]; [| |lia].
  - left. inversion H. auto.
  - right. inversion H as [|? u v ? gm ? Hu Hv]. subst.
    inversion Hv. subst. rewrite app_nil_r. exact Hu.
Qed.

Lemma sem_rplus_digits (w : pystr) (g g' : groups) :
  sem (rplus (rdigit U)) w g g' -> digits U w /\ g' = g.
Proof.
  intros H. apply sem_rplus_chars in H. unfold digits. tauto.
Qed.

Lemma number_pattern_shape (w : pystr) (g g' : groups) :
  sem (number_pattern U) w g g' -> number_shape U w /\ g' = g.
Proof.
  unfold number_pattern, rseq. cbn [fold_right].
  intros [sign [v [g1 [-> [Hsign [d [v2 [g2 [-> [Hd [f [e [g3 [-> [Hf He]]]]]]]]]]]]]]].
  cbn [sem] in He. destruct He as [-> <-]. rewrite app_nil_r.
  apply sem_ropt in Hsign. apply sem_rplus_digits in Hd. apply sem_ropt in Hf.
  destruct Hd as [Hd ->].
  assert (Hs : (sign = [] \/ sign = [45%Z]) /\ g1 = g).
  { destruct Hsign as [[-> ->]|Hsign]; [auto|].
    apply sem_rlit in Hsign. destruct Hsign as [-> ->]. auto. }
  destruct Hs as [Hs ->].
  assert (Hf' : (f = [] \/ exists d2, f = 46%Z :: d2 /\ digits U d2) /\ g' = g).
  { destruct Hf as [[-> ->]|Hf]; [auto|].
    destruct Hf as [dot [d2 [g4 [-> [Hdot [d3 [e [g5 [-> [Hd3 [-> <-]]]]]]]]]]].
    apply sem_rlit in Hdot. destruct Hdot as [-> ->].
    apply sem_rplus_digits in Hd3. destruct Hd3 as [Hd3 ->].
    rewrite app_nil_r. split; [right|reflexivity].
    exists d3. auto. }
  destruct Hf' as [Hf' ->].
  split; [|reflexivity]. exists sign, d, f. auto.
Qed.

(** What the rendering-mode pattern captures. *)
Lemma rendering_mode_groups (w : pystr) (g' : groups) :
  sem (rendering_mode_pattern U) w [] g' ->
  exists d, g' = [(1%nat, d)] /\ digits U d.
Proof.
  unfold rendering_mode_pattern, rseq. cbn [fold_right].
  intros [d [v [g1 [-> [[g0 [Hd ->]] [ws [v2 [g2 [-> [Hws [tr [e [g3 [-> [Htr [-> ->]]]]]]]]]]]]]]]].
  apply sem_rplus_digits in Hd. destruct Hd as [Hd ->].
  apply sem_rplus_chars in Hws. destruct Hws as [_ [_ ->]].
  apply sem_rstr in Htr. destruct Htr as [_ ->].
  exists d. auto.
Qed.

(** What the text-positioning pattern captures. *)
Lemma text_positioning_groups (w : pystr) (g' : groups) :
  sem (text_positioning_pattern U) w [] g' ->
  exists x y, g' = [(2%nat, y); (1%nat, x)] /\ number_shape U x /\ number_shape U y.
Proof.
  unfold text_positioning_pattern, rseq. cbn [fold_right].
  intros [x [v [g1 [-> [[g0 [Hx ->]] [ws [v2 [g2 [-> [Hws
         [y [v3 [g3 [-> [[g4 [Hy ->]] [ws2 [v4 [g5 [-> [Hws2
         [td [e [g6 [-> [Htd [-> ->]]]]]]]]]]]]]]]]]]]]]]]]]].
  apply number_pattern_shape in Hx. destruct Hx as [Hx ->].
  apply sem_rplus_chars in Hws. destruct Hws as [_ [_ ->]].
  apply number_pattern_shape in Hy. destruct Hy as [Hy ->].
  apply sem_rplus_chars in Hws2. destruct Hws2 as [_ [_ ->]].
  apply sem_rstr in Htd. destruct Htd as [_ ->].
  exists x, y. auto.
Qed.

Lemma invisible_rendering_modes_total (modes : list pystr) :
  Forall (digits U) modes -> exists l, invisible_rendering_modes U modes = Ok l.
Proof.
  induction 1 as [|mode rest Hm _ [l IH]]; cbn [invisible_rendering_modes].
  - eauto.
  - destruct (py_int_digits Hm) as [n ->]. rewrite IH. cbn [rbind]. eauto.
Qed.

Lemma off_page_text_total (positions : list (pystr * pystr)) :
  Forall (fun xy => number_shape U (fst xy) /\ number_shape U (snd xy)) positions ->
  exists l, off_page_text U positions = Ok l.
Proof.
  induction 1 as [|[x y] rest [Hx Hy] _ [l IH]]; cbn [off_page_text].
  - eauto.
  - cbn [fst snd] in Hx, Hy. unfold is_off_page.
    destruct (py_float_number Hx) as [fx ->].
    destruct (py_float_number Hy) as [fy ->].
    cbn [rbind]. destruct (Qltb fx 0); cbn [rbind]; rewrite IH; cbn [rbind]; eauto.
Qed.

(** The scan of one content stream never raises, and its count is the sum
    of the four kinds of hits. *)
Lemma stream_suspicious_total (content_data : pystr) :
  exists invisible off_page,
    stream_suspicious U content_data
    = Ok (white_font_matches U content_data
          + List.length (invisible : list pystr)
          + (if (5 <? List.length (findall (white_color_pattern U) content_data))%nat
             then 1 else 0)
          + List.length (off_page : list (pystr * pystr)))%nat.
Proof.
  unfold stream_suspicious.
  destruct (@invisible_rendering_modes_total
              (map (fun m => mt_group m 1)
                   (findall (rendering_mode_pattern U) content_data)))
    as [invisible ->].
  { apply Forall_map. apply Forall_forall. intros m Hm.
    apply findall_sound in Hm. apply rendering_mode_groups in Hm.
    destruct Hm as [d [Hg Hd]]. unfold mt_group. rewrite Hg. exact Hd. }
  destruct (@off_page_text_total
              (map (fun m => (mt_group m 1, mt_group m 2))
                   (findall (text_positioning_pattern U) content_data)))
    as [off_page ->].
  { apply Forall_map. apply Forall_forall. intros m Hm.
    apply findall_sound in Hm. apply text_positioning_groups in Hm.
    destruct Hm as [x [y [Hg [Hx Hy]]]]. unfold mt_group. rewrite Hg.
    split; assumption. }
  cbn [rbind]. eauto.
Qed.

Lemma suspicious_patterns_total (streams : list (option pystr)) :
  exists hits, suspicious_patterns U streams = Ok hits.
Proof.
  induction streams as [|[content_data|] rest [m IH]];
    cbn [suspicious_patterns].
  - eauto.
  - destruct (stream_suspicious_total content_data) as [i [o ->]].
    rewrite IH. cbn [rbind]. eauto.
  - eauto.
Qed.





End Properties.

(* ===================================================================== *)
(** * The properties at concrete inputs *)
(* ===================================================================== *)

Lemma unparsable_color_checks_witness :
  parsable_color ascii_unicode (PStr (cp "#fff")) = false /\
  light_color_hit ascii_unicode glyph_short_color = false /\
  collision_hit ascii_unicode glyph_short_color = false.
Proof.
  split; [reflexivity|].
  apply (unparsable_color_checks ascii_unicode glyph_short_color).
  reflexivity.
Defined.

(** C10 (as stated) fails: a glyph that has no colour entry and a black
    background passes the collision check, and is counted as suspicious. *)
Lemma absent_color_collides :
  g_color glyph_on_black = None /\
  collision_hit ascii_unicode glyph_on_black = true /\
  page_suspicious ascii_unicode (letter_page [glyph_on_black]) = 1%nat.
Proof.
  repeat split; reflexivity.
Qed.

(** C3 (as stated) fails: the fallback report has the score 0, under 0.40,
    and the level unknown, whereas a completed analysis with the same score
    has the level low. *)
Lemma unknown_level_at_score_zero :
  (overall_risk_score report_without_text
   == overall_risk_score report_plain_resume)%Q /\
  (overall_risk_score report_without_text < 0.4)%Q /\
  risk_level report_without_text = unknown /\
  risk_level report_plain_resume = low.
Proof.
  repeat split; vm_compute; reflexivity.
Qed.

Lemma risk_level_thresholds_witness :
  let p := parsed_resume "x" [("email"%string, PStr (cp "a@b.c"))] in
  py_getitem p (cp "raw_text") = Ok (PStr (cp "x")) /\
  ((overall_risk_score report_plain_resume < 0.4)%Q ->
   risk_level report_plain_resume = low).
Proof.
  split; [reflexivity|].
  apply (risk_level_thresholds ascii_unicode (flesch_const 100)
           docx_file docx_file
           (parsed_resume "x" [("email"%string, PStr (cp "a@b.c"))])
           (parsed_resume "x" [("email"%string, PStr (cp "a@b.c"))])
           eq_refl eq_refl).
Defined.

(** C6 (as stated) fails: without a [raw_text] entry the level of the
    report is none of low, medium and high. *)
Lemma level_outside_enumeration :
  py_getitem (dict []) (cp "raw_text") = Raise KeyError /\
  risk_level report_without_text = unknown /\
  risk_level report_without_text <> low /\
  risk_level report_without_text <> medium /\
  risk_level report_without_text <> high.
Proof.
  repeat split; try reflexivity; vm_compute; discriminate.
Qed.

(** C8 (as stated) fails: the fallback report holds no signal, and yet one
    issue. *)
Lemma fallback_issue_without_signal :
  detailed_analysis report_without_text = [] /\
  detected_issues report_without_text = [AnalysisFailed] /\
  detected_issues report_without_text
  <> concat (map (fun entry => reported (snd entry))
                 (detailed_analysis report_without_text)).
Proof.
  repeat split; vm_compute; discriminate.
Qed.

Lemma detected_issues_concat_witness :
  let p := parsed_resume "python python python" [] in
  py_getitem p (cp "raw_text") = Ok (PStr (cp "python python python")) /\
  detected_issues (analyze ascii_unicode (flesch_const 100) pdf_one_tiny p)
  = [RepetitionPatterns 1; MissingContact; StreamManipulation 1].
Proof.
  split; [reflexivity|].
  rewrite (proj1 (proj2 (detected_issues_concat ascii_unicode (flesch_const 100)
                           pdf_one_tiny
                           (parsed_resume "python python python" [])
                           eq_refl))).
  reflexivity.
Defined.

(** C7 (as stated) fails: with one glyph in 25 under size 2 both ratios are
    0.04, under the two gates, and the score is 0 and not
    [max(min(0.12, 1), min(0.08, 1))]. *)
Lemma ungated_score_refuted :
  let a := _detect_white_text ascii_unicode pdf_one_tiny in
  let w := white_text_ratio ascii_unicode [page_one_tiny] in
  let t := tiny_text_ratio [page_one_tiny] in
  (w == 0.04)%Q /\ (t == 0.04)%Q /\ (risk_score a == 0)%Q /\
  ~ (risk_score a == Qmax (Qmin (w * 3) 1) (Qmin (t * 2) 1))%Q.
Proof.
  repeat split; try (vm_compute; reflexivity).
  intro H. vm_compute in H. discriminate H.
Qed.

Lemma white_text_gated_score_witness :
  let file := pdf_file [page_two_tiny] [] in
  let a := _detect_white_text ascii_unicode file in
  (0 < total_elements [page_two_tiny])%nat /\
  (risk_score a == 0.6)%Q /\ detected a = true.
Proof.
  split; [vm_compute; lia|].
  destruct (white_text_gated_score ascii_unicode
              (pdf_file [page_two_tiny] []) (pages := [page_two_tiny])
              eq_refl eq_refl ltac:(vm_compute; lia) eq_refl) as [H1 H2].
  split; [rewrite H1; vm_compute; reflexivity | exact H2].
Defined.

(** The glyphs under size 3 of a page before the last are left out of the
    tiny-text ratio: half of the glyphs of this document are tiny, and
    nothing is detected. *)
Lemma tiny_text_before_last_page_ignored :
  let pages := [letter_page [glyph "a" 10 10 2.5]; letter_page [glyph "b" 10 10 12]] in
  let a := _detect_white_text ascii_unicode (pdf_file pages []) in
  (tiny_text_ratio pages == 0.5)%Q /\ detected a = false /\ (risk_score a == 0)%Q.
Proof.
  repeat split; vm_compute; reflexivity.
Qed.

(** C4 (as stated) fails: for the empty PDF and the resume parsed from an
    empty text, whose reading ease [textstat] computes as 206.835, the
    content-authenticity signal is detected and the overall score is not
    0. *)
Lemma empty_document_flagged :
  let r := analyze ascii_unicode (flesch_const 206.835) (pdf_file [] [])
             (parsed_resume "" []) in
  map (fun entry => detected (snd entry)) (detailed_analysis r)
  = [false; false; false; false; true; false] /\
  detected_issues r = [MissingContact] /\
  (overall_risk_score r == 1 # 60)%Q /\
  ~ (overall_risk_score r == 0)%Q.
Proof.
  repeat split; try (vm_compute; reflexivity).
  intro H. vm_compute in H. discriminate H.
Qed.

Lemma empty_document_report_witness :
  let file := pdf_file [letter_page []] [None] in
  let r := analyze ascii_unicode (flesch_const 206.835) file (parsed_resume "" []) in
  no_glyphs file /\ no_operators file /\
  quiet (_detect_white_text ascii_unicode file) /\ risk_level r = low.
Proof.
  assert (Hg : no_glyphs (pdf_file [letter_page []] [None]))
    by (repeat constructor).
  assert (Ho : no_operators (pdf_file [letter_page []] [None]))
    by (repeat constructor).
  pose proof (empty_document_report ascii_unicode (flesch_const 206.835)
                (pdf_file [letter_page []] [None]) Hg Ho) as H.
  cbv zeta in H. cbv zeta.
  split; [exact Hg|]. split; [exact Ho|].
  split; [apply H | apply H].
Defined.



(** C2 does not hold on this resume: the content-authenticity detector
    raises [AttributeError] at [contact_info.get], after it has added 0.3
    for the skills; the failed detector then contributes 0.3, not 0, to the
    mean of the six scores, which is 0.05. *)
Theorem failed_content_detector_keeps_score :
  let content := _analyze_content_authenticity (flesch_const 121.22)
                   parsed_bad_contact in
  let r := analyze ascii_unicode (flesch_const 121.22) docx_file
             parsed_bad_contact in
  raises (content_authenticity_body (flesch_const 121.22) parsed_bad_contact)
         AttributeError /\
  detected content = false /\
  (risk_score content == 0.3)%Q /\
  map (fun entry => Qred (risk_score (snd entry))) (detailed_analysis r)
  = [0; 0; 0; 0; 0.3; 0]%Q /\
  (overall_risk_score r == 0.05)%Q.
Proof.
  repeat split; vm_compute; reflexivity.
Qed.


(* ===================================================================== *)
(** * Further properties: the detectors, the ranker and the parser *)
(* ===================================================================== *)

Section SignalFacts.

Variable U : Unicode.
Variable flesch : pyval -> result Q.

Ltac fields :=
  cbn [risk_score detected issues details_error new_analysis log_error
       set_error set_detected set_risk_score add_risk_score set_issues
       append_issue].

Ltac step :=
  first [ rewrite wp_bind | rewrite wp_ret | rewrite wp_update
        | rewrite wp_lift | rewrite wp_when ];
  cbv beta.

Ltac run :=
  repeat first
    [ step
    | match goal with
      | |- match ?r with Ok _ => _ | Raise _ => _ end => destruct r eqn:?
      | |- if ?b then _ else _ => destruct b eqn:?
      | |- wp (let '(_, _) := ?p in _) _ _ _ => destruct p
      end ];
  fields.

(** The three detectors that open the file do nothing for a file that is
    not a PDF. *)
Lemma white_text_not_pdf (file : File) :
  is_pdf U file = false -> _detect_white_text U file = new_analysis.
Proof.
  intros H. unfold _detect_white_text, try_except, white_text_body.
  rewrite H. reflexivity.
Qed.

Lemma suspicious_formatting_not_pdf (file : File) :
  is_pdf U file = false -> _analyze_suspicious_formatting U file = new_analysis.
Proof.
  intros H. unfold _analyze_suspicious_formatting, try_except,
    suspicious_formatting_body.
  rewrite H. reflexivity.
Qed.

Lemma pdf_content_streams_not_pdf (file : File) :
  is_pdf U file = false -> _analyze_pdf_content_streams U file = new_analysis.
Proof.
  intros H. unfold _analyze_pdf_content_streams, try_except,
    pdf_content_streams_body.
  rewrite H. reflexivity.
Qed.

(** X1: for a file whose name does not end in [.pdf] the white-text, the
    formatting and the content-stream signals are the initial dictionary
    (not detected, score 0, no issue), whatever the file holds; the overall
    score is then at most 0.5 and the level is never high. *)
Theorem non_pdf_never_high (file : File) (parsed_data : pyval) :
  is_pdf U file = false ->
  let r := analyze U flesch file parsed_data in
  _detect_white_text U file = new_analysis /\
  _analyze_suspicious_formatting U file = new_analysis /\
  _analyze_pdf_content_streams U file = new_analysis /\
  (overall_risk_score r <= 0.5)%Q /\
  risk_level r <> high.
Proof.
  intros H r. subst r.
  pose proof (white_text_not_pdf file H) as Hw.
  pose proof (suspicious_formatting_not_pdf file H) as Hf.
  pose proof (pdf_content_streams_not_pdf file H) as Hp.
  repeat (split; [assumption|]).
  destruct (py_getitem parsed_data (cp "raw_text")) as [t|e] eqn:Hraw.
  - rewrite (analyze_completes U flesch file parsed_data Hraw).
    cbn [overall_risk_score risk_level six_signals map snd].
    rewrite Hw, Hf, Hp. cbn [risk_score new_analysis].
    destruct (keyword_stuffing_in_unit U t) as [? ?].
    destruct (invisible_characters_in_unit U t) as [? ?].
    destruct (content_authenticity_in_unit flesch parsed_data) as [? ?].
    set (k := risk_score (_detect_keyword_stuffing U t)) in *.
    set (i := risk_score (_detect_invisible_characters U t)) in *.
    set (c := risk_score (_analyze_content_authenticity flesch parsed_data)) in *.
    assert (Hle : (Qsum [0; k; i; 0; c; 0] / Qnat 6 <= 0.5)%Q).
    { change (Qnat 6) with 6%Q. unfold Qsum. cbn [fold_left].
      apply Qle_shift_div_r; lra. }
    split; [exact Hle|].
    unfold risk_level_of.
    destruct (Qle_bool 0.7 _) eqn:E.
    + apply Qle_bool_iff in E. lra.
    + destruct (Qle_bool 0.4 _); discriminate.
  - rewrite (analyze_falls_back U flesch file parsed_data Hraw).
    cbn. split; [lra|discriminate].
Qed.

Lemma flag_agrees_new : flag_agrees new_analysis.
Proof. split; intros H; cbn in *; [discriminate | reflexivity]. Qed.

Lemma clamp_at_least (x lo : Q) :
  (lo <= x)%Q -> (lo <= 1)%Q -> (lo <= Qmin x 1.0)%Q.
Proof. intros H1 H2. apply Q.min_glb; [exact H1 | lra]. Qed.

Lemma Qnat_ge_one (n : nat) : (0 < n)%nat -> (1 <= Qnat n)%Q.
Proof. intros H. unfold Qnat, Qle. simpl. lia. Qed.

Ltac flagged :=
  unfold flag_agrees; fields; split; intros ?; try discriminate;
  try reflexivity.

Lemma white_text_flag (file : File) : flag_agrees (_detect_white_text U file).
Proof.
  unfold _detect_white_text. apply (try_except_wp flag_agrees).
  unfold white_text_body. run; try apply flag_agrees_new; flagged;
    repeat match goal with
           | H : Qltb _ _ = true |- _ => apply Qltb_lt in H
           end.
  - eapply Qle_trans; [|apply Q.le_max_r]. apply clamp_at_least; lra.
  - apply clamp_at_least; lra.
  - eapply Qle_trans; [|apply Q.le_max_r]. apply clamp_at_least; lra.
Qed.

Lemma scaled_count_at_least (n : nat) (k : Q) :
  (0 < n)%nat -> (0 <= k)%Q -> (k <= Qnat n * k)%Q.
Proof.
  intros Hn Hk. pose proof (Qnat_ge_one Hn) as H1.
  setoid_replace k with (1 * k)%Q at 1 by ring.
  apply Qmult_le_compat_r; assumption.
Qed.

Lemma positive_count_score (n : nat) (k lo : Q) :
  (0 < n)%nat -> (0 <= k)%Q -> (lo <= k)%Q -> (lo <= 1)%Q ->
  (lo <= Qmin (Qnat n * k) 1.0)%Q.
Proof.
  intros Hn H0 Hk H1. apply clamp_at_least; [|exact H1].
  eapply Qle_trans; [exact Hk|]. apply scaled_count_at_least; assumption.
Qed.

(** Turn the tests on counters into facts on numbers. *)
Ltac counts :=
  repeat match goal with
         | H : _ || _ = false |- _ => apply orb_false_iff in H; destruct H
         | H : negb _ = true |- _ => apply negb_true_iff in H
         | H : negb _ = false |- _ => apply negb_false_iff in H
         | H : (_ =? _)%nat = true |- _ => apply Nat.eqb_eq in H
         | H : (_ =? _)%nat = false |- _ => apply Nat.eqb_neq in H
         | H : (_ <? _)%nat = true |- _ => apply Nat.ltb_lt in H
         | H : (_ <? _)%nat = false |- _ => apply Nat.ltb_ge in H
         | H : Qltb _ _ = true |- _ => apply Qltb_lt in H
         | H : Qltb _ _ = false |- _ => apply Qltb_ge in H
         end.

Lemma keyword_stuffing_flag (text : pyval) :
  flag_agrees (_detect_keyword_stuffing U text).
Proof.
  unfold _detect_keyword_stuffing. apply (try_except_wp flag_agrees).
  unfold keyword_stuffing_body. run; try apply flag_agrees_new; flagged;
    counts.
  - apply positive_count_score; first [lia | lra].
  - apply positive_count_score; first [lia | lra].
  - apply positive_count_score; first [lia | lra].
  - replace (_ + _)%nat with 0%nat by lia. reflexivity.
Qed.

Lemma invisible_characters_flag (text : pyval) :
  flag_agrees (_detect_invisible_characters U text).
Proof.
  unfold _detect_invisible_characters. apply (try_except_wp flag_agrees).
  unfold invisible_characters_body. run; try apply flag_agrees_new; flagged;
    counts; apply positive_count_score; first [lia | lra].
Qed.

Lemma suspicious_formatting_flag (file : File) :
  flag_agrees (_analyze_suspicious_formatting U file).
Proof.
  unfold _analyze_suspicious_formatting. apply (try_except_wp flag_agrees).
  unfold suspicious_formatting_body. run; try apply flag_agrees_new; flagged;
    lra.
Qed.

Lemma pdf_content_streams_flag (file : File) :
  flag_agrees (_analyze_pdf_content_streams U file).
Proof.
  unfold _analyze_pdf_content_streams. apply (try_except_wp flag_agrees).
  unfold pdf_content_streams_body. run; try apply flag_agrees_new; flagged;
    counts; apply positive_count_score; first [lia | lra].
Qed.

(** The content detector sets the flag at its end only: a flagged signal
    carries at least the smallest increment, and one that ran to its end
    without a red flag has score 0. *)
Lemma content_authenticity_flag (parsed_data : pyval) :
  wp (content_authenticity_body flesch parsed_data)
     (fun _ a => flag_agrees a)
     (fun _ a => detected a = false)
     new_analysis.
Proof.
  unfold content_authenticity_body. run; flagged; try lra.
Qed.

(** X2: in every signal the flag agrees with the score.  A signal with
    [detected] set has a score of at least 0.1, and one without has the score
    0; for the content signal the second half holds when its block ran to
    the end, the flag being set there only. *)
Theorem signal_flag_agrees_with_score (file : File) (parsed_data text : pyval) :
  flag_agrees (_detect_white_text U file) /\
  flag_agrees (_detect_keyword_stuffing U text) /\
  flag_agrees (_detect_invisible_characters U text) /\
  flag_agrees (_analyze_suspicious_formatting U file) /\
  flag_agrees (_analyze_pdf_content_streams U file) /\
  let content := _analyze_content_authenticity flesch parsed_data in
  (detected content = true -> (0.1 <= risk_score content)%Q) /\
  ((forall e, ~ raises (content_authenticity_body flesch parsed_data) e) ->
   detected content = false -> (risk_score content == 0)%Q).
Proof.
  split; [apply white_text_flag|].
  split; [apply keyword_stuffing_flag|].
  split; [apply invisible_characters_flag|].
  split; [apply suspicious_formatting_flag|].
  split; [apply pdf_content_streams_flag|].
  cbv zeta. pose proof (content_authenticity_flag parsed_data) as H.
  unfold _analyze_content_authenticity, try_except, raises, log_error.
  unfold wp in H.
  destruct (content_authenticity_body flesch parsed_data new_analysis)
    as [[u|e] a]; cbn [fst].
  - destruct H as [H1 H2]. split; [exact H1 | intros _; exact H2].
  - split; [congruence|]. intros Hn. destruct (Hn e eq_refl).
Qed.






(** X4: a report of level high has at least five signals with a positive
    score: no four detectors can raise the mean of six to 0.7. *)
Theorem high_level_needs_five_signals (file : File) (parsed_data : pyval) :
  let r := analyze U flesch file parsed_data in
  risk_level r = high -> (5 <= positive_signals r)%nat.
Proof.
  intros r. subst r. unfold positive_signals.
  destruct (py_getitem parsed_data (cp "raw_text")) as [t|e] eqn:Hraw.
  - rewrite (analyze_completes U flesch file parsed_data Hraw).
    cbn [risk_level detailed_analysis six_signals].
    unfold risk_level_of.
    destruct (Qle_bool 0.7 _) eqn:E;
      [|destruct (Qle_bool 0.4 _); discriminate].
    intros _. apply Qle_bool_iff in E. revert E.
    cbn [six_signals map snd]. change (Qnat 6) with 6%Q.
    unfold Qsum. cbn [fold_left].
    destruct (white_text_in_unit U file) as [_ ?].
    destruct (keyword_stuffing_in_unit U t) as [_ ?].
    destruct (invisible_characters_in_unit U t) as [_ ?].
    destruct (suspicious_formatting_in_unit U file) as [_ ?].
    destruct (content_authenticity_in_unit flesch parsed_data) as [_ ?].
    destruct (pdf_content_streams_in_unit U file) as [_ ?].
    intros E. unfold Qdiv in E. change (/ 6)%Q with (1 # 6)%Q in E.
    unfold count, six_signals. cbn [filter snd].
    repeat match goal with
           | |- context [Qltb 0 ?x] => destruct (Qltb 0 x) eqn:?
           end;
      counts; cbn [List.length]; first [lia | exfalso; lra].
  - rewrite (analyze_falls_back U flesch file parsed_data Hraw).
    discriminate.
Qed.

Lemma squared_distance_sym (r1 g1 b1 r2 g2 b2 : Z) :
  ((r1 - r2) ^ 2 + (g1 - g2) ^ 2 + (b1 - b2) ^ 2
   = (r2 - r1) ^ 2 + (g2 - g1) ^ 2 + (b2 - b1) ^ 2)%Z.
Proof. ring. Qed.

(** X5: the collision check does not depend on the order of its two
    colours. *)
Theorem colors_too_similar_symmetric (color1 color2 : pyval) :
  _colors_too_similar U color1 color2 = _colors_too_similar U color2 color1.
Proof.
  unfold _colors_too_similar, colors_too_similar_body.
  destruct (py_lstrip_hash color1) as [s1|e1];
    destruct (py_lstrip_hash color2) as [s2|e2]; cbn [rbind]; try reflexivity.
  rewrite (andb_comm (List.length s2 =? 6)%nat).
  destruct ((List.length s1 =? 6)%nat && (List.length s2 =? 6)%nat);
    [|reflexivity].
  destruct (rgb U s1) as [[[r1 g1] b1]|e1];
    destruct (rgb U s2) as [[[r2 g2] b2]|e2]; cbn [rbind]; try reflexivity.
  rewrite squared_distance_sym. reflexivity.
Qed.

(** X6: a colour collides with itself exactly when it can be parsed: a
    string that, without its leading [#], has six characters read by
    [int(., 16)] two by two. *)
Theorem color_collides_with_itself (color : pyval) :
  _colors_too_similar U color color = parsable_color U color.
Proof.
  unfold _colors_too_similar, colors_too_similar_body, parsable_color.
  destruct (py_lstrip_hash color) as [s|e]; cbn [rbind]; [|reflexivity].
  destruct (List.length s =? 6)%nat; cbn [andb]; [|reflexivity].
  destruct (rgb U s) as [[[r g] b]|e]; cbn [rbind]; [|reflexivity].
  rewrite !Z.sub_diag. reflexivity.
Qed.

(** X7: the report depends on four entries of [parsed_data] only:
    [raw_text], [skills], [experience] and [contact_info]. *)
Theorem analyze_reads_four_entries
    (file : File) (d1 d2 : list (pystr * pyval)) :
  (forall k, In k entries_read -> dict_find d1 k = dict_find d2 k) ->
  analyze U flesch file (PDict d1) = analyze U flesch file (PDict d2).
Proof.
  intros H.
  assert (Hraw : dict_find d1 (cp "raw_text") = dict_find d2 (cp "raw_text"))
    by (apply H; cbn; auto).
  assert (Hskills : dict_find d1 (cp "skills") = dict_find d2 (cp "skills"))
    by (apply H; cbn; auto).
  assert (Hexp : dict_find d1 (cp "experience") = dict_find d2 (cp "experience"))
    by (apply H; cbn; auto).
  assert (Hcontact :
            dict_find d1 (cp "contact_info") = dict_find d2 (cp "contact_info"))
    by (apply H; cbn; auto 6).
  unfold analyze, analyze_body, _analyze_content_authenticity,
    content_authenticity_body.
  cbn [py_getitem py_get].
  rewrite Hraw, Hskills, Hexp, Hcontact. reflexivity.
Qed.

End SignalFacts.

Section TextSignals.

Variable U : Unicode.

Ltac fields :=
  cbn [risk_score detected issues details_error new_analysis log_error
       set_error set_detected set_risk_score add_risk_score set_issues
       append_issue].

Ltac step :=
  first [ rewrite wp_bind | rewrite wp_ret | rewrite wp_update
        | rewrite wp_lift | rewrite wp_when ];
  cbv beta.

Ltac run :=
  repeat first
    [ step
    | match goal with
      | |- match ?r with Ok _ => _ | Raise _ => _ end => destruct r eqn:?
      | |- if ?b then _ else _ => destruct b eqn:?
      | |- wp (let '(_, _) := ?p in _) _ _ _ => destruct p
      end ];
  fields.

(** Take a derivation of [sem] apart. *)
Ltac sem_parts :=
  repeat match goal with
         | H : exists _, _ |- _ => destruct H
         | H : _ /\ _ |- _ => destruct H
         | H : sem (rlit _) _ _ _ |- _ => apply sem_rlit in H
         | H : sem (rstr _) _ _ _ |- _ => apply sem_rstr in H
         | H : sem (rplus (RChar _)) _ _ _ |- _ => apply sem_rplus_chars in H
         | H : sem (ropt _) _ _ _ |- _ => apply sem_ropt in H
         | H : sem (RSeq _ _) _ _ _ |- _ => cbn [sem] in H
         | H : sem (RAlt _ _) _ _ _ |- _ => destruct H
         | H : _ \/ _ |- _ => destruct H
         | H : sem REps _ _ _ |- _ => cbn [sem] in H
         | H : sem (RWordB _) _ _ _ |- _ => cbn [sem] in H
         | H : sem (RGroup _ _) _ _ _ |- _ => cbn [sem] in H
         end.

(** The matches of a one-character class are the characters of the
    class. *)
Lemma scan_char_class (p : Z -> bool) :
  forall s prev,
    scan (RChar p) 0 prev s
    = map (fun c => {| mt_text := [c]; mt_groups := [] |}) (filter p s).
Proof.
  induction s as [|c t IH]; intros prev; cbn [scan filter map].
  - reflexivity.
  - unfold match_at. cbn [rmatch m_rest m_groups].
    destruct (p c); cbn [map].
    + cbn [List.length m_rest].
      replace (S (List.length t) - List.length t)%nat with 1%nat by lia.
      cbn [firstn pred]. rewrite IH. reflexivity.
    + apply IH.
Qed.

Lemma findall_char_class (p : Z -> bool) (s : pystr) :
  List.length (findall (RChar p) s) = count p s.
Proof.
  unfold findall, count. rewrite scan_char_class. apply length_map.
Qed.

(** A repetition of a one-character class succeeds when enough characters
    of the class come next. *)
Lemma rep_chars_succeeds (p : Z -> bool) (lo : nat) :
  forall k fuel count st,
    (k <= fuel)%nat -> (lo <= count + k)%nat ->
    (k <= List.length (m_rest st))%nat ->
    Forall (fun c => p c = true) (firstn k (m_rest st)) ->
    rep (rmatch (RChar p)) lo None count fuel st <> [].
Proof.
  induction k as [|k IH]; intros fuel count st Hf Hlo Hlen Hp.
  - assert (Hstop : (if (lo <=? count)%nat then [st] else []) <> []).
    { replace (lo <=? count)%nat with true; [discriminate|].
      symmetry. apply Nat.leb_le. lia. }
    destruct fuel as [|fuel]; cbn [rep]; [exact Hstop|].
    intros E. apply app_eq_nil in E. destruct E as [_ E]. exact (Hstop E).
  - destruct fuel as [|fuel]; [lia|]. cbn [rep].
    destruct (m_rest st) as [|c t] eqn:Hrest; cbn [List.length] in Hlen; [lia|].
    cbn [firstn] in Hp. inversion Hp as [|? ? Hc Ht]. subst.
    cbn [rmatch]. rewrite Hrest, Hc. cbn [flat_map].
    intros E. apply app_eq_nil in E. destruct E as [E _].
    apply app_eq_nil in E. destruct E as [E _]. revert E.
    apply IH; cbn [m_rest]; [lia | lia | lia | exact Ht].
Qed.

Lemma Forall_prefix {A} (P : A -> Prop) (n : nat) (l : list A) :
  Forall P l -> Forall P (firstn n l).
Proof.
  intros H. revert n. induction H as [|x l Hx _ IH]; intros [|n]; cbn [firstn];
    constructor; auto.
Qed.

Lemma starts_with_five_spaces (s : pystr) :
  starts_with five_spaces s = true <->
  (5 <= List.length s)%nat /\ Forall (fun c => (32 =? c)%Z = true) (firstn 5 s).
Proof.
  unfold five_spaces. cbn [repeat].
  destruct s as [|c1 [|c2 [|c3 [|c4 [|c5 t]]]]]; cbn [starts_with List.length firstn];
    rewrite ?andb_false_r;
    try (split; [discriminate | intros [H _]; lia]).
  rewrite andb_true_r, !andb_true_iff.
  split.
  - intros [H1 [H2 [H3 [H4 H5]]]]. split; [lia|]. repeat constructor; assumption.
  - intros [_ H]. inversion H as [|? ? H1 H']; subst.
    inversion H' as [|? ? H2 H'']; subst.
    inversion H'' as [|? ? H3 H3']; subst.
    inversion H3' as [|? ? H4 H4']; subst.
    inversion H4' as [|? ? H5 _]; subst. auto.
Qed.

Lemma space_run_matches (prev : option Z) (s : pystr) :
  match_at space_run prev s <> None <-> starts_with five_spaces s = true.
Proof.
  split.
  - destruct (match_at space_run prev s) as [[n m]|] eqn:E; [|congruence].
    intros _. destruct (match_at_sound _ _ _ E) as [w [rest [-> [_ [_ Hsem]]]]].
    destruct Hsem as [k [Hk [_ Hit]]]. apply iter_chars in Hit.
    destruct Hit as [Hp [Hlen _]].
    apply starts_with_five_spaces. split.
    + rewrite length_app. lia.
    + rewrite firstn_app. replace (5 - List.length w)%nat with 0%nat by lia.
      change (firstn 0 rest) with (@nil Z). rewrite app_nil_r.
      apply Forall_prefix. exact Hp.
  - intros H. apply starts_with_five_spaces in H. destruct H as [Hlen Hp].
    unfold match_at, space_run. cbn [rmatch m_rest].
    destruct (rep _ _ _ _ _ _) eqn:E; [|discriminate].
    exfalso. revert E.
    apply (@rep_chars_succeeds (Z.eqb 32) 5 5); cbn [m_rest]; auto; lia.
Qed.

Lemma scan_space_run :
  forall s prev, scan space_run 0 prev s = [] <-> contains five_spaces s = false.
Proof.
  induction s as [|c t IH]; intros prev; cbn [scan contains].
  - destruct (match_at space_run prev []) as [[n m]|] eqn:E.
    + assert (H : match_at space_run prev [] <> None) by congruence.
      apply space_run_matches in H. discriminate.
    + split; reflexivity.
  - destruct (match_at space_run prev (c :: t)) as [[n m]|] eqn:E.
    + assert (H : match_at space_run prev (c :: t) <> None) by congruence.
      apply space_run_matches in H. rewrite H. split; discriminate.
    + destruct (starts_with five_spaces (c :: t)) eqn:Hs.
      * apply (space_run_matches prev) in Hs. congruence.
      * cbn [orb]. apply IH.
Qed.

Lemma invisible_counts_str (s : pystr) :
  invisible_counts invisible_chars_patterns (PStr s) (0, 0)%nat
  = Ok (count zero_width s, List.length (findall space_run s)).
Proof.
  unfold invisible_chars_patterns, invisible_counts.
  cbn [re_findall rbind p_regex p_source].
  match goal with
  | |- context [contains ?a ?b || contains ?c ?d] =>
      let v := eval vm_compute in (contains a b || contains c d) in
      change (contains a b || contains c d) with v
  end.
  cbv iota.
  match goal with
  | |- context [contains ?a ?b || contains ?c ?d] =>
      let v := eval vm_compute in (contains a b || contains c d) in
      change (contains a b || contains c d) with v
  end.
  cbv iota. cbn [Nat.add].
  fold zero_width. rewrite findall_char_class. reflexivity.
Qed.

Lemma existsb_count {A} (p : A -> bool) (l : list A) :
  existsb p l = (0 <? count p l)%nat.
Proof.
  unfold count. induction l as [|x l IH]; cbn [existsb filter].
  - reflexivity.
  - destruct (p x); cbn [orb List.length]; [reflexivity | exact IH].
Qed.

Lemma contains_five_spaces_count (s : pystr) :
  contains five_spaces s = (0 <? List.length (findall space_run s))%nat.
Proof.
  pose proof (scan_space_run s None) as H. fold (findall space_run s) in H.
  destruct (findall space_run s) as [|m l].
  - apply H. reflexivity.
  - cbn [List.length Nat.ltb Nat.leb].
    destruct (contains five_spaces s); [reflexivity|].
    destruct H as [_ H]. discriminate (H eq_refl).
Qed.

Lemma positive_sum (a b : nat) :
  (0 <? a + b)%nat = (0 <? a)%nat || (0 <? b)%nat.
Proof. destruct a, b; reflexivity. Qed.

(** X8: on a text, the invisible-character signal is detected exactly
    when the text holds a zero-width character (U+200B to U+200D, U+2060,
    U+FEFF) or five spaces in a row; the count it reports is the number of
    zero-width characters, and its score is at least 0.1 for each of them,
    up to 1. *)
Theorem invisible_characters_detected_iff (s : pystr) :
  let a := _detect_invisible_characters U (PStr s) in
  detected a = existsb zero_width s || contains five_spaces s /\
  (forall n, In (InvisibleCharacters n) (issues a) -> n = count zero_width s) /\
  (Qmin (Qnat (count zero_width s) * 0.1) 1 <= risk_score a)%Q.
Proof.
  cbv zeta. rewrite existsb_count, contains_five_spaces_count, <- positive_sum.
  unfold _detect_invisible_characters.
  apply (try_except_wp
           (fun a => detected a = _ /\
                     (forall n, In (InvisibleCharacters n) (issues a) -> _) /\
                     (_ <= risk_score a)%Q)).
  unfold invisible_characters_body.
  rewrite wp_bind, wp_lift, invisible_counts_str. cbv beta iota.
  rewrite wp_bind, wp_lift. cbn [re_findall]. cbv beta iota.
  set (z := count zero_width s). set (r := List.length (findall space_run s)).
  assert (Hmono : (0 < z + r)%nat ->
                  (Qmin (Qnat z * 0.1) 1 <= Qmin (Qnat (z + r) * 0.1) 1.0)%Q).
  { intros _. apply Q.min_le_compat; [|lra].
    apply Qmult_le_compat_r; [|lra].
    unfold Qnat, Qle. simpl. lia. }
  run.
  all: split; [auto|]; split.
  all: try (intros n Hin; cbn in Hin; intuition congruence).
  all: try (apply Hmono; apply Nat.ltb_lt; assumption).
  all: try (intros n Hin; apply in_app_or in Hin; cbn in Hin; intuition congruence).
  apply Nat.ltb_ge in Heqb. assert (Hz : z = 0%nat) by lia.
  rewrite Hz. vm_compute. discriminate.
Qed.

(** The words that [\b\w+\b] finds are made of word characters. *)
Lemma word_pattern_shape (w : pystr) (g g' : groups) :
  sem (word_pattern U) w g g' -> Forall (fun c => is_word U c = true) w.
Proof.
  unfold word_pattern, rseq, rword. cbn [fold_right].
  intros H. sem_parts. subst. cbn [app]. rewrite !app_nil_r. assumption.
Qed.

Lemma words_are_words (text w : pystr) :
  In w (words U text) -> Forall (fun c => is_word U c = true) w.
Proof.
  unfold words. intros H. apply in_map_iff in H. destruct H as [m [<- Hm]].
  apply findall_sound in Hm. exact (word_pattern_shape Hm).
Qed.

Lemma count_word_positive (l : list pystr) (w : pystr) :
  (0 < count_word l w)%nat -> In w l.
Proof.
  unfold count_word, count. induction l as [|x l IH]; cbn [filter].
  - cbn. lia.
  - unfold pystr_eqb at 1. destruct (list_eq_dec Z.eq_dec w x) as [->|_].
    + intros _. left. reflexivity.
    + intros H. right. exact (IH H).
Qed.

(** A skill that a word search cannot find is never put in
    [stuffed_skills]. *)
Lemma stuffed_skill_is_word (text skill : pystr) :
  In skill (stuffed_skills (words U text)) ->
  Forall (fun c => is_word U c = true) skill.
Proof.
  unfold stuffed_skills. intros H. apply filter_In in H. destruct H as [_ H].
  apply andb_true_iff in H. destruct H as [_ H]. apply Nat.ltb_lt in H.
  apply (@words_are_words text). apply count_word_positive. lia.
Qed.

Lemma not_a_word (skill : pystr) (c : Z) :
  In c skill -> is_word U c = false ->
  ~ Forall (fun c => is_word U c = true) skill.
Proof.
  intros Hin Hc H. rewrite Forall_forall in H. specialize (H c Hin). congruence.
Qed.

(** X9: the skills [node.js] and [machine learning] of the list of
    commonly stuffed skills are never counted as stuffed, whatever the text:
    the text is cut into words, and no word holds a point or a space.  At
    most ten skills are counted. *)
Theorem multiword_skills_never_stuffed (text : pystr) :
  let stuffed := stuffed_skills (words U text) in
  ~ In (cp "node.js") stuffed /\
  ~ In (cp "machine learning") stuffed /\
  (List.length stuffed <= 10)%nat /\
  (forall n, In (StuffedSkills n) (issues (_detect_keyword_stuffing U (PStr text)))
             -> (1 <= n <= 10)%nat).
Proof.
  cbv zeta.
  assert (H1 : ~ In (cp "node.js") (stuffed_skills (words U text))).
  { intros H. apply stuffed_skill_is_word in H. revert H.
    apply (@not_a_word _ 46%Z); [cbn; auto 10 | reflexivity]. }
  assert (H2 : ~ In (cp "machine learning") (stuffed_skills (words U text))).
  { intros H. apply stuffed_skill_is_word in H. revert H.
    apply (@not_a_word _ 32%Z); [cbn; auto 10 | reflexivity]. }
  assert (H3 : (List.length (stuffed_skills (words U text)) <= 10)%nat).
  { revert H1 H2. unfold stuffed_skills.
    set (f := fun skill : pystr => _).
    change commonly_stuffed_skills
      with (map cp ["python"; "java"; "javascript"; "react"; "angular"]%string
            ++ [cp "node.js"]
            ++ map cp ["aws"; "docker"; "kubernetes"]%string
            ++ [cp "machine learning"] ++ map cp ["ai"; "sql"]%string).
    intros H1 H2.
    assert (E1 : f (cp "node.js") = false).
    { destruct (f (cp "node.js")) eqn:E; [|reflexivity].
      exfalso. apply H1. apply filter_In. split; [|exact E].
      rewrite !in_app_iff. cbn. auto. }
    assert (E2 : f (cp "machine learning") = false).
    { destruct (f (cp "machine learning")) eqn:E; [|reflexivity].
      exfalso. apply H2. apply filter_In. split; [|exact E].
      rewrite !in_app_iff. cbn. auto 6. }
    rewrite !filter_app, !length_app.
    cbn [filter]. rewrite E1, E2. cbn [List.length].
    pose proof (filter_length_le f
                  (map cp ["python"; "java"; "javascript"; "react"; "angular"]%string)).
    pose proof (filter_length_le f (map cp ["aws"; "docker"; "kubernetes"]%string)).
    pose proof (filter_length_le f (map cp ["ai"; "sql"]%string)).
    cbn [map List.length] in *. lia. }
  repeat (split; [assumption|]).
  unfold _detect_keyword_stuffing.
  apply (try_except_wp
           (fun a => forall n, In (StuffedSkills n) (issues a) -> _)).
  unfold keyword_stuffing_body. rewrite wp_bind, wp_lift. cbv beta iota.
  rewrite wp_bind, wp_lift. cbn [re_findall]. cbv beta iota.
  fold (words U text). clear H1 H2. revert H3.
  generalize (stuffed_skills (words U text)). intros stuffed H3.
  run; intros n Hin; cbn [In app] in Hin;
    repeat match goal with
           | H : _ \/ _ |- _ => destruct H
           | H : StuffedSkills _ = StuffedSkills _ |- _ => injection H as <-
           | H : negb (_ =? _)%nat = true |- _ =>
               apply negb_true_iff, Nat.eqb_neq in H
           end; try discriminate; try contradiction; lia.
Qed.

End TextSignals.

Section PageOrder.

Variable U : Unicode.

Lemma fold_Qplus_shift (l : list Q) (a : Q) :
  (fold_left Qplus l a == a + fold_left Qplus l 0)%Q.
Proof.
  revert a. induction l as [|x l IH]; intros a; cbn [fold_left].
  - ring.
  - rewrite (IH (a + x)%Q), (IH (0 + x)%Q). ring.
Qed.

Lemma Qsum_cons (x : Q) (l : list Q) : (Qsum (x :: l) == x + Qsum l)%Q.
Proof.
  unfold Qsum. cbn [fold_left]. rewrite fold_Qplus_shift. ring.
Qed.

Lemma Qsum_permutation (l l' : list Q) :
  Permutation l l' -> (Qsum l == Qsum l')%Q.
Proof.
  induction 1 as [|x l l' _ IH|x y l|l l' l'' _ IH1 _ IH2].
  - reflexivity.
  - rewrite !Qsum_cons, IH. reflexivity.
  - rewrite !Qsum_cons. ring.
  - rewrite IH1. exact IH2.
Qed.

Lemma Qsum_pointwise (f g : Q -> Q) (l : list Q) :
  (forall x, (f x == g x)%Q) -> (Qsum (map f l) == Qsum (map g l))%Q.
Proof.
  intros H. induction l as [|x l IH]; cbn [map]; [reflexivity|].
  rewrite !Qsum_cons, IH, (H x). reflexivity.
Qed.

Lemma mean_permutation (l l' : list Q) :
  Permutation l l' -> (mean l == mean l')%Q.
Proof.
  intros H. unfold mean.
  rewrite (Qsum_permutation H), (Permutation_length H). reflexivity.
Qed.

Lemma mean_pointwise (f g : Q -> Q) (l : list Q) :
  (forall x, (f x == g x)%Q) -> (mean (map f l) == mean (map g l))%Q.
Proof.
  intros H. unfold mean. rewrite !length_map, (Qsum_pointwise f g l H).
  reflexivity.
Qed.

Lemma variance_permutation (l l' : list Q) :
  Permutation l l' -> (variance l == variance l')%Q.
Proof.
  intros H. unfold variance. cbv zeta.
  rewrite (mean_pointwise (fun x => (x - mean l) * (x - mean l))%Q
             (fun x => (x - mean l') * (x - mean l'))%Q l).
  - apply mean_permutation. apply Permutation_map. exact H.
  - intros x. rewrite (mean_permutation H). reflexivity.
Qed.

Lemma Qltb_compat (a b b' : Q) : (b == b')%Q -> Qltb a b = Qltb a b'.
Proof.
  intros H. unfold Qltb. f_equal.
  destruct (Qle_bool b a) eqn:E1; destruct (Qle_bool b' a) eqn:E2;
    try reflexivity.
  - apply Qle_bool_iff in E1. rewrite H in E1. apply Qle_bool_iff in E1.
    congruence.
  - apply Qle_bool_iff in E2. rewrite <- H in E2. apply Qle_bool_iff in E2.
    congruence.
Qed.

Lemma count_permutation {A} (f : A -> bool) (l l' : list A) :
  Permutation l l' -> count f l = count f l'.
Proof.
  intros H. unfold count. apply Permutation_length.
  induction H as [|x l l' _ IH|x y l|l l' l'' _ IH1 _ IH2]; cbn [filter].
  - constructor.
  - destruct (f x); [constructor|]; exact IH.
  - destruct (f x), (f y); try apply Permutation_refl. apply perm_swap.
  - exact (Permutation_trans IH1 IH2).
Qed.

Lemma font_sizes_permutation (pages pages' : list Page) :
  Permutation pages pages' -> Permutation (font_sizes pages) (font_sizes pages').
Proof.
  intros H. unfold font_sizes.
  induction H as [|x l l' _ IH|x y l|l l' l'' _ IH1 _ IH2]; cbn [flat_map].
  - constructor.
  - apply Permutation_app_head. exact IH.
  - rewrite !app_assoc. apply Permutation_app_tail. apply Permutation_app_comm.
  - exact (Permutation_trans IH1 IH2).
Qed.

Lemma suspicious_patterns_permutation (streams streams' : list (option pystr)) :
  Permutation streams streams' ->
  suspicious_patterns U streams = suspicious_patterns U streams'.
Proof.
  induction 1 as [|x l l' _ IH|x y l|l l' l'' _ IH1 _ IH2].
  - reflexivity.
  - cbn [suspicious_patterns]. rewrite IH. reflexivity.
  - cbn [suspicious_patterns].
    destruct (suspicious_patterns_total U l) as [m ->].
    destruct x as [cx|], y as [cy|]; try reflexivity.
    destruct (stream_suspicious_total U cx) as [ix [ox ->]].
    destruct (stream_suspicious_total U cy) as [iy [oy ->]].
    cbn [rbind]. f_equal. lia.
  - rewrite IH1. exact IH2.
Qed.

(** X10: the formatting signal and the content-stream signal of a PDF do
    not depend on the order of its pages: two files of the same name whose
    pages, and whose content streams, are permutations of each other get
    the same two signals. *)
Theorem page_order_is_irrelevant
    (file file' : File) (pages pages' : list Page)
    (streams streams' : list (option pystr)) :
  file_path file = file_path file' ->
  plumber_pages file = Ok pages -> plumber_pages file' = Ok pages' ->
  pypdf_pages file = Ok streams -> pypdf_pages file' = Ok streams' ->
  Permutation pages pages' -> Permutation streams streams' ->
  _analyze_suspicious_formatting U file = _analyze_suspicious_formatting U file'
  /\ _analyze_pdf_content_streams U file = _analyze_pdf_content_streams U file'.
Proof.
  intros Hpath Hp Hp' Hs Hs' Hperm Hperm'.
  assert (Hpdf : is_pdf U file = is_pdf U file')
    by (unfold is_pdf; rewrite Hpath; reflexivity).
  split.
  - unfold _analyze_suspicious_formatting, try_except,
      suspicious_formatting_body.
    rewrite Hpdf. destruct (is_pdf U file'); [|reflexivity].
    unfold when, bind, lift. rewrite Hp, Hp'.
    pose proof (font_sizes_permutation Hperm) as Hf.
    rewrite (Permutation_length Hf).
    rewrite (count_permutation (fun size => Qltb size 3) Hf).
    cbv zeta.
    destruct (1 <? List.length (font_sizes pages'))%nat;
      [rewrite (Qltb_compat 50 (variance_permutation Hf))|]; reflexivity.
  - unfold _analyze_pdf_content_streams, try_except, pdf_content_streams_body.
    rewrite Hpdf. destruct (is_pdf U file'); [|reflexivity].
    unfold when, bind, lift. rewrite Hs, Hs'.
    rewrite (suspicious_patterns_permutation Hperm'). reflexivity.
Qed.

End PageOrder.

Section RankerFacts.

Variable U : Unicode.
Variable flesch : pyval -> result Q.

Lemma ratio_clamped (n : nat) (k c : Q) :
  (0 < k)%Q -> (0 <= c)%Q ->
  (0 <= Qmin (Qnat n / k) c)%Q /\ (Qmin (Qnat n / k) c <= c)%Q.
Proof.
  intros Hk Hc. split.
  - apply Q.min_glb; [|exact Hc].
    apply Qle_shift_div_l; [exact Hk|]. rewrite Qmult_0_l. apply Qnat_nonneg.
  - apply Q.le_min_r.
Qed.

Lemma score_categories_dict (d : list (pystr * pyval)) :
  forall categories score total,
    (0 <= score)%Q ->
    Forall (fun c => (0 <= snd c)%Q) categories ->
    exists score' total',
      score_categories categories (PDict d) score total = Ok (score', total')
      /\ (0 <= score')%Q.
Proof.
  induction categories as [|[category importance] rest IH];
    intros score total Hs Hc; cbn [score_categories].
  - eauto.
  - inversion Hc as [|? ? Hi Hrest]. subst. cbn [snd] in Hi.
    cbn [py_get]. destruct (dict_find d category) as [v|]; cbn [rbind].
    + destruct v; try (apply IH; assumption).
      apply IH; [|assumption].
      destruct (@ratio_clamped (List.length l) 5 1.0) as [H0 _]; try lra.
      assert (0 <= Qmin (Qnat (List.length l) / 5) 1.0 * importance)%Q
        by (apply Qmult_le_0_compat; assumption).
      lra.
    + apply IH; [|assumption]. cbn [List.length].
      destruct (@ratio_clamped 0 5 1.0) as [H0 _]; try lra.
      assert (0 <= Qmin (Qnat 0 / 5) 1.0 * importance)%Q
        by (apply Qmult_le_0_compat; assumption).
      lra.
Qed.

(** X11: for a dictionary of skills the skills score exists and lies
    between 0 and 100, whatever the entries hold; for any other value the
    score is 0.0 when the value is falsy, and the call of [.get] raises
    otherwise. *)
Theorem score_skills_range (skills : pyval) :
  match skills with
  | PDict d =>
      exists q, _score_skills skills = Ok q /\ (0 <= q)%Q /\ (q <= 100)%Q
  | _ =>
      _score_skills skills
      = if py_truthy skills then Raise AttributeError else Ok 0.0%Q
  end.
Proof.
  destruct skills as [|b|q|s|l|d]; unfold _score_skills; cbn [py_truthy negb].
  - reflexivity.
  - destruct b; reflexivity.
  - destruct (Qeq_bool q 0); reflexivity.
  - destruct (Nat.eqb _ _); reflexivity.
  - destruct (Nat.eqb _ _); reflexivity.
  - destruct (Nat.eqb (List.length d) 0); cbn [negb].
    + exists 0.0%Q. repeat split; lra.
    + destruct (@score_categories_dict d skill_importance 0.0 0%nat)
        as [score [total [E Hs]]]; [lra | repeat constructor; cbn; lra |].
      rewrite E. cbn [rbind py_get].
      set (soft := match dict_find d (cp "soft_skills") with
                   | Some x => Ok x | None => Ok (PList []) end).
      assert (Hsoft : exists v, soft = Ok v) by (subst soft; destruct (dict_find _ _); eauto).
      destruct Hsoft as [v ->]. cbn [rbind].
      eexists. split; [reflexivity|].
      split; [|apply Q.le_min_r].
      apply Q.min_glb; [|lra].
      destruct (@ratio_clamped total 20 0.2) as [Hd _]; try lra.
      assert (H0 : (0 <= match v with
                         | PList l =>
                             if (0 <? List.length l)%nat
                             then score + Qmin (Qnat (List.length l) / 10) 0.1
                             else score
                         | _ => score
                         end)%Q).
      { destruct v; try exact Hs.
        destruct (0 <? List.length l)%nat; [|exact Hs].
        destruct (@ratio_clamped (List.length l) 10 0.1) as [H1 _]; try lra. }
      set (sc := match v with PList _ => _ | _ => _ end) in *.
      set (dv := Qmin (Qnat total / 20) 0.2) in *.
      lra.
Qed.

Lemma score_categories_saturated (d : list (pystr * pyval)) :
  forall categories score total,
    Forall (fun c => (0 <= snd c)%Q /\
                     exists l, dict_find d (fst c) = Some (PList l)
                               /\ (5 <= List.length l)%nat) categories ->
    exists score' total',
      score_categories categories (PDict d) score total = Ok (score', total')
      /\ (score + Qsum (map snd categories) <= score')%Q.
Proof.
  pose proof fold_Qplus_shift as Hsum.
  induction categories as [|[category importance] rest IH];
    intros score total Hc; cbn [score_categories map snd].
  - exists score, total. split; [reflexivity|]. unfold Qsum. cbn. lra.
  - inversion Hc as [|? ? [Hi [l [Hl Hn]]] Hrest]. subst. cbn [fst snd] in *.
    cbn [py_get]. rewrite Hl. cbn [rbind].
    destruct (IH (score + Qmin (Qnat (List.length l) / 5) 1.0 * importance)%Q
                (total + List.length l)%nat Hrest) as [s' [t' [E Hs']]].
    exists s', t'. split; [exact E|].
    assert (Hone : (Qmin (Qnat (List.length l) / 5) 1.0 == 1)%Q).
    { assert (1 <= Qnat (List.length l) / 5)%Q.
      { apply Qle_shift_div_l; [lra|].
        unfold Qnat, Qle. simpl. lia. }
      rewrite Q.min_r; lra. }
    rewrite Hone in Hs'. unfold Qsum in *. cbn [fold_left].
    rewrite Hsum. lra.
Qed.

(** X12: five skills in each of the five weighted categories give the
    score 100, whatever else the dictionary holds. *)
Theorem score_skills_saturates (d : list (pystr * pyval)) :
  (forall category, In category (map fst skill_importance) ->
     exists l, dict_find d category = Some (PList l)
               /\ (5 <= List.length l)%nat) ->
  exists q, _score_skills (PDict d) = Ok q /\ (q == 100)%Q.
Proof.
  intros H.
  assert (Hne : Nat.eqb (List.length d) 0 = false).
  { destruct (H (cp "databases")) as [l [Hl _]]; [cbn; auto|].
    destruct d; [discriminate | reflexivity]. }
  unfold _score_skills. cbn [py_truthy negb]. rewrite Hne. cbn [negb].
  destruct (@score_categories_saturated d skill_importance 0.0 0%nat)
    as [score [total [E Hs]]].
  { unfold skill_importance.
    repeat (constructor; [split; [cbn; lra | apply H; cbn; auto 6]|]).
    constructor. }
  rewrite E. cbn [rbind py_get].
  destruct (dict_find d (cp "soft_skills")) as [v|]; cbn [rbind];
    (eexists; split; [reflexivity|]).
  all: apply Q.min_r.
  all: assert (Hone : (1 <= score)%Q)
         by (revert Hs; unfold Qsum, skill_importance; cbn; lra).
  all: destruct (@ratio_clamped total 20 0.2) as [Hd _]; try lra.
  all: set (dv := Qmin (Qnat total / 20) 0.2) in *.
  - destruct v; try lra.
    destruct (0 <? List.length l)%nat; [|lra].
    destruct (@ratio_clamped (List.length l) 10 0.1) as [H1 _]; try lra.
  - cbn [List.length Nat.ltb Nat.leb]. lra.
Qed.

Lemma dict_truthy (d : list (pystr * pyval)) (k : pystr) (v : pyval) :
  dict_find d k = Some v -> py_truthy (PDict d) = true.
Proof. destruct d; [discriminate | reflexivity]. Qed.

(** X13: for a risk score between 0 and 1 the authenticity score lies in
    a band fixed by the level: 80 to 100 for low, 30 to 60 for medium and 0
    to 20 for any other level. *)
Theorem authenticity_bands (d : list (pystr * pyval)) (r : Q) (level : pystr) :
  dict_find d (cp "overall_risk_score") = Some (PNum r) ->
  dict_find d (cp "risk_level") = Some (PStr level) ->
  (0 <= r)%Q -> (r <= 1)%Q ->
  exists q,
    _score_authenticity (PDict d) = Ok q /\
    if pystr_eqb level (cp "low") then (80 <= q)%Q /\ (q <= 100)%Q
    else if pystr_eqb level (cp "medium") then (30 <= q)%Q /\ (q <= 60)%Q
    else (0 <= q)%Q /\ (q <= 20)%Q.
Proof.
  intros Hr Hl H0 H1. unfold _score_authenticity.
  rewrite (dict_truthy _ _ Hr). cbn [negb py_get]. rewrite Hr, Hl.
  cbn [rbind py_eq_str py_number].
  destruct (pystr_eqb level (cp "low")); [|destruct (pystr_eqb level (cp "medium"))];
    (eexists; split; [reflexivity|]); split;
    first [ apply Q.max_lub; lra
          | eapply Qle_trans; [|apply Q.le_max_l]; lra
          | eapply Qle_trans; [|apply Q.le_max_r]; lra ].
Qed.

Lemma level_name_low (l : RiskLevel) :
  pystr_eqb (level_name l) (cp "low") = match l with low => true | _ => false end.
Proof. destruct l; reflexivity. Qed.

Lemma level_name_medium (l : RiskLevel) :
  pystr_eqb (level_name l) (cp "medium")
  = match l with medium => true | _ => false end.
Proof. destruct l; reflexivity. Qed.

Lemma authenticity_carried (d : list (pystr * pyval)) (r : Q) (l : RiskLevel) :
  carries d r l ->
  _score_authenticity (PDict d)
  = Ok (match l with
        | low => Qmax (100 - r * 100 * 0.2) 60
        | medium => Qmax (60 - r * 100 * 0.3) 30
        | _ => Qmax (20 - r * 100 * 0.2) 0
        end).
Proof.
  intros [Hr Hl]. unfold _score_authenticity.
  rewrite (dict_truthy _ _ Hr). cbn [negb py_get]. rewrite Hr, Hl.
  cbn [rbind py_eq_str py_number].
  rewrite level_name_low, level_name_medium. destruct l; reflexivity.
Qed.

Lemma risk_level_of_cases (r : Q) :
  (risk_level_of r = high /\ (0.7 <= r)%Q) \/
  (risk_level_of r = medium /\ (0.4 <= r)%Q /\ (r < 0.7)%Q) \/
  (risk_level_of r = low /\ (r < 0.4)%Q).
Proof.
  unfold risk_level_of.
  destruct (Qle_bool 0.7 r) eqn:E1.
  - left. apply Qle_bool_iff in E1. auto.
  - apply Qle_bool_lt in E1. destruct (Qle_bool 0.4 r) eqn:E2.
    + apply Qle_bool_iff in E2. auto.
    + apply Qle_bool_lt in E2. auto.
Qed.

(** X14: when the level of each of two reports is the one that the
    detector derives from its score, the report of the higher risk score
    never gets the higher authenticity score. *)
Theorem authenticity_falls_with_risk
    (d1 d2 : list (pystr * pyval)) (r1 r2 : Q) :
  carries d1 r1 (risk_level_of r1) ->
  carries d2 r2 (risk_level_of r2) ->
  (r1 <= r2)%Q ->
  exists q1 q2,
    _score_authenticity (PDict d1) = Ok q1 /\
    _score_authenticity (PDict d2) = Ok q2 /\ (q2 <= q1)%Q.
Proof.
  intros H1 H2 Hle.
  rewrite (authenticity_carried H1), (authenticity_carried H2).
  do 2 eexists. split; [reflexivity|]. split; [reflexivity|].
  destruct (risk_level_of_cases r1) as [[-> ?]|[[-> [? ?]]|[-> ?]]];
    destruct (risk_level_of_cases r2) as [[-> ?]|[[-> [? ?]]|[-> ?]]];
    try (exfalso; lra).
  all: apply Q.max_lub.
  all: first [ eapply Qle_trans; [|apply Q.le_max_l]; lra
             | eapply Qle_trans; [|apply Q.le_max_r]; lra ].
Qed.

(** X15: the percentile does not decrease when the score increases. *)
Theorem percentile_monotone (s1 s2 : Q) :
  (s1 <= s2)%Q -> (_calculate_percentile s1 <= _calculate_percentile s2)%Z.
Proof.
  intros H. unfold _calculate_percentile.
  repeat match goal with
         | |- context [Qle_bool ?a ?b] =>
             let E := fresh "E" in
             destruct (Qle_bool a b) eqn:E;
             [apply Qle_bool_iff in E | apply Qle_bool_lt in E]
         end; try lia; exfalso; lra.
Qed.


Lemma level_points_range (degree_name : pystr) (points : Q) :
  level_points degree_name = Some points -> (5 <= points)%Q /\ (points <= 40)%Q.
Proof.
  unfold level_points.
  destruct (find _ education_levels) as [lp|] eqn:E; [|discriminate].
  intros [= <-]. apply find_some in E. destruct E as [E _].
  revert lp E. apply Forall_forall. unfold education_levels. cbn [map].
  repeat (apply Forall_cons; [split; unfold Qle; simpl; lia|]).
  apply Forall_nil.
Qed.

(** The score the loop holds between two degrees given by name: none yet,
    or the points of a level. *)
Lemma education_loop_names (names : list pystr) :
  forall score,
    ((score == 0)%Q \/ ((5 <= score)%Q /\ (score <= 40)%Q)) ->
    exists q,
      education_loop U (map PStr names) score = Ok q /\
      ((q == 0)%Q \/ ((5 <= q)%Q /\ (q <= 40)%Q)).
Proof.
  induction names as [|n names IH]; intros score Hs; cbn [map education_loop].
  - eauto.
  - cbn [degree_entry rbind]. apply IH.
    assert (Hb : gpa_bonus PNone = 0%Q) by reflexivity. rewrite Hb.
    destruct (level_points (py_lower U n)) as [points|] eqn:E.
    + right. apply level_points_range in E. destruct E as [E1 E2].
      destruct Hs as [Hs|[Hs1 Hs2]].
      * rewrite Hs. rewrite Q.max_r by lra. lra.
      * destruct (Q.max_spec score points) as [[_ ->]|[_ ->]]; lra.
    + destruct Hs as [Hs|Hs]; [left|right]; lra.
Qed.

(** The score of degrees given by name, from the score [q0] that the loop
    ends with. *)
Lemma education_names_value (d : list (pystr * pyval)) (names : list pystr) :
  dict_find d (cp "degrees") = Some (PList (map PStr names)) ->
  exists q0,
    ((q0 == 0)%Q \/ ((5 <= q0)%Q /\ (q0 <= 40)%Q)) /\
    (names = [] -> q0 = 0%Q) /\
    _score_education U (PDict d)
    = Ok (Qmin (if Qeq_bool q0 0 && negb (List.length names =? 0)%nat
                then 15 else q0) 100).
Proof.
  intros H. unfold _score_education.
  rewrite (dict_truthy _ _ H). cbn [negb py_get]. rewrite H.
  cbn [rbind py_iter].
  destruct (@education_loop_names names 0%Q) as [q0 [E Hq]]; [left; reflexivity|].
  rewrite E. cbn [rbind py_truthy]. rewrite length_map.
  exists q0. split; [exact Hq|]. split; [|reflexivity].
  intros ->. cbn in E. injection E as <-. reflexivity.
Qed.

Lemma education_score_range (q0 : Q) :
  ((q0 == 0)%Q \/ ((5 <= q0)%Q /\ (q0 <= 40)%Q)) ->
  (5 <= Qmin (if Qeq_bool q0 0 then 15 else q0) 100)%Q /\
  (Qmin (if Qeq_bool q0 0 then 15 else q0) 100 <= 40)%Q.
Proof.
  intros Hq. destruct (Qeq_bool q0 0) eqn:Eq.
  - rewrite Q.min_l; lra.
  - destruct Hq as [Hq|[Hq1 Hq2]].
    + apply Qeq_bool_iff in Hq. congruence.
    + rewrite Q.min_l; lra.
Qed.

(** X17: for degrees given by name (strings, as the parser gives them)
    the education score exists; it is 0 for an empty list of degrees and
    lies between 5 and 40 otherwise. *)
Theorem score_education_of_names
    (d : list (pystr * pyval)) (names : list pystr) :
  dict_find d (cp "degrees") = Some (PList (map PStr names)) ->
  exists q,
    _score_education U (PDict d) = Ok q /\
    (names = [] -> (q == 0)%Q) /\
    (names <> [] -> (5 <= q)%Q /\ (q <= 40)%Q).
Proof.
  intros H. destruct (@education_names_value d names H) as [q0 [Hq [H0 E]]].
  eexists. split; [exact E|]. split.
  - intros Hn. rewrite (H0 Hn), Hn. vm_compute. reflexivity.
  - intros Hne. destruct names as [|n names]; [congruence|].
    cbn [List.length Nat.eqb negb]. rewrite andb_true_r.
    exact (@education_score_range q0 Hq).
Qed.

End RankerFacts.

Section ParserFacts.

Variable U : Unicode.
Variable flesch : pyval -> result Q.
Variable set_order : list pystr -> list pystr.

Lemma sem_rep_chars (p : Z -> bool) (lo : nat) (hi : option nat)
    (w : pystr) (g g' : groups) :
  sem (RRep (RChar p) lo hi) w g g' ->
  Forall (fun c => p c = true) w /\ (lo <= List.length w)%nat
  /\ within hi (List.length w) /\ g' = g.
Proof.
  intros [n [Hlo [Hhi H]]]. apply iter_chars in H.
  destruct H as [H1 [H2 H3]]. subst n. auto.
Qed.

(** Take a derivation of [sem] apart. *)
Ltac sem_parts :=
  repeat match goal with
         | H : exists _, _ |- _ => destruct H
         | H : _ /\ _ |- _ => destruct H
         | H : _ \/ _ |- _ => destruct H
         | H : sem (rlit _) _ _ _ |- _ => apply sem_rlit in H
         | H : sem (rstr _) _ _ _ |- _ => apply sem_rstr in H
         | H : sem (ropt _) _ _ _ |- _ => apply sem_ropt in H
         | H : sem (RRep (RChar _) _ _) _ _ _ |- _ => apply sem_rep_chars in H
         | H : sem (rplus (RChar _)) _ _ _ |- _ => apply sem_rplus_chars in H
         | H : sem (rstar (RChar _)) _ _ _ |- _ => apply sem_rep_chars in H
         | H : sem (RChar _) _ _ _ |- _ => destruct H as [? [? [? ?]]]
         | H : sem (RSeq _ _) _ _ _ |- _ => destruct H as [? [? [? [? [? ?]]]]]
         | H : sem (RAlt _ _) _ _ _ |- _ => destruct H as [?|?]
         | H : sem REps _ _ _ |- _ => destruct H as [? ?]
         | H : sem (RWordB _) _ _ _ |- _ => destruct H as [? ?]
         | H : sem (RGroup _ _) _ _ _ |- _ => destruct H as [? [? ?]]
         end.

(** An e-mail address found by the pattern has an [@]. *)
Lemma email_shape (w : pystr) (g g' : groups) :
  sem (email_pattern U) w g g' -> In 64%Z w.
Proof.
  unfold email_pattern, rseq. cbn [fold_right].
  intros H. sem_parts. subst. change (chr "@") with 64%Z.
  rewrite !in_app_iff. cbn. auto.
Qed.

(** The group of the phone pattern, when it takes part in the match, is a
    [+], one to three digits and at most one separator. *)
Lemma phone_group_shape (w : pystr) (g' : groups) :
  sem (phone_pattern U) w [] g' ->
  g' = [] \/
  exists code, g' = [(1%nat, 43%Z :: code)] /\ (List.length code <= 4)%nat.
Proof.
  unfold phone_pattern, rseq, separator, rdigit. cbn [fold_right].
  intros H. destruct H as [u [v [gm [-> [Hgroup Hrest]]]]].
  assert (Hg : g' = gm).
  { clear Hgroup. sem_parts; subst; reflexivity. }
  subst gm. clear Hrest.
  apply sem_ropt in Hgroup.
  destruct Hgroup as [[_ ->]|Hgroup]; [left; reflexivity|right].
  sem_parts; subst.
  - change (chr "+") with 43%Z. cbn [app].
    eexists. split; [reflexivity|].
    cbn [within] in *. rewrite !length_app. cbn [List.length]. lia.
  - change (chr "+") with 43%Z. cbn [app].
    eexists. split; [reflexivity|].
    cbn [within] in *. rewrite !length_app. cbn [List.length]. lia.
Qed.


Lemma dict_find_first_found (k : string) (found : list pystr)
    (f : pystr -> pystr) (rest : list (pystr * pyval)) (k' : pystr) :
  dict_find (first_found k found f ++ rest) k'
  = match found with
    | x :: _ => if pystr_eqb (cp k) k' then Some (PStr (f x))
                else dict_find rest k'
    | [] => dict_find rest k'
    end.
Proof. destruct found; reflexivity. Qed.

(** Compare the keys of the source. *)
Ltac keys :=
  repeat match goal with
         | |- context [pystr_eqb (cp ?a) (cp ?b)] =>
             let v := eval vm_compute in (pystr_eqb (cp a) (cp b)) in
             change (pystr_eqb (cp a) (cp b)) with v
         end;
  cbv iota.

Lemma first_match (r : regex) (f : rematch -> pystr) (text x : pystr)
    (rest : list pystr) :
  map f (findall r text) = x :: rest ->
  exists m, f m = x /\ sem r (mt_text m) [] (mt_groups m).
Proof.
  destruct (findall r text) as [|m l] eqn:E; [discriminate|].
  intros [= <- _]. exists m. split; [reflexivity|].
  apply (@findall_sound r text). rewrite E. left. reflexivity.
Qed.

(** X18: the contact entries.  An [email] entry is a string with an [@].
    A [phone] entry is not the number found: it is the first group of the
    pattern, the country code, that is the empty string for a number without
    one and otherwise a [+] followed by at most four characters. *)
Theorem contact_info_entries (text : pystr) :
  exists d,
    _extract_contact_info U text = PDict d /\
    (forall v, dict_find d (cp "email") = Some v ->
       exists s, v = PStr s /\ In 64%Z s) /\
    (forall v, dict_find d (cp "phone") = Some v ->
       exists s, v = PStr s /\ (List.length s <= 5)%nat
                 /\ (s = [] \/ exists code, s = 43%Z :: code)).
Proof.
  unfold _extract_contact_info. eexists. split; [reflexivity|].
  rewrite !dict_find_first_found. split; intros v.
  - destruct (map mt_text (findall (email_pattern U) text)) as [|e es] eqn:E.
    + destruct (map _ (findall (phone_pattern U) text));
        destruct (map mt_text (findall (linkedin_pattern U) text));
        keys; rewrite ?app_nil_r; cbn [first_found dict_find app]; keys;
        discriminate.
    + keys. intros [= <-]. exists e. split; [reflexivity|].
      destruct (first_match _ _ _ E) as [m [<- Hm]].
      exact (email_shape Hm).
  - destruct (map mt_text (findall (email_pattern U) text)) as [|em ems]; keys.
    all: destruct (map _ (findall (phone_pattern U) text)) as [|ph phs] eqn:E.
    all: try (destruct (map mt_text (findall (linkedin_pattern U) text));
              rewrite ?app_nil_r; cbn [first_found item dict_find app]; keys;
              discriminate).
    all: keys; intros [= <-]; exists ph; split; [reflexivity|].
    all: destruct (first_match _ _ _ E) as [m [<- Hm]].
    all: unfold mt_group.
    all: destruct (phone_group_shape Hm) as [->|[code [-> Hc]]];
      cbn [group_find Nat.eqb List.length]; [split; [lia | left; reflexivity]|].
    all: split; [lia | right; eauto].
Qed.

Lemma groupless_iter (R : pystr -> groups -> groups -> Prop) :
  (forall w g g', R w g g' -> g' = g) ->
  forall n w g g', iter R n w g g' -> g' = g.
Proof.
  intros HR. induction 1 as [g|n u v g gm g' Hu _ IH]; [reflexivity|].
  rewrite IH. exact (HR _ _ _ Hu).
Qed.

Lemma groupless_sem (r : regex) :
  groupless r = true -> forall w g g', sem r w g g' -> g' = g.
Proof.
  induction r as [p| |a IHa b IHb|a IHa b IHb|a IHa lo hi|i a IHa|i norm|word];
    cbn [groupless]; intros Hr w g g' H.
  - destruct H as [c [_ [_ ->]]]. reflexivity.
  - destruct H as [_ ->]. reflexivity.
  - apply andb_true_iff in Hr. destruct Hr as [Ha Hb].
    destruct H as [u [v [gm [_ [Hu Hv]]]]].
    rewrite (IHb Hb _ _ _ Hv). exact (IHa Ha _ _ _ Hu).
  - apply andb_true_iff in Hr. destruct Hr as [Ha Hb].
    destruct H as [H|H]; [exact (IHa Ha _ _ _ H) | exact (IHb Hb _ _ _ H)].
  - destruct H as [n [_ [_ H]]]. exact (groupless_iter (IHa Hr) H).
  - discriminate.
  - exact H.
  - destruct H as [_ ->]. reflexivity.
Qed.

(** The first group of the experience pattern is a run of digits. *)
Lemma experience_group_shape (w : pystr) (g' : groups) :
  sem (experience_pattern U) w [] g' ->
  exists d, group_find g' 1 = Some d /\ digits U d.
Proof.
  unfold experience_pattern, rseq, rdigit. cbn [fold_right].
  intros H. destruct H as [u [v [gm [-> [Hg Hrest]]]]].
  destruct Hg as [g0 [Hd ->]]. apply sem_rplus_chars in Hd.
  destruct Hd as [Hd [Hne ->]].
  destruct Hrest as [u2 [v2 [g2 [-> [Hopt Hrest]]]]].
  apply groupless_sem in Hopt; [|reflexivity]. subst g2.
  destruct Hrest as [u3 [v3 [g3 [-> [[g4 [HX ->]] [_ ->]]]]]].
  apply groupless_sem in HX; [|reflexivity]. subst g4.
  exists u. split; [reflexivity | split; assumption].
Qed.

Lemma digit_value_nonneg (base c d : Z) :
  digit_value U base c = Some d -> (0 <= d)%Z.
Proof.
  unfold digit_value, is_ascii, ascii_isdigit, ascii_islower, ascii_isupper,
    between.
  destruct (c <? 128)%Z.
  - destruct ((48 <=? c)%Z && (c <=? 57)%Z) eqn:E1.
    + apply andb_true_iff in E1. destruct E1 as [E1 _]. apply Z.leb_le in E1.
      destruct (c - 48 <? base)%Z; intros [= <-]. lia.
    + destruct ((97 <=? c)%Z && (c <=? 122)%Z) eqn:E2.
      * apply andb_true_iff in E2. destruct E2 as [E2 _]. apply Z.leb_le in E2.
        destruct (c - 87 <? base)%Z; intros [= <-]. lia.
      * destruct ((65 <=? c)%Z && (c <=? 90)%Z) eqn:E3; [|discriminate].
        apply andb_true_iff in E3. destruct E3 as [E3 _]. apply Z.leb_le in E3.
        destruct (c - 55 <? base)%Z; intros [= <-]. lia.
  - destruct (u_decimal U c) as [x|] eqn:E; [|discriminate].
    pose proof (u_decimal_range U c E).
    destruct (x <? base)%Z; intros [= <-]. lia.
Qed.

Lemma parse_digits_nonneg (l : pystr) :
  forall acc prev_digit n,
    parse_digits U 10 l acc prev_digit = Some n -> (0 <= acc)%Z -> (0 <= n)%Z.
Proof.
  induction l as [|c l IH]; intros acc prev_digit n; cbn [parse_digits].
  - destruct prev_digit; [|discriminate]. intros [= <-]. trivial.
  - destruct (c =? 95)%Z.
    + destruct prev_digit; [|discriminate]. apply IH.
    + destruct (digit_value U 10 c) as [d|] eqn:E; [|discriminate].
      intros H Hacc. apply (IH _ _ _ H).
      pose proof (@digit_value_nonneg _ _ _ E). lia.
Qed.

(** [int] gives a run of digits a value that is not negative. *)
Lemma py_int_digits_nonneg (l : pystr) :
  digits U l -> exists n, py_int U 10 l = Ok n /\ (0 <= n)%Z.
Proof.
  intros [Hd Hne]. unfold py_int.
  rewrite (strip_space_id U (digits_no_space U Hd)), (split_sign_digits U Hd).
  destruct (@parse_digits_total U l Hd 0%Z false (or_introl Hne)) as [n E].
  pose proof (@parse_digits_nonneg l _ _ _ E (Z.le_refl 0)) as Hn.
  change (10 =? 16)%Z with false.
  destruct l as [|z [|x r]]; rewrite ?andb_false_r; rewrite E;
    cbn [andb]; exists (1 * n)%Z; (split; [reflexivity | lia]).
Qed.

Lemma years_of_total (ms : list rematch) :
  Forall (fun m => sem (experience_pattern U) (mt_text m) [] (mt_groups m)) ms ->
  exists years, years_of U ms = Ok years /\ Forall (fun y => (0 <= y)%Z) years.
Proof.
  induction 1 as [|m ms Hm _ [years [E Hy]]]; cbn [years_of].
  - exists []. split; [reflexivity | constructor].
  - destruct (experience_group_shape Hm) as [d [Hg Hd]].
    unfold mt_group. rewrite Hg.
    destruct (py_int_digits_nonneg Hd) as [n [-> Hn]]. rewrite E.
    cbn [rbind]. exists (n :: years). split; [reflexivity|].
    constructor; assumption.
Qed.

Lemma max_years_nonneg (years : list Z) :
  Forall (fun y => (0 <= y)%Z) years -> (0 <= max_years years)%Z.
Proof.
  unfold max_years. destruct 1 as [|y rest Hy Hrest]; [lia|].
  revert y Hy. induction Hrest as [|z rest Hz _ IH]; intros y Hy;
    cbn [fold_left]; [exact Hy|].
  apply IH. lia.
Qed.

(** X19: the extraction of the experience never raises: [int] accepts
    every run of digits that the pattern captures.  The years are never
    negative, and the titles are the job keywords that occur in the text in
    lower case. *)
Theorem extract_experience_total (text : pystr) :
  exists years titles,
    _extract_experience U text
    = Ok (PDict (item "years_experience" (PNum (inject_Z years))
                 ++ item "job_titles" (PList (map PStr titles)))) /\
    (0 <= years)%Z /\
    (forall title, In title titles <->
                   In title (map cp job_keywords)
                   /\ contains title (py_lower U text) = true).
Proof.
  unfold _extract_experience.
  destruct (@years_of_total (findall (experience_pattern U) text))
    as [years [E Hy]].
  { apply Forall_forall. intros m Hm. exact (findall_sound _ _ _ Hm). }
  rewrite E. cbn [rbind].
  exists (max_years years),
    (filter (fun title => contains title (py_lower U text)) (map cp job_keywords)).
  split; [reflexivity|].
  split; [apply max_years_nonneg; exact Hy|].
  intros title.
  exact (filter_In (fun title => contains title (py_lower U text)) title
           (map cp job_keywords)).
Qed.

(** X20: the education score of the [education] entry that the parser
    extracts exists and lies between 0 and 40, whatever GPA the parser
    finds; it is 0 exactly when the text names no education level. *)
Theorem parsed_education_score (text : pystr) :
  exists q,
    _score_education U (_extract_education U text) = Ok q /\
    (0 <= q)%Q /\ (q <= 40)%Q /\
    ((q == 0)%Q <->
     forall level, In level (map cp parser_education_levels) ->
                   contains level (py_lower U text) = false).
Proof.
  unfold _extract_education.
  set (found := filter _ (map cp parser_education_levels)).
  set (d := item "degrees" (PList (map PStr found)) ++ _).
  destruct (@education_names_value U d found) as [q0 [Hq [H0 E]]];
    [reflexivity|].
  eexists. split; [exact E|].
  assert (Hnone : found = [] <->
                  forall level, In level (map cp parser_education_levels) ->
                                contains level (py_lower U text) = false).
  { subst found. split.
    - intros Hf level Hin.
      destruct (contains level (py_lower U text)) eqn:Ec; [|reflexivity].
      assert (Hi : In level (filter (fun level => contains level (py_lower U text))
                               (map cp parser_education_levels)))
        by (apply filter_In; auto).
      rewrite Hf in Hi. destruct Hi.
    - intros Hn.
      destruct (filter _ _) as [|x l] eqn:Ef; [reflexivity|].
      assert (Hi : In x (filter (fun level => contains level (py_lower U text))
                           (map cp parser_education_levels)))
        by (rewrite Ef; left; reflexivity).
      apply filter_In in Hi. destruct Hi as [Hi Hc].
      rewrite (Hn x Hi) in Hc. discriminate. }
  clearbody found. clear d E. destruct found as [|x l].
  - rewrite (H0 eq_refl). cbn [List.length Nat.eqb negb andb Qeq_bool].
    assert (Ez : (Qmin (if Qeq_bool 0 0 && false then 15 else 0) 100 == 0)%Q)
      by (vm_compute; reflexivity).
    rewrite Ez. repeat split; try lra.
    intros _. apply Hnone. reflexivity.
  - cbn [List.length Nat.eqb negb]. rewrite andb_true_r.
    destruct (@education_score_range q0 Hq) as [H5 H40].
    repeat split; try lra.
    intros Hn. apply Hnone in Hn. discriminate.
Qed.

Ltac fields :=
  cbn [risk_score detected issues details_error new_analysis log_error
       set_error set_detected set_risk_score add_risk_score set_issues
       append_issue].

Ltac step :=
  first [ rewrite wp_bind | rewrite wp_ret | rewrite wp_update
        | rewrite wp_lift | rewrite wp_when ];
  cbv beta.

Ltac run :=
  repeat first
    [ step
    | match goal with
      | |- match ?r with Ok _ => _ | Raise _ => _ end => destruct r eqn:?
      | |- if ?b then _ else _ => destruct b eqn:?
      | |- wp (let '(_, _) := ?p in _) _ _ _ => destruct p
      end ];
  fields.

(** On a well-formed [parsed_data] - a list of skills, a number of years,
    a dictionary of contact entries - the content detector can only fail
    inside [textstat], before it has touched [analysis]. *)
Lemma content_authenticity_well_formed
    (pd text skills_entry experience : pyval) (skills : list pyval)
    (years : Q) (contact : list (pystr * pyval)) :
  py_getitem pd (cp "raw_text") = Ok text ->
  py_get pd (cp "skills") (PDict []) = Ok skills_entry ->
  py_get skills_entry (cp "all_skills") (PList []) = Ok (PList skills) ->
  py_get pd (cp "experience") (PDict []) = Ok experience ->
  py_get experience (cp "years_experience") (PNum 0) = Ok (PNum years) ->
  py_get pd (cp "contact_info") (PDict []) = Ok (PDict contact) ->
  wp (content_authenticity_body flesch pd)
     (fun _ a => flag_agrees a)
     (fun e a => a = new_analysis /\ flesch text = Raise e)
     new_analysis.
Proof.
  intros Hraw Hskills Hall Hexp Hyears Hcontact.
  unfold content_authenticity_body.
  rewrite wp_bind, wp_lift, Hraw. cbv beta iota.
  rewrite wp_bind, wp_lift. destruct (flesch text) as [readability|e];
    [|split; reflexivity].
  cbv beta iota.
  rewrite wp_bind, wp_lift, Hskills. cbv beta iota.
  rewrite wp_bind, wp_lift, Hall. cbv beta iota.
  rewrite wp_bind, wp_lift. cbn [py_len]. cbv beta iota.
  rewrite wp_bind, wp_lift, Hexp. cbv beta iota.
  rewrite wp_bind, wp_lift, Hyears. cbv beta iota.
  rewrite wp_bind, wp_lift. cbn [py_lt py_number rbind]. cbv beta iota.
  rewrite wp_bind, wp_when.
  set (flag1 := Qltb years 2 && (20 <? List.length skills)%nat).
  assert (Hcontact_get : forall k, exists v, py_get (PDict contact) k PNone = Ok v).
  { intros k. cbn [py_get]. destruct (dict_find contact k); eauto. }
  destruct (Hcontact_get (cp "email")) as [email Hemail].
  destruct (Hcontact_get (cp "phone")) as [phone Hphone].
  assert (Hexcl : flag1 = true -> Qltb 50 years = true -> False).
  { subst flag1. intros H1 H2. apply andb_true_iff in H1. destruct H1 as [H1 _].
    apply Qltb_lt in H1, H2. lra. }
  destruct flag1; cbv beta iota.
  all: rewrite ?wp_update; cbv beta.
  all: rewrite wp_bind, wp_when.
  all: destruct (Qltb readability 30); cbv beta iota.
  all: rewrite ?wp_update; cbv beta.
  all: rewrite wp_bind, wp_lift, Hcontact; cbv beta iota.
  all: rewrite wp_bind, wp_lift, Hemail; cbv beta iota.
  all: rewrite wp_bind, wp_lift.
  all: destruct (py_truthy email); rewrite ?Hphone; cbv beta iota.
  all: rewrite wp_bind, wp_when; cbn [negb andb].
  all: try (destruct (py_truthy phone); cbn [negb]).
  all: cbv beta iota; rewrite ?wp_update; cbv beta.
  all: rewrite wp_bind, wp_lift; cbn [py_gt py_number rbind]; cbv beta iota.
  all: rewrite wp_bind, wp_when.
  all: destruct (Qltb 50 years) eqn:E50; cbv beta iota.
  all: try (exfalso; apply Hexcl; reflexivity).
  all: rewrite ?wp_update; cbv beta.
  all: cbn [app List.length Nat.eqb negb]; rewrite wp_when; cbv beta iota.
  all: rewrite ?wp_update, ?wp_ret; cbv beta.
  all: unfold flag_agrees; fields; split; intros Hd; try discriminate; lra.
Qed.

(** What the signal is when its block fails inside [textstat] only. *)
Lemma content_signal_shape (pd text : pyval) :
  wp (content_authenticity_body flesch pd)
     (fun _ a => flag_agrees a)
     (fun e a => a = new_analysis /\ flesch text = Raise e)
     new_analysis ->
  let content := _analyze_content_authenticity flesch pd in
  flag_agrees content /\
  (forall e, raises (content_authenticity_body flesch pd) e ->
             flesch text = Raise e /\ content = new_analysis).
Proof.
  intros Hwp. cbv zeta.
  unfold _analyze_content_authenticity, try_except, raises, log_error.
  unfold wp in Hwp.
  destruct (content_authenticity_body flesch pd new_analysis) as [[u|e] a];
    cbn [fst].
  - split; [exact Hwp | discriminate].
  - destruct Hwp as [-> Hf]. split; [apply flag_agrees_new|].
    intros e' [= <-]. auto.
Qed.

(** X21: on a well-formed [parsed_data] (a text, a list of skills, a number
    of years and a dictionary of contact entries) the flag of the content
    signal agrees with its score, and the detector fails only when
    [textstat] does, in which case the signal is the initial dictionary: no
    partial score is kept. *)
Theorem well_formed_content_signal
    (pd text skills_entry experience : pyval) (skills : list pyval)
    (years : Q) (contact : list (pystr * pyval)) :
  py_getitem pd (cp "raw_text") = Ok text ->
  py_get pd (cp "skills") (PDict []) = Ok skills_entry ->
  py_get skills_entry (cp "all_skills") (PList []) = Ok (PList skills) ->
  py_get pd (cp "experience") (PDict []) = Ok experience ->
  py_get experience (cp "years_experience") (PNum 0) = Ok (PNum years) ->
  py_get pd (cp "contact_info") (PDict []) = Ok (PDict contact) ->
  let content := _analyze_content_authenticity flesch pd in
  flag_agrees content /\
  (forall e, raises (content_authenticity_body flesch pd) e ->
             flesch text = Raise e /\ content = new_analysis).
Proof.
  intros Hraw Hskills Hall Hexp Hyears Hcontact.
  apply content_signal_shape.
  exact (@content_authenticity_well_formed pd text skills_entry experience
           skills years contact Hraw Hskills Hall Hexp Hyears Hcontact).
Qed.







End ParserFacts.

Section ParserText.

Variable U : Unicode.

Lemma split_lines_nonempty (s : pystr) : split_lines s <> [].
Proof.
  destruct s as [|c t]; cbn [split_lines]; [discriminate|].
  destruct (c =? 10)%Z; [discriminate|].
  destruct (split_lines t); discriminate.
Qed.

Lemma split_lines_no_newline (s : pystr) :
  Forall (fun line => ~ In 10%Z line) (split_lines s).
Proof.
  induction s as [|c t IH]; cbn [split_lines].
  - repeat constructor. intros [].
  - destruct (c =? 10)%Z eqn:E.
    + constructor; [intros []|exact IH].
    + apply Z.eqb_neq in E.
      destruct (split_lines t) as [|line rest].
      * repeat constructor. intros [H|[]]. congruence.
      * inversion IH as [|? ? Hl Hr]. subst. constructor; [|exact Hr].
        intros [H|H]; [congruence | exact (Hl H)].
Qed.

Lemma lstrip_suffix (s : pystr) : exists sp, s = sp ++ lstrip U s.
Proof.
  induction s as [|c t [sp IH]]; cbn [lstrip].
  - exists []. reflexivity.
  - destruct (is_space U c).
    + exists (c :: sp). cbn [app]. rewrite <- IH. reflexivity.
    + exists []. reflexivity.
Qed.

(** Stripping removes characters from both ends only. *)
Lemma py_strip_middle (s : pystr) :
  exists a b, s = a ++ py_strip U s ++ b.
Proof.
  unfold py_strip.
  destruct (lstrip_suffix s) as [a Ha].
  destruct (lstrip_suffix (rev (lstrip U s))) as [b Hb].
  exists a, (rev b). rewrite <- rev_app_distr, <- Hb, rev_involutive. exact Ha.
Qed.

Lemma py_strip_in (s : pystr) (c : Z) : In c (py_strip U s) -> In c s.
Proof.
  destruct (py_strip_middle s) as [a [b E]]. intros H.
  rewrite E, !in_app_iff. auto.
Qed.

Lemma py_strip_length (s : pystr) :
  (List.length (py_strip U s) <= List.length s)%nat.
Proof.
  destruct (py_strip_middle s) as [a [b E]].
  rewrite E at 2. rewrite !length_app. lia.
Qed.

Lemma firstn_in {A} (n : nat) (l : list A) (x : A) :
  In x (firstn n l) -> In x l.
Proof.
  intros H. rewrite <- (firstn_skipn n l), in_app_iff. auto.
Qed.

(** X23: at most ten certifications are returned; each is a line of the
    text that names a certification keyword, stripped, and holds no line
    break. *)
Theorem certifications_are_lines (text : pystr) :
  let certifications := _extract_certifications U text in
  (List.length certifications <= 10)%nat /\
  Forall (fun cert =>
            ~ In 10%Z cert /\
            exists line, In line (split_lines text)
                         /\ cert = py_strip U line
                         /\ any_keyword cert_keywords (py_lower U line) = true)
         certifications.
Proof.
  cbv zeta. unfold _extract_certifications. split.
  - apply firstn_le_length.
  - apply Forall_forall. intros cert H. apply firstn_in in H.
    apply in_map_iff in H. destruct H as [line [<- H]].
    apply filter_In in H. destruct H as [Hline Hk].
    split; [|eauto].
    intros Hn. apply py_strip_in in Hn.
    pose proof (split_lines_no_newline text) as Hf.
    rewrite Forall_forall in Hf. exact (Hf line Hline Hn).
Qed.

Lemma join_spaces_no_newline (l : list pystr) :
  Forall (fun line => ~ In 10%Z line) l -> ~ In 10%Z (join_spaces l).
Proof.
  induction 1 as [|x l Hx Hl IH]; cbn [join_spaces]; [intros []|].
  destruct l as [|y l]; [exact Hx|].
  rewrite in_app_iff. intros [H|[H|H]]; [exact (Hx H) | discriminate | exact (IH H)].
Qed.

Lemma Forall_suffix_firstn {A} (P : A -> Prop) (n : nat) (l : list A) :
  Forall P l -> Forall P (firstn n l).
Proof.
  intros H. apply Forall_forall. intros x Hx. apply firstn_in in Hx.
  rewrite Forall_forall in H. auto.
Qed.

Lemma summary_section_shape (lines : list pystr) (summary : pystr) :
  Forall (fun line => ~ In 10%Z line) lines ->
  summary_section U lines = Some summary ->
  ~ In 10%Z summary /\ (50 < List.length summary <= 500)%nat.
Proof.
  induction 1 as [|line rest Hline Hrest IH]; cbn [summary_section];
    [discriminate|].
  cbv zeta.
  match goal with
  | |- (if _ && (_ <? List.length ?j)%nat then _ else _) = _ -> _ =>
      set (joined := j)
  end.
  assert (Hj : ~ In 10%Z joined).
  { subst joined. intros H. apply py_strip_in in H. revert H.
    apply join_spaces_no_newline. apply Forall_suffix_firstn.
    constructor; assumption. }
  clearbody joined.
  match goal with
  | |- (if ?b then _ else _) = _ -> _ => destruct b eqn:E; [|exact IH]
  end.
  intros Hs. assert (Es : summary = firstn 500 joined) by congruence.
  rewrite Es. clear Hs Es.
  apply andb_true_iff in E. destruct E as [_ E].
  apply Nat.ltb_lt in E. split.
  - intros H. apply firstn_in in H. exact (Hj H).
  - rewrite length_firstn. lia.
Qed.

Lemma contains_needs_head (p s : pystr) (c : Z) :
  contains (c :: p) s = true -> In c s.
Proof.
  induction s as [|d s IH]; cbn [contains starts_with].
  - discriminate.
  - intros H. apply orb_true_iff in H. destruct H as [H|H].
    + apply andb_true_iff in H. destruct H as [H _]. apply Z.eqb_eq in H.
      left. congruence.
    + right. exact (IH H).
Qed.

Lemma first_paragraph_no_blank (s : pystr) :
  contains blank_line (first_paragraph s) = false.
Proof.
  unfold blank_line.
  induction s as [|c t IH]; cbn [first_paragraph]; [reflexivity|].
  destruct (starts_with [10; 10]%Z (c :: t)) eqn:E; [reflexivity|].
  cbn [contains]. rewrite IH, orb_false_r.
  cbn [starts_with] in *.
  destruct (10 =? c)%Z; [|reflexivity]. cbn [andb] in *.
  destruct t as [|d t]; [reflexivity|]. cbn [first_paragraph].
  destruct (10 =? d)%Z eqn:Ed; [discriminate|].
  cbn [andb].
  destruct (starts_with [10; 10]%Z (d :: t)); cbn [starts_with]; [reflexivity|].
  rewrite Ed. reflexivity.
Qed.

Lemma starts_with_firstn (p s : pystr) (n : nat) :
  starts_with p (firstn n s) = true -> starts_with p s = true.
Proof.
  revert s n. induction p as [|c p IH]; intros s n; cbn [starts_with];
    [reflexivity|].
  destruct n as [|n]; destruct s as [|d s]; cbn [firstn]; try discriminate.
  intros H. apply andb_true_iff in H. destruct H as [H1 H2].
  rewrite H1, (IH _ _ H2). reflexivity.
Qed.

Lemma contains_firstn (p s : pystr) (n : nat) :
  contains p s = false -> contains p (firstn n s) = false.
Proof.
  revert n. induction s as [|c s IH]; intros n H.
  - destruct n; exact H.
  - destruct n as [|n].
    + cbn [firstn contains] in *. apply orb_false_iff in H. destruct H as [H _].
      destruct p; [discriminate H | reflexivity].
    + cbn [contains] in H. apply orb_false_iff in H. destruct H as [H1 H2].
      cbn [firstn contains]. rewrite (IH n H2), orb_false_r.
      destruct (starts_with p (c :: firstn n s)) eqn:E; [|reflexivity].
      change (c :: firstn n s) with (firstn (S n) (c :: s)) in E.
      apply starts_with_firstn in E. congruence.
Qed.

(** X24: the summary has at most 500 characters and holds no empty line;
    when no summary section is found it has at most 300 characters. *)
Theorem summary_is_bounded (text : pystr) :
  let summary := _extract_summary U text in
  (List.length summary <= 500)%nat /\
  contains blank_line summary = false /\
  (summary_section U (split_lines text) = None ->
   (List.length summary <= 300)%nat).
Proof.
  cbv zeta. unfold _extract_summary.
  destruct (summary_section U (split_lines text)) as [summary|] eqn:E.
  - destruct (summary_section_shape (split_lines_no_newline text) E)
      as [Hn Hl].
    split; [lia|]. split; [|discriminate].
    destruct (contains blank_line summary) eqn:Ec; [|reflexivity].
    apply contains_needs_head in Ec. contradiction.
  - assert (Hl : (List.length (firstn 300 (first_paragraph text)) <= 300)%nat)
      by apply firstn_le_length.
    split; [lia|]. split; [|intros _; exact Hl].
    apply contains_firstn. apply first_paragraph_no_blank.
Qed.

End ParserText.

(* ===================================================================== *)
(** * The further properties on concrete inputs *)
(* ===================================================================== *)

Lemma non_pdf_never_high_witness :
  let r := analyze ascii_unicode (flesch_const 10) docx_file parsed_forged in
  is_pdf ascii_unicode docx_file = false /\
  _detect_white_text ascii_unicode docx_file = new_analysis /\
  _analyze_suspicious_formatting ascii_unicode docx_file = new_analysis /\
  _analyze_pdf_content_streams ascii_unicode docx_file = new_analysis /\
  (overall_risk_score r <= 0.5)%Q /\
  risk_level r <> high.
Proof.
  split; [reflexivity|].
  apply (non_pdf_never_high ascii_unicode (flesch_const 10) docx_file
           parsed_forged).
  reflexivity.
Defined.

(** The bound 13/15 on the overall score is reached, by a PDF that trips
    every detector. *)
Lemma overall_score_reaches_ceiling :
  (overall_risk_score
     (analyze ascii_unicode (flesch_const 10) pdf_forged parsed_forged)
   == 13 # 15)%Q.
Proof. vm_compute. reflexivity. Qed.

Lemma high_level_needs_five_signals_witness :
  let r := analyze ascii_unicode (flesch_const 10) pdf_forged parsed_forged in
  risk_level r = high /\ (5 <= positive_signals r)%nat.
Proof.
  assert (H : risk_level (analyze ascii_unicode (flesch_const 10) pdf_forged
                            parsed_forged) = high) by (vm_compute; reflexivity).
  split; [exact H|].
  exact (high_level_needs_five_signals ascii_unicode (flesch_const 10)
           pdf_forged parsed_forged H).
Defined.

(** Two resumes that differ in their [education] entry only. *)
Lemma analyze_reads_four_entries_witness :
  py_get parsed_forged (cp "education") PNone
  <> py_get parsed_forged_phd (cp "education") PNone /\
  analyze ascii_unicode (flesch_const 10) pdf_forged parsed_forged
  = analyze ascii_unicode (flesch_const 10) pdf_forged parsed_forged_phd.
Proof.
  split; [vm_compute; discriminate|].
  apply (analyze_reads_four_entries ascii_unicode (flesch_const 10) pdf_forged).
  intros k Hk. cbn in Hk.
  repeat (destruct Hk as [<-|Hk]; [reflexivity|]). destruct Hk.
Defined.

Lemma page_order_is_irrelevant_witness :
  Permutation [page_one_tiny; page_forged] [page_forged; page_one_tiny] /\
  Permutation [Some six_fills; Some (cp "3 Tr")]
              [Some (cp "3 Tr"); Some six_fills] /\
  _analyze_suspicious_formatting ascii_unicode pdf_two_pages
  = _analyze_suspicious_formatting ascii_unicode pdf_two_pages_swapped /\
  _analyze_pdf_content_streams ascii_unicode pdf_two_pages
  = _analyze_pdf_content_streams ascii_unicode pdf_two_pages_swapped.
Proof.
  assert (Hp := perm_swap page_forged page_one_tiny []).
  assert (Hs := perm_swap (Some (cp "3 Tr")) (Some six_fills) []).
  split; [exact Hp|]. split; [exact Hs|].
  exact (@page_order_is_irrelevant ascii_unicode pdf_two_pages
           pdf_two_pages_swapped _ _ _ _
           eq_refl eq_refl eq_refl eq_refl eq_refl Hp Hs).
Defined.

Lemma score_skills_saturates_witness :
  exists q, _score_skills (PDict skills_full) = Ok q /\ (q == 100)%Q.
Proof.
  apply (score_skills_saturates skills_full).
  intros category H. cbn in H.
  repeat (destruct H as [<-|H]; [eexists; split; [reflexivity | cbn; lia]|]).
  destruct H.
Defined.

Lemma authenticity_bands_witness :
  let d := [ (cp "overall_risk_score", PNum 0.5);
             (cp "risk_level", PStr (cp "medium")) ] in
  dict_find d (cp "overall_risk_score") = Some (PNum 0.5) /\
  dict_find d (cp "risk_level") = Some (PStr (cp "medium")) /\
  exists q, _score_authenticity (PDict d) = Ok q /\ (30 <= q)%Q /\ (q <= 60)%Q.
Proof.
  split; [reflexivity|]. split; [reflexivity|].
  apply (@authenticity_bands
           [ (cp "overall_risk_score", PNum 0.5);
             (cp "risk_level", PStr (cp "medium")) ]
           0.5%Q (cp "medium")); [reflexivity | reflexivity | lra | lra].
Defined.

(** The report of a Word document and the report of a forged PDF for the
    same resume. *)
Lemma authenticity_falls_with_risk_witness :
  let r1 := analyze ascii_unicode (flesch_const 10) docx_file parsed_forged in
  let r2 := analyze ascii_unicode (flesch_const 10) pdf_forged parsed_forged in
  (overall_risk_score r1 <= overall_risk_score r2)%Q /\
  exists q1 q2,
    _score_authenticity (PDict (report_entries r1)) = Ok q1 /\
    _score_authenticity (PDict (report_entries r2)) = Ok q2 /\ (q2 <= q1)%Q.
Proof.
  cbv zeta.
  assert (Hle : (overall_risk_score
                   (analyze ascii_unicode (flesch_const 10) docx_file
                      parsed_forged)
                 <= overall_risk_score
                      (analyze ascii_unicode (flesch_const 10) pdf_forged
                         parsed_forged))%Q)
    by (apply Qle_bool_iff; vm_compute; reflexivity).
  split; [exact Hle|].
  apply (@authenticity_falls_with_risk
           (report_entries (analyze ascii_unicode (flesch_const 10) docx_file
                              parsed_forged))
           (report_entries (analyze ascii_unicode (flesch_const 10) pdf_forged
                              parsed_forged))
           (overall_risk_score
              (analyze ascii_unicode (flesch_const 10) docx_file parsed_forged))
           (overall_risk_score
              (analyze ascii_unicode (flesch_const 10) pdf_forged
                 parsed_forged)));
    [split; vm_compute; reflexivity | split; vm_compute; reflexivity
    | exact Hle].
Defined.

Lemma percentile_monotone_witness :
  (59 <= 60)%Q /\ (_calculate_percentile 59 <= _calculate_percentile 60)%Z.
Proof.
  assert (H : (59 <= 60)%Q) by (unfold Qle; simpl; lia).
  split; [exact H | exact (percentile_monotone H)].
Defined.


Lemma score_education_of_names_witness :
  let d := [ (cp "degrees", PList (map PStr [cp "phd"; cp "mba"])) ] in
  dict_find d (cp "degrees") = Some (PList (map PStr [cp "phd"; cp "mba"])) /\
  exists q,
    _score_education ascii_unicode (PDict d) = Ok q /\ (5 <= q)%Q /\ (q <= 40)%Q.
Proof.
  cbv zeta. split; [reflexivity|].
  destruct (@score_education_of_names ascii_unicode
              [ (cp "degrees", PList (map PStr [cp "phd"; cp "mba"])) ]
              [cp "phd"; cp "mba"] eq_refl) as [q [E [_ H]]].
  exists q. split; [exact E|]. apply H. discriminate.
Defined.

Lemma well_formed_content_signal_witness :
  let content := _analyze_content_authenticity (flesch_const 10) parsed_forged in
  py_getitem parsed_forged (cp "raw_text") = Ok (PStr text_forged) /\
  py_get parsed_forged (cp "contact_info") (PDict []) = Ok (PDict []) /\
  flag_agrees content /\
  (forall e, raises (content_authenticity_body (flesch_const 10) parsed_forged) e ->
             flesch_const 10 (PStr text_forged) = Raise e
             /\ content = new_analysis).
Proof.
  split; [reflexivity|]. split; [reflexivity|].
  exact (@well_formed_content_signal (flesch_const 10) parsed_forged
           (PStr text_forged)
           (dict [("all_skills", PList [])]%string)
           (dict [("years_experience", PNum 60)]%string)
           [] 60%Q [] eq_refl eq_refl eq_refl eq_refl eq_refl eq_refl).
Defined.
